(** * Flax Engine: verification of selected engine, editor and build-tool code

    The development embeds, function by function, the parts of the repository
    that the specification talks about:

    - the volumetric fog shader ([VolumetricFog]: [CS_LightScattering],
      [PS_InjectLight], [CS_FinalIntegration]),
    - the Windows SDK discovery of the build tool ([WindowsPlatformBase]),
    - the toolchain cache of [Platform.GetToolchain],
    - the build rules of the texture tool ([TextureTool.Setup]),
    - the editor cache file ([EditorCacheModule.SaveGuarded] / [LoadGuarded],
      with the UTF-16 strings of .NET and their UTF-8 form in the file),
    - the bounding box of an imported LOD ([ImportedModelData::LOD::GetBox]).

    HLSL [float] values are IEEE-754 binary32 numbers ([spec_float] with a
    24 bit significand), [uint] and [int] are 32 bit integers carried in [Z]
    with their wrap-around written out; [Binary32] proves what rounding does
    to the products the ray march accumulates.  Functions that live in files
    outside the embedded sources (other shader includes, the .NET base class
    library, abstract methods) are parameters of the sections that use them. *)

From stdpp Require Import gmap strings list fin_maps.
From Stdlib Require Import ZArith Lia.
From Stdlib Require Import Floats.SpecFloat.

Local Open Scope Z_scope.

(* ===================================================================== *)
(** * HLSL scalars and vectors                                            *)
(* ===================================================================== *)

Module Hlsl.

(** ** 32 bit integers *)

Definition uint_modulus : Z := 2 ^ 32.

(** Conversion of an integer value to [uint] (two's complement wrap). *)
Definition to_uint (z : Z) : Z := z mod uint_modulus.

Definition is_uint (z : Z) : Prop := 0 <= z < uint_modulus.

Definition uint_add (a b : Z) : Z := to_uint (a + b).

(** [a < b] where [a] is a [uint] and [b] an [int]: the usual arithmetic
    conversions turn the signed operand into [uint] before comparing. *)
Definition uint_lt_int (a b : Z) : bool := a <? to_uint b.

(** [(int)a] for a [uint]: the same 32 bits read as a signed number. *)
Definition to_int (z : Z) : Z :=
  let u := to_uint z in if u <? 2 ^ 31 then u else u - uint_modulus.

(** ** binary32 floating point *)

Definition prec : Z := 24.
Definition emax : Z := 128.

Abbreviation float := spec_float.

Definition fadd : float -> float -> float := SFadd prec emax.
Definition fsub : float -> float -> float := SFsub prec emax.
Definition fmul : float -> float -> float := SFmul prec emax.
Definition fdiv : float -> float -> float := SFdiv prec emax.
Definition fsqrt : float -> float := SFsqrt prec emax.
Definition fneg : float -> float := SFopp.
Definition flt : float -> float -> bool := SFltb.
Definition fgt (a b : float) : bool := SFltb b a.
Definition fabs : float -> float := SFabs.

(** [(float)z] for an integer [z]: the nearest binary32 value. *)
Definition of_Z (z : Z) : float := binary_normalize prec emax z 0 false.

(** A decimal literal [n/d], rounded to nearest like the compiler does. *)
Definition literal (n d : Z) : float := fdiv (of_Z n) (of_Z d).

Definition f0 : float := of_Z 0.
Definition f1 : float := of_Z 1.

Definition isnan (a : float) : bool :=
  match a with S754_nan => true | _ => false end.

Definition isinf (a : float) : bool :=
  match a with S754_infinity _ => true | _ => false end.

(** [max(a, b)]: when one operand is NaN the other one is returned. *)
Definition fmax (a b : float) : float :=
  if isnan a then b else if isnan b then a else if flt a b then b else a.

(** A finite number (neither NaN nor an infinity). *)
Definition is_finite (a : float) : bool :=
  match a with
  | S754_zero _ | S754_finite _ _ _ => true
  | _ => false
  end.

(** [0 <= a] as IEEE comparison; false for NaN. *)
Definition is_nonneg (a : float) : bool := SFleb f0 a.

(** [a <= b] as IEEE comparison; false when either is NaN. *)
Definition fle : float -> float -> bool := SFleb.

(** A value a binary32 register can hold: the mantissa has at most 24 bits
    and is normalised, the exponent is in range. *)
Definition valid (a : float) : bool := valid_binary prec emax a.

(** [0 <= a <= 1]. *)
Definition in_unit_interval (a : float) : bool := is_nonneg a && fle a f1.

(** ** Vectors *)

Record float2 := mkFloat2 { x2 : float; y2 : float }.
Record float3 := mkFloat3 { x3 : float; y3 : float; z3 : float }.
Record float4 := mkFloat4 { x4 : float; y4 : float; z4 : float; w4 : float }.
Record uint3 := mkUint3 { ux : Z; uy : Z; uz : Z }.
Record int3 := mkInt3 { ix : Z; iy : Z; iz : Z }.
Record bool3 := mkBool3 { bx : bool; by' : bool; bz : bool }.

(** Rows of a [float4x4]. *)
Record float4x4 := mkFloat4x4 { row0 : float4; row1 : float4; row2 : float4; row3 : float4 }.

Definition splat3 (a : float) : float3 := mkFloat3 a a a.
Definition splat4 (a : float) : float4 := mkFloat4 a a a a.

Definition map3 (f : float -> float) (a : float3) : float3 :=
  mkFloat3 (f (x3 a)) (f (y3 a)) (f (z3 a)).
Definition zip3 (f : float -> float -> float) (a b : float3) : float3 :=
  mkFloat3 (f (x3 a) (x3 b)) (f (y3 a) (y3 b)) (f (z3 a) (z3 b)).
Definition map4 (f : float -> float) (a : float4) : float4 :=
  mkFloat4 (f (x4 a)) (f (y4 a)) (f (z4 a)) (f (w4 a)).
Definition zip4 (f : float -> float -> float) (a b : float4) : float4 :=
  mkFloat4 (f (x4 a) (x4 b)) (f (y4 a) (y4 b)) (f (z4 a) (z4 b)) (f (w4 a) (w4 b)).

Definition add3 := zip3 fadd.
Definition sub3 := zip3 fsub.
Definition mul3 := zip3 fmul.
Definition neg3 := map3 fneg.
Definition scale3 (a : float3) (s : float) : float3 := map3 (fun c => fmul c s) a.
Definition shrink3 (a : float3) (s : float) : float3 := map3 (fun c => fdiv c s) a.

Definition rgb (a : float4) : float3 := mkFloat3 (x4 a) (y4 a) (z4 a).
Definition xyz := rgb.
Definition with_rgb (a : float4) (c : float3) : float4 :=
  mkFloat4 (x3 c) (y3 c) (z3 c) (w4 a).
Definition with_a (a : float4) (s : float) : float4 :=
  mkFloat4 (x4 a) (y4 a) (z4 a) s.
Definition float4_of (c : float3) (s : float) : float4 :=
  mkFloat4 (x3 c) (y3 c) (z3 c) s.

(** [dot], [length] and [lerp] intrinsics, evaluated left to right. *)
Definition dot3 (a b : float3) : float :=
  fadd (fadd (fmul (x3 a) (x3 b)) (fmul (y3 a) (y3 b))) (fmul (z3 a) (z3 b)).
Definition length3 (a : float3) : float := fsqrt (dot3 a a).
Definition lerp (a b s : float) : float := fadd a (fmul s (fsub b a)).
Definition lerp4 (a b : float4) (s : float) : float4 :=
  zip4 (fun p q => lerp p q s) a b.

(** [mul(v, M)] with a row vector [v]. *)
Definition mul_row (v : float4) (M : float4x4) : float4 :=
  let col (f : float4 -> float) :=
    fadd (fadd (fadd (fmul (x4 v) (f (row0 M))) (fmul (y4 v) (f (row1 M))))
               (fmul (z4 v) (f (row2 M))))
         (fmul (w4 v) (f (row3 M))) in
  mkFloat4 (col x4) (col y4) (col z4) (col w4).

Definition any3 (b : bool3) : bool := bx b || by' b || bz b.
Definition all3 (b : bool3) : bool := bx b && by' b && bz b.

Definition lt3 (a : float3) (s : float) : bool3 :=
  mkBool3 (flt (x3 a) s) (flt (y3 a) s) (flt (z3 a) s).
Definition gt3 (a : float3) (s : float) : bool3 :=
  mkBool3 (fgt (x3 a) s) (fgt (y3 a) s) (fgt (z3 a) s).

(** [gridCoordinate < GridSizeInt] on [uint3] against [int3]. *)
Definition uint3_lt_int3 (a : uint3) (b : int3) : bool3 :=
  mkBool3 (uint_lt_int (ux a) (ix b)) (uint_lt_int (uy a) (iy b))
          (uint_lt_int (uz a) (iz b)).

(** [(int3)gridCoordinate < GridSizeInt] on two [int3]. *)
Definition int3_of_uint3 (a : uint3) : int3 :=
  mkInt3 (to_int (ux a)) (to_int (uy a)) (to_int (uz a)).
Definition int3_lt (a b : int3) : bool3 :=
  mkBool3 (ix a <? ix b) (iy a <? iy b) (iz a <? iz b).

Definition uint3_add (a b : uint3) : uint3 :=
  mkUint3 (uint_add (ux a) (ux b)) (uint_add (uy a) (uy b)) (uint_add (uz a) (uz b)).

(** [(uint)a] for a float: truncation toward zero, clamped to the range of
    [uint]; NaN gives 0. *)
Definition ftou (a : float) : Z :=
  match a with
  | S754_finite false m e =>
      Z.min (uint_modulus - 1)
            (if 0 <=? e then Z.pos m * 2 ^ e else Z.pos m / 2 ^ (- e))
  | S754_infinity false => uint_modulus - 1
  | _ => 0
  end.

(** [normalize(v)] as [v / length(v)]. *)
Definition normalize3 (a : float3) : float3 := shrink3 a (length3 a).

End Hlsl.

(* ===================================================================== *)
(** * Rounding of binary32 products                                       *)
(* ===================================================================== *)

(** What [SFmul] does to a non-negative number that is multiplied by a
    factor between 0 and 1: the product is rounded to nearest even, it is a
    binary32 number again, and it is not above the number multiplied.  It
    can be zero although both factors are not: products underflow. *)
Module Binary32.
Import Hlsl.

(** Number of bits of a mantissa. *)
Definition digits (p : positive) : Z := Zpos (digits2_pos p).

(** [mrs] is what is left of [m0] after [k] bits were shifted out: the
    sticky bits are set only when something was lost. *)
Definition shifted (m0 k : Z) (mrs : shr_record) : Prop :=
  exists rem, m0 = shr_m mrs * 2 ^ k + rem /\ 0 <= rem < 2 ^ k
              /\ (shr_r mrs || shr_s mrs = true -> rem <> 0) /\ 0 <= shr_m mrs.

Lemma fexp_eq x : fexp prec emax x = Z.max (x - 24) (-149).
Proof. reflexivity. Qed.

Lemma pow2_succ d : 0 <= d -> 2 ^ (d + 1) = 2 * 2 ^ d.
Proof. intros Hd. rewrite Z.pow_add_r by lia. lia. Qed.

Lemma pow2_pos d : 0 <= d -> 0 < 2 ^ d.
Proof. intros Hd. apply Z.pow_pos_nonneg; lia. Qed.

Lemma digits_pos p : 1 <= digits p.
Proof. unfold digits. lia. Qed.

Lemma digits_bounds p : 2 ^ (digits p - 1) <= Zpos p < 2 ^ digits p.
Proof.
  unfold digits. induction p as [p IH|p IH|]; cbn [digits2_pos].
  - rewrite Pos2Z.inj_succ.
    replace (Z.succ (Zpos (digits2_pos p)) - 1) with (Zpos (digits2_pos p) - 1 + 1) by lia.
    replace (Z.succ (Zpos (digits2_pos p))) with (Zpos (digits2_pos p) - 1 + 1 + 1) by lia.
    replace (Zpos (digits2_pos p)) with (Zpos (digits2_pos p) - 1 + 1) in IH at 2 by lia.
    rewrite !pow2_succ in * by lia. lia.
  - rewrite Pos2Z.inj_succ.
    replace (Z.succ (Zpos (digits2_pos p)) - 1) with (Zpos (digits2_pos p) - 1 + 1) by lia.
    replace (Z.succ (Zpos (digits2_pos p))) with (Zpos (digits2_pos p) - 1 + 1 + 1) by lia.
    replace (Zpos (digits2_pos p)) with (Zpos (digits2_pos p) - 1 + 1) in IH at 2 by lia.
    rewrite !pow2_succ in * by lia. lia.
  - cbn. lia.
Qed.

Lemma digits_le p d : 0 <= d -> Zpos p < 2 ^ d -> digits p <= d.
Proof.
  intros Hd Hp. pose proof (digits_bounds p) as [Hlo _]. pose proof (digits_pos p).
  destruct (Z.le_gt_cases (digits p) d) as [|Hgt]; [assumption|].
  assert (2 ^ d <= 2 ^ (digits p - 1)) by (apply Z.pow_le_mono_r; lia). lia.
Qed.

Lemma digits_ge p d : 0 <= d -> 2 ^ d <= Zpos p -> d + 1 <= digits p.
Proof.
  intros Hd Hp. pose proof (digits_bounds p) as [_ Hhi]. pose proof (digits_pos p).
  destruct (Z.le_gt_cases (d + 1) (digits p)) as [|Hgt]; [assumption|].
  assert (2 ^ digits p <= 2 ^ d) by (apply Z.pow_le_mono_r; lia). lia.
Qed.

(** ** Shifting right *)

Lemma shifted_shr_1 m0 k mrs : 0 <= k -> shifted m0 k mrs -> shifted m0 (k + 1) (shr_1 mrs).
Proof.
  intros Hk (rem & Hm & Hrem & Hsticky & Hpos).
  destruct mrs as [m r s]. cbn [shr_m shr_r shr_s] in *.
  pose proof (pow2_pos k Hk) as Hp. unfold shifted. rewrite pow2_succ by lia.
  destruct m as [|[p|p|]|p]; cbn [shr_1 shr_m shr_r shr_s]; try lia.
  - exists rem. repeat split; try lia. cbn [orb]. intros Hs. apply Hsticky. exact Hs.
  - exists (2 ^ k + rem). repeat split; try lia.
  - exists rem. repeat split; try lia. cbn [orb]. intros Hs. apply Hsticky. exact Hs.
  - exists (2 ^ k + rem). repeat split; try lia.
Qed.

Lemma shifted_iter_pos m0 p : forall k mrs,
  0 <= k -> shifted m0 k mrs -> shifted m0 (k + Zpos p) (iter_pos shr_1 p mrs).
Proof.
  induction p as [p IH|p IH|]; intros k mrs Hk H; cbn [iter_pos].
  - replace (k + Zpos p~1) with (k + 1 + Zpos p + Zpos p) by lia.
    apply IH; [lia|]. apply IH; [lia|]. apply shifted_shr_1; assumption.
  - replace (k + Zpos p~0) with (k + Zpos p + Zpos p) by lia.
    apply IH; [lia|]. apply IH; assumption.
  - apply shifted_shr_1; assumption.
Qed.

Lemma shifted_shr m e n :
  0 <= m -> 0 <= n ->
  exists mrs, shr (Build_shr_record m false false) e n = (mrs, e + n) /\ shifted m n mrs.
Proof.
  intros Hm Hn.
  assert (H0 : shifted m 0 (Build_shr_record m false false)).
  { exists 0. cbn. repeat split; try lia; discriminate. }
  destruct n as [|p|p]; [| |lia].
  - eexists. split; [cbn [shr]; rewrite Z.add_0_r; reflexivity|exact H0].
  - eexists. split; [reflexivity|].
    exact (shifted_iter_pos m p 0 _ (Z.le_refl 0) H0).
Qed.

Lemma round_nearest_even_up mrs :
  let m := round_nearest_even (shr_m mrs) (loc_of_shr_record mrs) in
  m = shr_m mrs \/ (m = shr_m mrs + 1 /\ shr_r mrs || shr_s mrs = true).
Proof.
  destruct mrs as [m [|] [|]]; cbn; try destruct (Z.even m); auto.
Qed.

Lemma shr_nonpos mrs e n : n <= 0 -> shr mrs e n = (mrs, e).
Proof. destruct n; intros; [reflexivity|lia|reflexivity]. Qed.

(** A mantissa that already fits is left alone by the second shift. *)
Lemma shr_fexp_fits m e :
  0 <= m < 2 ^ 24 -> -149 <= e -> e = -149 \/ 2 ^ 23 <= m ->
  shr_fexp prec emax m e loc_Exact = (Build_shr_record m false false, e).
Proof.
  intros [Hm0 Hm] He Hcase. unfold shr_fexp. cbn [shr_record_of_loc].
  apply shr_nonpos. rewrite fexp_eq.
  destruct m as [|p|p]; [cbn [Zdigits2]; lia| |lia].
  cbn [Zdigits2]. fold (digits p).
  pose proof (digits_le p 24 ltac:(lia) Hm) as Hd.
  destruct Hcase as [->|Hlo]; [lia|].
  pose proof (digits_ge p 23 ltac:(lia) Hlo). lia.
Qed.

(** Rounding up to 2^24 carries into the exponent. *)
Lemma shr_fexp_carry e :
  -149 <= e ->
  shr_fexp prec emax (2 ^ 24) e loc_Exact = (Build_shr_record (2 ^ 23) false false, e + 1).
Proof.
  intros He. unfold shr_fexp. cbn [shr_record_of_loc].
  change (Zdigits2 (2 ^ 24)) with 25. rewrite fexp_eq.
  replace (Z.max (25 + e - 24) (-149) - e) with 1 by lia.
  reflexivity.
Qed.

Lemma bounded_spec m e :
  bounded prec emax m e = true <-> Z.max (digits m + e - 24) (-149) = e /\ e <= 104.
Proof.
  unfold bounded, canonical_mantissa. rewrite andb_true_iff, Z.eqb_eq, Z.leb_le, fexp_eq.
  unfold digits. change (emax - prec) with 104. reflexivity.
Qed.

(** The product [P * 2^E] of two mantissas, rounded to nearest even, when
    it is at most [X * 2^ex] with [X] a 24-bit mantissa whose exponent [ex]
    is not below the exponent the product is rounded at: the result is a
    canonical number that is not above [X * 2^ex]. *)
Lemma binary_round_aux_below (P : positive) (E X ex : Z) :
  0 <= fexp prec emax (digits P + E) - E ->
  fexp prec emax (digits P + E) <= ex ->
  Zpos P <= X * 2 ^ (ex - E) ->
  X < 2 ^ 24 -> ex <= 104 ->
  binary_round_aux prec emax false (Zpos P) E loc_Exact = S754_zero false
  \/ exists m e,
       binary_round_aux prec emax false (Zpos P) E loc_Exact = S754_finite false m e
       /\ bounded prec emax m e = true /\ (e < ex \/ (e = ex /\ Zpos m <= X)).
Proof.
  intros Hn He1 HX HX24 Hex.
  remember (binary_round_aux prec emax false (Zpos P) E loc_Exact) as r eqn:Hr.
  unfold binary_round_aux in Hr. unfold shr_fexp at 1 in Hr.
  cbn [Zdigits2 shr_record_of_loc] in Hr. fold (digits P) in Hr.
  destruct (shifted_shr (Zpos P) E (fexp prec emax (digits P + E) - E)
              ltac:(lia) Hn) as (mrs & Hshr & rem & HP & Hrem & Hsticky & Hm1).
  rewrite Hshr in Hr. clear Hshr.
  pose proof (round_nearest_even_up mrs) as Hup. cbv zeta in Hup.
  set (m2 := round_nearest_even (shr_m mrs) (loc_of_shr_record mrs)) in *.
  set (m1 := shr_m mrs) in *.
  rewrite fexp_eq in *.
  pose proof (digits_bounds P) as [Hlo Hhi]. pose proof (digits_pos P) as Hd.
  set (d := digits P) in *.
  set (n := Z.max (d + E - 24) (-149) - E) in *.
  set (e1 := E + n) in *.
  assert (He1' : -149 <= e1 <= ex) by lia.
  pose proof (pow2_pos n Hn) as Hw.
  (* the bound, at the exponent the product is rounded at *)
  assert (HY : m2 <= X * 2 ^ (ex - e1)).
  { replace (ex - E) with ((ex - e1) + n) in HX by lia.
    rewrite Z.pow_add_r in HX by lia.
    set (Y := X * 2 ^ (ex - e1)) in *.
    assert (HYw : m1 * 2 ^ n + rem <= Y * 2 ^ n) by lia.
    destruct Hup as [->|[-> Hs]]; [nia|].
    specialize (Hsticky Hs). nia. }
  assert (Hcase : (2 ^ 23 <= m1 < 2 ^ 24) \/ (e1 = -149 /\ m1 < 2 ^ 23)).
  { destruct (Z.le_gt_cases (-149) (d + E - 24)) as [Hnormal|Hsub].
    - left. assert (Hnd : n = d - 24) by lia.
      assert (H24 : 2 ^ d = 2 ^ 24 * 2 ^ n).
      { rewrite <- Z.pow_add_r by lia. f_equal. lia. }
      assert (H23 : 2 ^ (d - 1) = 2 ^ 23 * 2 ^ n).
      { rewrite <- Z.pow_add_r by lia. f_equal. lia. }
      nia.
    - right. split; [lia|].
      assert (H23 : 2 ^ d <= 2 ^ 23 * 2 ^ n).
      { rewrite <- Z.pow_add_r by lia. apply Z.pow_le_mono_r; lia. }
      nia. }
  assert (Hm2 : 0 <= m2) by lia.
  change (emax - prec) with 104 in Hr.
  destruct (Z.eq_dec m2 (2 ^ 24)) as [Hcarry|Hnocarry].
  - (* the mantissa rounded up to 2^24 *)
    rewrite Hcarry, shr_fexp_carry in Hr by lia. cbn [shr_m] in Hr.
    change (2 ^ 23) with (Zpos 8388608) in Hr. cbv iota beta in Hr.
    assert (Hgap : e1 + 1 <= ex).
    { destruct (Z.le_gt_cases (e1 + 1) ex) as [|Hgt]; [assumption|].
      replace (ex - e1) with 0 in HY by lia. change (2 ^ 0) with 1 in HY. lia. }
    replace (e1 + 1 <=? 104) with true in Hr by (symmetry; apply Z.leb_le; lia).
    right. exists 8388608%positive, (e1 + 1). split; [exact Hr|].
    split; [apply bounded_spec; change (digits 8388608) with 24; lia|].
    destruct (Z.eq_dec (e1 + 1) ex) as [Heq|Hne]; [right|left; lia].
    split; [lia|].
    replace (ex - e1) with 1 in HY by lia. change (2 ^ 1) with 2 in HY. lia.
  - assert (Hfits : 0 <= m2 < 2 ^ 24 /\ (e1 = -149 \/ 2 ^ 23 <= m2)) by lia.
    destruct Hfits as [Hr2 Hc].
    rewrite (shr_fexp_fits m2 e1 Hr2) in Hr by lia. cbn [shr_m] in Hr.
    destruct m2 as [|p2|p2]; [left; exact Hr| |lia].
    replace (e1 <=? 104) with true in Hr by (symmetry; apply Z.leb_le; lia).
    right. exists p2, e1. split; [exact Hr|].
    assert (Hd2 : digits p2 <= 24) by (apply digits_le; lia).
    split.
    + apply bounded_spec. destruct Hc as [Hc|Hc]; [lia|].
      pose proof (digits_ge p2 23 ltac:(lia) Hc). lia.
    + destruct (Z.eq_dec e1 ex) as [Heq|Hne]; [right|left; lia].
      split; [assumption|].
      replace (ex - e1) with 0 in HY by lia. change (2 ^ 0) with 1 in HY. lia.
Qed.

Lemma f1_is_one : f1 = S754_finite false 8388608 (-23).
Proof. reflexivity. Qed.

(** Comparison of two positive numbers: by exponent, then by mantissa. *)
Lemma fle_finite m1 e1 m2 e2 :
  fle (S754_finite false m1 e1) (S754_finite false m2 e2) = true <->
  e1 < e2 \/ (e1 = e2 /\ Zpos m1 <= Zpos m2).
Proof.
  unfold fle, SFleb, SFcompare. change (Pos.compare_cont Eq m1 m2) with (Pos.compare m1 m2).
  destruct (Z.compare_spec e1 e2) as [He|He|He].
  - destruct (Pos.compare_spec m1 m2) as [Hm|Hm|Hm]; split; intros H;
      try reflexivity; try discriminate; try lia.
  - split; intros H; [lia|reflexivity].
  - split; intros H; [discriminate|lia].
Qed.

(** A canonical number that is at most one has a mantissa of at most
    [2^(-e)]. *)
Lemma at_most_one m e :
  bounded prec emax m e = true -> fle (S754_finite false m e) f1 = true ->
  e <= -23 /\ Zpos m <= 2 ^ (- e).
Proof.
  rewrite bounded_spec, f1_is_one, fle_finite. intros [Hc _] Hle.
  pose proof (digits_bounds m) as [_ Hhi]. pose proof (digits_pos m).
  destruct Hle as [He|[-> Hm]]; [|split; [lia|exact Hm]].
  split; [lia|].
  assert (2 ^ digits m <= 2 ^ (- e)) by (apply Z.pow_le_mono_r; lia). lia.
Qed.

Lemma digits_mul p q : digits p + digits q - 1 <= digits (p * q).
Proof.
  pose proof (digits_bounds p) as [Hp _]. pose proof (digits_bounds q) as [Hq _].
  pose proof (digits_pos p) as Hdp. pose proof (digits_pos q) as Hdq.
  assert (H : 2 ^ (digits p - 1 + (digits q - 1)) <= Zpos (p * q)).
  { rewrite Z.pow_add_r by lia. rewrite Pos2Z.inj_mul.
    pose proof (pow2_pos (digits p - 1) ltac:(lia)).
    pose proof (pow2_pos (digits q - 1) ltac:(lia)). nia. }
  apply digits_ge in H; lia.
Qed.

(** Multiplying a positive number by a factor in (0, 1]. *)
Lemma fmul_finite_attenuates ma ea mt et :
  bounded prec emax ma ea = true -> bounded prec emax mt et = true ->
  fle (S754_finite false mt et) f1 = true ->
  let r := fmul (S754_finite false ma ea) (S754_finite false mt et) in
  valid r = true /\ is_finite r = true /\ is_nonneg r = true
  /\ fle r (S754_finite false ma ea) = true.
Proof.
  intros Ha Ht Hone r.
  destruct (at_most_one mt et Ht Hone) as [Het Hmt].
  apply bounded_spec in Ha, Ht. destruct Ha as [Hca Hea], Ht as [Hct _].
  pose proof (digits_bounds ma) as [_ Hahi]. pose proof (digits_pos ma) as Hda.
  pose proof (digits_pos mt) as Hdt. pose proof (digits_mul ma mt) as Hmul.
  assert (Hprod : Zpos (ma * mt) <= Zpos ma * 2 ^ (- et)).
  { rewrite Pos2Z.inj_mul. nia. }
  assert (Hdig : digits (ma * mt) <= digits ma - et).
  { apply digits_le; [lia|].
    pose proof (pow2_pos (- et) ltac:(lia)).
    replace (digits ma - et) with (digits ma + - et) by lia.
    rewrite Z.pow_add_r by lia. nia. }
  destruct (binary_round_aux_below (ma * mt) (ea + et) (Zpos ma) ea) as [Hz|(m & e & Hf & Hb & Hord)].
  - rewrite fexp_eq. lia.
  - rewrite fexp_eq. lia.
  - replace (ea - (ea + et)) with (- et) by lia. exact Hprod.
  - assert (2 ^ digits ma <= 2 ^ 24) by (apply Z.pow_le_mono_r; lia). lia.
  - exact Hea.
  - subst r. unfold fmul, SFmul. cbn [xorb]. rewrite Hz. repeat split.
  - subst r. unfold fmul, SFmul. cbn [xorb]. rewrite Hf.
    split; [exact Hb|]. split; [reflexivity|]. split; [reflexivity|].
    apply fle_finite. exact Hord.
Qed.

(** Multiplying a non-negative number by a factor in [0, 1] gives a
    non-negative number that is not above it. *)
Lemma fmul_attenuates (a t : float) :
  valid a = true -> valid t = true ->
  is_finite a = true -> is_nonneg a = true -> in_unit_interval t = true ->
  valid (fmul a t) = true /\ is_finite (fmul a t) = true /\ is_nonneg (fmul a t) = true
  /\ fle (fmul a t) a = true.
Proof.
  unfold in_unit_interval. rewrite andb_true_iff. intros Ha Ht Hfa Hnn [Ht0 Ht1].
  destruct a as [[|]|[|]| |[|] ma ea]; try discriminate;
    destruct t as [[|]|[|]| |[|] mt et]; try discriminate;
    try (repeat split; fail).
  apply fmul_finite_attenuates; assumption.
Qed.

(** [fle] is transitive on the non-negative numbers. *)
Lemma fle_trans (x y z : float) :
  is_nonneg x = true -> fle x y = true -> fle y z = true -> fle x z = true.
Proof.
  destruct x as [[|]|[|]| |[|] mx ex]; try discriminate;
    destruct y as [[|]|[|]| |[|] my ey]; try discriminate;
    destruct z as [[|]|[|]| |[|] mz ez]; try discriminate;
    try reflexivity.
  intros _. rewrite !fle_finite. lia.
Qed.

(** ** The sign of a product *)

(** The mantissa stays non-negative through a shift. *)
Lemma shr_mantissa_nonneg m e n :
  0 <= m -> 0 <= shr_m (fst (shr (Build_shr_record m false false) e n)).
Proof.
  intros Hm. destruct (Z.le_gt_cases 0 n) as [Hn|Hn].
  - destruct (shifted_shr m e n Hm Hn) as (mrs & Hshr & rem & _ & _ & _ & Hpos).
    rewrite Hshr. exact Hpos.
  - rewrite shr_nonpos by lia. exact Hm.
Qed.

Lemma shr_fexp_nonneg m e :
  0 <= m -> 0 <= shr_m (fst (shr_fexp prec emax m e loc_Exact)).
Proof.
  intros Hm. unfold shr_fexp. cbn [shr_record_of_loc]. apply shr_mantissa_nonneg. exact Hm.
Qed.

(** A rounded product carries the sign it is given and is never NaN: it is
    a zero, a finite number or an infinity of that sign. *)
Lemma binary_round_aux_signed (s : bool) (P : positive) (E : Z) :
  match binary_round_aux prec emax s (Zpos P) E loc_Exact with
  | S754_zero s' | S754_infinity s' | S754_finite s' _ _ => s' = s
  | S754_nan => False
  end.
Proof.
  unfold binary_round_aux.
  pose proof (shr_fexp_nonneg (Zpos P) E ltac:(lia)) as H1.
  destruct (shr_fexp prec emax (Zpos P) E loc_Exact) as [mrs e1]. cbn [fst] in H1.
  pose proof (round_nearest_even_up mrs) as Hup. cbv zeta in Hup.
  set (m2 := round_nearest_even (shr_m mrs) (loc_of_shr_record mrs)) in *.
  assert (Hm2 : 0 <= m2) by lia.
  pose proof (shr_fexp_nonneg m2 e1 Hm2) as H2.
  destruct (shr_fexp prec emax m2 e1 loc_Exact) as [mrs2 e2]. cbn [fst] in H2.
  destruct (shr_m mrs2); [reflexivity|destruct (_ <=? _); reflexivity|lia].
Qed.

(** Minus a finite number that is not below zero, times such a number, is
    not above zero (and not NaN): the argument the shader gives to [exp]. *)
Lemma fmul_nonpositive (a b : float) :
  is_finite a = true -> is_nonneg a = true -> is_finite b = true -> is_nonneg b = true ->
  fle (fmul (fneg a) b) f0 = true.
Proof.
  destruct a as [[|]|[|]| |[|] ma ea]; try discriminate;
    destruct b as [[|]|[|]| |[|] mb eb]; try discriminate; try reflexivity.
  intros _ _ _ _. unfold fmul, fneg, SFopp, SFmul. cbn [negb xorb].
  pose proof (binary_round_aux_signed true (ma * mb) (ea + eb)) as Hsign.
  destruct (binary_round_aux prec emax true (Zpos (ma * mb)) (ea + eb) loc_Exact)
    as [s|s| |s m e]; try contradiction; subst s; reflexivity.
Qed.

End Binary32.

(* ===================================================================== *)
(** * The volumetric fog shader                                           *)
(* ===================================================================== *)

Module VolumetricFog.
Import Hlsl Binary32.

(** [SkyLightData] of the shader (its padding member left out). *)
Record SkyLightData := mkSkyLightData {
  MultiplyColor : float3;
  VolumetricScatteringIntensity : float;
  AdditiveColor : float3
}.

(** The pixel shader input, as far as [PS_InjectLight] reads it. *)
Record Quad_GS2PS := mkQuad_GS2PS {
  Position : float4;
  LayerIndex : Z
}.

(** The values [GetRadialLightAttenuation] takes and gives back through its
    reference parameters. *)
Record Attenuation := mkAttenuation {
  toLight : float3;
  L : float3;
  NoL : float;
  distanceAttenuation : float;
  lightRadiusMask : float;
  spotAttenuation : float
}.

(** Stores to a [RWTexture3D], in program order. *)
Definition stores : Type := list (uint3 * float4).

(** [Quad_VS2PS] and [Quad_VS2GS] of the shader's common include, with the
    members the vertex and geometry shaders write. *)
Record Quad_VS2PS := mkQuad_VS2PS {
  Vertex_Position : float4;
  Vertex_TexCoord : float2
}.

Record Quad_VS2GS := mkQuad_VS2GS {
  Vertex : Quad_VS2PS;
  VS_LayerIndex : Z
}.

Section Shader.

(** ** What the shader takes from other files

    [GBufferData], [LinearZ2DeviceDepth] and [GetWorldPos] come from
    GBuffer.hlsl, [LightData], [LightShadowData] and
    [GetRadialLightAttenuation] from LightingCommon.hlsl, [SampleShadow]
    from ShadowsSampling.hlsl, [Luminance] and [PI] from Common.hlsl.
    [exp] and [pow] are hardware intrinsics without a binary32 definition
    here.  Textures are the functions that read them. *)

Variable GBufferData : Type.
Variable ViewFar : GBufferData -> float.
Variable ViewPos : GBufferData -> float3.
Variable LinearZ2DeviceDepth : GBufferData -> float -> float.
Variable GetWorldPos : GBufferData -> float2 -> float -> float3.

Variable LightData : Type.
Variable LightShadowData : Type.
Variable Color : LightData -> float3.
Variable Direction : LightData -> float3.
Variable SpotAngles_x : LightData -> float.
Variable NumCascades : LightShadowData -> Z.
Variable SampleShadow_CSM : LightData -> LightShadowData -> float3 -> float -> float.
Variable SampleShadow_Spot : LightData -> LightShadowData -> float3 -> float.
Variable SampleShadow_Cube : LightData -> LightShadowData -> float3 -> float.
Variable GetRadialLightAttenuation :
  LightData -> bool -> float3 -> float3 -> float -> Attenuation -> Attenuation.

Variable Luminance : float3 -> float.
Variable PI : float.
Variable exp : float -> float.
Variable pow : float -> float -> float.
Variable exp2 : float -> float.

(** The constant buffer [Data] (padding members left out). *)
Record Data := mkData {
  GBuffer : GBufferData;
  GlobalAlbedo : float3;
  GlobalExtinctionScale : float;
  GlobalEmissive : float3;
  HistoryWeight : float;
  GridSize : float3;
  HistoryMissSuperSampleCount : Z;
  GridSizeInt : int3;
  PhaseG : float;
  VolumetricFogMaxDistance : float;
  InverseSquaredLightDistanceBiasScale : float;
  FogParameters : float4;
  PrevWorldToClip : float4x4;
  FrameJitterOffsets : Z -> float4;
  DirectionalLight : LightData;
  DirectionalLightShadow : LightShadowData;
  SkyLight : SkyLightData
}.

(** The constant buffer [PerLight] (padding members left out). *)
Record PerLight := mkPerLight {
  MinZ : Z;
  LocalLightScatteringIntensity : float;
  ViewSpaceBoundingSphere : float4;
  ViewToVolumeClip : float4x4;
  LocalLight : LightData;
  LocalLightShadow : LightShadowData
}.

Variable cb : Data.
Variable pl : PerLight.

Variable LightScattering : uint3 -> float4.
Variable VBufferA : uint3 -> float4.
Variable VBufferB : uint3 -> float4.
Variable LocalShadowedLightScattering : uint3 -> float4.
Variable LightScatteringHistory_SampleLevel : float3 -> float -> float4.
Variable SkyLightImage_SampleLevel : float3 -> float -> float4.

Definition ComputeDepthFromZSlice (zSlice : float) : float :=
  fmul (fdiv zSlice (z3 (GridSize cb))) (VolumetricFogMaxDistance cb).

(** [ComputeCellWorldPosition] with its [out float sceneDepth]: the pair of
    the returned position and the depth. *)
Definition ComputeCellWorldPosition_depth (gridCoordinate : uint3) (cellOffset : float3)
  : float3 * float :=
  let volumeUV :=
    mkFloat2 (fdiv (fadd (of_Z (ux gridCoordinate)) (x3 cellOffset)) (x3 (GridSize cb)))
             (fdiv (fadd (of_Z (uy gridCoordinate)) (y3 cellOffset)) (y3 (GridSize cb))) in
  let sceneDepth :=
    fdiv (ComputeDepthFromZSlice (fadd (of_Z (uz gridCoordinate)) (z3 cellOffset)))
         (ViewFar (GBuffer cb)) in
  let deviceDepth := LinearZ2DeviceDepth (GBuffer cb) sceneDepth in
  (GetWorldPos (GBuffer cb) volumeUV deviceDepth, sceneDepth).

Definition ComputeCellWorldPosition (gridCoordinate : uint3) (cellOffset : float3) : float3 :=
  fst (ComputeCellWorldPosition_depth gridCoordinate cellOffset).

Definition ComputeNormalizedZSliceFromDepth (sceneDepth : float) : float :=
  fdiv sceneDepth (VolumetricFogMaxDistance cb).

Definition ComputeVolumeUV (worldPosition : float3) (worldToClip : float4x4) : float3 :=
  let ndcPosition := mul_row (float4_of worldPosition f1) worldToClip in
  let ndc_x := fdiv (x4 ndcPosition) (w4 ndcPosition) in
  let ndc_y := fdiv (y4 ndcPosition) (w4 ndcPosition) in
  mkFloat3 (fadd (fmul ndc_x (literal 5 10)) (literal 5 10))
           (fadd (fmul ndc_y (fneg (literal 5 10))) (literal 5 10))
           (ComputeNormalizedZSliceFromDepth (w4 ndcPosition)).

Definition HenyeyGreensteinPhase (g cosTheta : float) : float :=
  fdiv (fsub f1 (fmul g g))
       (fmul (fmul (of_Z 4) PI)
             (pow (fadd (fadd f1 (fmul g g)) (fmul (fmul (of_Z 2) g) cosTheta))
                  (literal 15 10))).

Definition PhaseFunction (g cosTheta : float) : float := HenyeyGreensteinPhase g cosTheta.

(** ** The history test shared by the two scattering passes *)

(** [any(historyUV < 0) || any(historyUV > 1)] *)
Definition historyOutsideView (historyUV : float3) : bool :=
  any3 (lt3 historyUV f0) || any3 (gt3 historyUV f1).

(** [historyAlpha] after the FLATTEN [if]. *)
Definition historyAlphaOf (historyUV : float3) : float :=
  if historyOutsideView historyUV then f0 else HistoryWeight cb.

Definition reprojectedHistoryUV (gridCoordinate : uint3) : float3 :=
  ComputeVolumeUV (ComputeCellWorldPosition gridCoordinate (splat3 (literal 5 10)))
                  (PrevWorldToClip cb).

Definition insideGrid (gridCoordinate : uint3) : bool :=
  all3 (uint3_lt_int3 gridCoordinate (GridSizeInt cb)).

(** ** PS_InjectLight *)

Definition ComputeVolumeShadowing (worldPosition : float3) (isSpotLight : bool) : float :=
  if isSpotLight
  then SampleShadow_Spot (LocalLight pl) (LocalLightShadow pl) worldPosition
  else SampleShadow_Cube (LocalLight pl) (LocalLightShadow pl) worldPosition.

(** One pass of the loop over [sampleIndex]; the state is [scattering] and
    the variables [GetRadialLightAttenuation] writes. *)
Definition InjectLight_sample (USE_SHADOW : bool) (gridCoordinate : uint3) (isSpotLight : bool)
    (sampleIndex : Z) (st : float4 * Attenuation) : float4 * Attenuation :=
  let '(scattering, att) := st in
  let cellOffset := xyz (FrameJitterOffsets cb sampleIndex) in
  let worldPosition := ComputeCellWorldPosition gridCoordinate cellOffset in
  let cameraVector := normalize3 (sub3 worldPosition (ViewPos (GBuffer cb))) in
  let cellRadius :=
    length3 (sub3 worldPosition
               (ComputeCellWorldPosition (uint3_add gridCoordinate (mkUint3 1 1 1)) cellOffset)) in
  let distanceBias := fmax (fmul cellRadius (InverseSquaredLightDistanceBiasScale cb)) f1 in
  let att := GetRadialLightAttenuation (LocalLight pl) isSpotLight worldPosition
               (mkFloat3 f0 f0 f1) (fmul distanceBias distanceBias) att in
  let combinedAttenuation :=
    fmul (fmul (distanceAttenuation att) (lightRadiusMask att)) (spotAttenuation att) in
  let shadowFactor :=
    if USE_SHADOW && fgt combinedAttenuation f0
    then ComputeVolumeShadowing worldPosition isSpotLight
    else f1 in
  let amount :=
    fmul (fmul (fmul (PhaseFunction (PhaseG cb) (dot3 (L att) (neg3 cameraVector)))
                     combinedAttenuation)
               shadowFactor)
         (LocalLightScatteringIntensity pl) in
  (with_rgb scattering (add3 (rgb scattering) (scale3 (Color (LocalLight pl)) amount)), att).

(** [for (uint sampleIndex = ...; sampleIndex < numSuperSamples; sampleIndex++)] *)
Fixpoint InjectLight_loop (fuel : nat) (USE_SHADOW : bool) (gridCoordinate : uint3)
    (isSpotLight : bool) (numSuperSamples sampleIndex : Z) (st : float4 * Attenuation)
  : float4 * Attenuation :=
  match fuel with
  | O => st
  | S fuel' =>
      if sampleIndex <? numSuperSamples then
        InjectLight_loop fuel' USE_SHADOW gridCoordinate isSpotLight numSuperSamples
          (uint_add sampleIndex 1)
          (InjectLight_sample USE_SHADOW gridCoordinate isSpotLight sampleIndex st)
      else st
  end.

(** [numSuperSamples] of the pixel shader. *)
Definition InjectLight_numSuperSamples (USE_TEMPORAL_REPROJECTION : bool)
    (gridCoordinate : uint3) : Z :=
  if USE_TEMPORAL_REPROJECTION then
    let historyUV := reprojectedHistoryUV gridCoordinate in
    let historyAlpha := historyAlphaOf historyUV in
    if flt historyAlpha (literal 1 1000) then HistoryMissSuperSampleCount cb else 1
  else 1.

(** [uint3(input.Vertex.Position.xy, input.LayerIndex)] *)
Definition InjectLight_gridCoordinate (input : Quad_GS2PS) : uint3 :=
  mkUint3 (ftou (x4 (Position input))) (ftou (y4 (Position input))) (LayerIndex input).

Definition PS_InjectLight (USE_TEMPORAL_REPROJECTION USE_SHADOW : bool) (input : Quad_GS2PS)
  : float4 :=
  let gridCoordinate := InjectLight_gridCoordinate input in
  if negb (insideGrid gridCoordinate) then splat4 f0
  else
    let numSuperSamples := InjectLight_numSuperSamples USE_TEMPORAL_REPROJECTION gridCoordinate in
    let att := mkAttenuation (splat3 f0) (splat3 f0) f0 f1 f1 f1 in
    let isSpotLight := fgt (SpotAngles_x (LocalLight pl)) (fneg (of_Z 2)) in
    let scattering := splat4 f0 in
    let '(scattering, _) :=
      InjectLight_loop (Z.to_nat numSuperSamples) USE_SHADOW gridCoordinate isSpotLight
        numSuperSamples 0 (scattering, att) in
    with_rgb scattering (shrink3 (rgb scattering) (of_Z numSuperSamples)).

(** ** CS_LightScattering *)

(** One pass of the loop over [sampleIndex]: directional and sky light. *)
Definition LightScattering_sample (gridCoordinate : uint3) (sampleIndex : Z)
    (lightScattering : float3) : float3 :=
  let cellOffset := xyz (FrameJitterOffsets cb sampleIndex) in
  let '(worldPosition, sceneDepth) := ComputeCellWorldPosition_depth gridCoordinate cellOffset in
  let cameraVector := sub3 worldPosition (ViewPos (GBuffer cb)) in
  let cameraVectorLength := length3 cameraVector in
  let cameraVectorNormalized := shrink3 cameraVector cameraVectorLength in
  let lightScattering :=
    if NumCascades (DirectionalLightShadow cb) <? 10 then
      let shadow :=
        if 0 <? NumCascades (DirectionalLightShadow cb)
        then SampleShadow_CSM (DirectionalLight cb) (DirectionalLightShadow cb)
               worldPosition cameraVectorLength
        else f1 in
      add3 lightScattering
        (scale3 (Color (DirectionalLight cb))
           (fmul (fmul (of_Z 8) shadow)
                 (PhaseFunction (PhaseG cb)
                    (dot3 (Direction (DirectionalLight cb)) cameraVectorNormalized))))
    else lightScattering in
  if fgt (VolumetricScatteringIntensity (SkyLight cb)) f0 then
    let skyLighting := rgb (SkyLightImage_SampleLevel (mkFloat3 f0 f0 f0) (of_Z 10000)) in
    let skyLighting :=
      add3 (mul3 skyLighting (MultiplyColor (SkyLight cb))) (AdditiveColor (SkyLight cb)) in
    add3 lightScattering (scale3 skyLighting (VolumetricScatteringIntensity (SkyLight cb)))
  else lightScattering.

Fixpoint LightScattering_loop (fuel : nat) (gridCoordinate : uint3)
    (numSuperSamples sampleIndex : Z) (lightScattering : float3) : float3 :=
  match fuel with
  | O => lightScattering
  | S fuel' =>
      if sampleIndex <? numSuperSamples then
        LightScattering_loop fuel' gridCoordinate numSuperSamples (uint_add sampleIndex 1)
          (LightScattering_sample gridCoordinate sampleIndex lightScattering)
      else lightScattering
  end.

(** [numSuperSamples] of the compute shader. *)
Definition LightScattering_numSuperSamples (USE_TEMPORAL_REPROJECTION : bool)
    (gridCoordinate : uint3) : Z :=
  if USE_TEMPORAL_REPROJECTION then
    let historyUV := reprojectedHistoryUV gridCoordinate in
    let historyAlpha := historyAlphaOf historyUV in
    if flt historyAlpha (literal 1 1000) && insideGrid gridCoordinate
    then HistoryMissSuperSampleCount cb else 1
  else 1.

(** [scatteringAndExtinction] of this frame, before any history is blended
    in, from [numSuperSamples] samples. *)
Definition currentScatteringAndExtinction (gridCoordinate : uint3) (numSuperSamples : Z)
  : float4 :=
  let lightScattering :=
    LightScattering_loop (Z.to_nat numSuperSamples) gridCoordinate numSuperSamples 0
      (splat3 f0) in
  let lightScattering := shrink3 lightScattering (of_Z numSuperSamples) in
  let lightScattering := add3 lightScattering (rgb (LocalShadowedLightScattering gridCoordinate)) in
  let materialScatteringAndAbsorption := VBufferA gridCoordinate in
  let extinction :=
    fadd (w4 materialScatteringAndAbsorption) (Luminance (xyz materialScatteringAndAbsorption)) in
  let materialEmissive := xyz (VBufferB gridCoordinate) in
  float4_of (add3 (mul3 lightScattering (xyz materialScatteringAndAbsorption)) materialEmissive)
            extinction.

(** [isnan(v) || isinf(v) ? 0 : v], component by component. *)
Definition replaceNanInf (v : float4) : float4 :=
  map4 (fun c => if isnan c || isinf c then f0 else c) v.

(** [max(v, 0)], component by component. *)
Definition clampToZero (v : float4) : float4 := map4 (fun c => fmax c f0) v.

(** [scatteringAndExtinction] when the shader reaches its last [if]: this
    frame's value, blended with the history under USE_TEMPORAL_REPROJECTION
    when [historyAlpha > 0]. *)
Definition blendedScatteringAndExtinction (USE_TEMPORAL_REPROJECTION : bool)
    (gridCoordinate : uint3) : float4 :=
  let historyUV := reprojectedHistoryUV gridCoordinate in
  let historyAlpha := historyAlphaOf historyUV in
  let numSuperSamples :=
    LightScattering_numSuperSamples USE_TEMPORAL_REPROJECTION gridCoordinate in
  let scatteringAndExtinction := currentScatteringAndExtinction gridCoordinate numSuperSamples in
  if USE_TEMPORAL_REPROJECTION && fgt historyAlpha f0 then
    let historyScatteringAndExtinction := LightScatteringHistory_SampleLevel historyUV f0 in
    lerp4 scatteringAndExtinction historyScatteringAndExtinction historyAlpha
  else scatteringAndExtinction.

(** The stores of the thread [DispatchThreadId] to [RWLightScattering]. *)
Definition CS_LightScattering (USE_TEMPORAL_REPROJECTION : bool) (DispatchThreadId : uint3)
  : stores :=
  let gridCoordinate := DispatchThreadId in
  let scatteringAndExtinction :=
    blendedScatteringAndExtinction USE_TEMPORAL_REPROJECTION gridCoordinate in
  if insideGrid gridCoordinate then
    let scatteringAndExtinction := replaceNanInf scatteringAndExtinction in
    [(gridCoordinate, clampToZero scatteringAndExtinction)]
  else [].

(** ** CS_FinalIntegration *)

(** The two variables the loop carries from slice to slice. *)
Record IntegrationState := mkIntegrationState {
  accumulatedLightingAndTransmittance : float4;
  previousSliceWorldPosition : float3
}.

(** [stepLength] of one iteration. *)
Definition sliceStepLength (layerCoordinate : uint3) (previous : float3) : float :=
  let layerWorldPosition := ComputeCellWorldPosition layerCoordinate (splat3 (literal 5 10)) in
  length3 (sub3 layerWorldPosition previous).

(** One iteration of the loop over [layerIndex] (DEBUG_VOXELS and
    DEBUG_VOXEL_WS_POS are 0, ENERGY_CONSERVING_INTEGRATION is 1). *)
Definition FinalIntegration_slice (gridCoordinate : uint3) (layerIndex : Z)
    (st : IntegrationState) : IntegrationState * (uint3 * float4) :=
  let layerCoordinate := mkUint3 (ux gridCoordinate) (uy gridCoordinate) layerIndex in
  let scatteringAndExtinction := LightScattering layerCoordinate in
  let layerWorldPosition := ComputeCellWorldPosition layerCoordinate (splat3 (literal 5 10)) in
  let stepLength := sliceStepLength layerCoordinate (previousSliceWorldPosition st) in
  let transmittance := exp (fmul (fneg (w4 scatteringAndExtinction)) stepLength) in
  let scatteringIntegratedOverSlice :=
    shrink3 (sub3 (rgb scatteringAndExtinction)
                  (scale3 (rgb scatteringAndExtinction) transmittance))
            (fmax (w4 scatteringAndExtinction) (literal 1 100000)) in
  let acc := accumulatedLightingAndTransmittance st in
  let acc := with_rgb acc (add3 (rgb acc) (scale3 scatteringIntegratedOverSlice (w4 acc))) in
  let acc := with_a acc (fmul (w4 acc) transmittance) in
  (mkIntegrationState acc layerWorldPosition, (layerCoordinate, acc)).

(** [for (uint layerIndex = ...; layerIndex < GridSizeInt.z; layerIndex++)];
    [fuel] bounds the number of iterations. *)
Fixpoint FinalIntegration_loop (fuel : nat) (gridCoordinate : uint3) (layerIndex : Z)
    (st : IntegrationState) : stores :=
  match fuel with
  | O => []
  | S fuel' =>
      if uint_lt_int layerIndex (iz (GridSizeInt cb)) then
        let '(st', store) := FinalIntegration_slice gridCoordinate layerIndex st in
        store :: FinalIntegration_loop fuel' gridCoordinate (uint_add layerIndex 1) st'
      else []
  end.

(** The stores of the thread [DispatchThreadId] to
    [RWIntegratedLightScattering].  The loop leaves after at most
    [to_uint GridSizeInt.z] iterations, which is the fuel given. *)
Definition CS_FinalIntegration (DispatchThreadId : uint3) : stores :=
  let gridCoordinate := DispatchThreadId in
  FinalIntegration_loop (Z.to_nat (to_uint (iz (GridSizeInt cb)))) gridCoordinate 0
    (mkIntegrationState (mkFloat4 f0 f0 f0 f1) (ViewPos (GBuffer cb))).

(** ** VS_WriteToSlice and GS_WriteToSlice *)

Definition VS_WriteToSlice (TexCoord : float2) (LayerIndex : Z) : Quad_VS2GS :=
  let slice := uint_add LayerIndex (MinZ pl) in
  let sliceDepth := ComputeDepthFromZSlice (of_Z slice) in
  let sphere := ViewSpaceBoundingSphere pl in
  let sliceDepthOffset := fabs (fsub sliceDepth (z4 sphere)) in
  let position :=
    if flt sliceDepthOffset (w4 sphere) then
      let sliceRadius :=
        fsqrt (fsub (fmul (w4 sphere) (w4 sphere))
                    (fmul sliceDepthOffset sliceDepthOffset)) in
      let viewSpaceVertexPosition :=
        mkFloat3
          (fadd (x4 sphere) (fmul (fsub (fmul (x2 TexCoord) (of_Z 2)) f1) sliceRadius))
          (fadd (y4 sphere) (fmul (fsub (fmul (y2 TexCoord) (of_Z 2)) f1) sliceRadius))
          sliceDepth in
      mul_row (float4_of viewSpaceVertexPosition f1) (ViewToVolumeClip pl)
    else splat4 f0 in
  mkQuad_VS2GS (mkQuad_VS2PS position (mkFloat2 f0 f0)) slice.

(** What the geometry shader appends to the stream for one triangle; of
    [Vertex] the pixel shader input keeps the position. *)
Definition GS_WriteToSlice (input0 input1 input2 : Quad_VS2GS) : list Quad_GS2PS :=
  let vertex0 := mkQuad_GS2PS (Vertex_Position (Vertex input0)) (VS_LayerIndex input0) in
  let vertex1 := mkQuad_GS2PS (Vertex_Position (Vertex input1)) (VS_LayerIndex input1) in
  let vertex2 := mkQuad_GS2PS (Vertex_Position (Vertex input2)) (VS_LayerIndex input2) in
  [vertex0; vertex1; vertex2].

(** ** CS_Initialize *)

(** [all((int3)gridCoordinate < GridSizeInt)] *)
Definition insideGridSigned (gridCoordinate : uint3) : bool :=
  all3 (int3_lt (int3_of_uint3 gridCoordinate) (GridSizeInt cb)).

(** [extinction] of the voxel at [worldPosition]. *)
Definition Initialize_extinction (worldPosition : float3) : float :=
  let fogDensity := x4 (FogParameters cb) in
  let fogHeight := y4 (FogParameters cb) in
  let fogHeightFalloff := z4 (FogParameters cb) in
  let globalDensity :=
    fmul fogDensity
         (exp2 (fmul (fneg fogHeightFalloff) (fsub (y3 worldPosition) fogHeight))) in
  let matchFactor := literal 24 100 in
  fmax (fmul (fmul globalDensity (GlobalExtinctionScale cb)) matchFactor) f0.

(** The stores of the thread [DispatchThreadId] to [RWVBufferA] and to
    [RWVBufferB]. *)
Definition CS_Initialize (DispatchThreadId : uint3) : stores * stores :=
  let gridCoordinate := DispatchThreadId in
  let voxelOffset := literal 5 10 in
  let worldPosition := ComputeCellWorldPosition gridCoordinate (splat3 voxelOffset) in
  let extinction := Initialize_extinction worldPosition in
  let scattering := scale3 (GlobalAlbedo cb) extinction in
  let absorption := fmax (fsub extinction (Luminance scattering)) f0 in
  if insideGridSigned gridCoordinate then
    ([(gridCoordinate, float4_of scattering absorption)],
     [(gridCoordinate, float4_of (GlobalEmissive cb) f0)])
  else ([], []).

(** ** The integration as the specification words it

    Slice [k] of the column of [gridCoordinate] has its centre at
    [sliceCentre k]; the march starts at the camera. *)

Definition sliceCentre (gridCoordinate : uint3) (k : nat) : float3 :=
  ComputeCellWorldPosition (mkUint3 (ux gridCoordinate) (uy gridCoordinate) (Z.of_nat k))
    (splat3 (literal 5 10)).

(** Where the step of slice [k] starts: the camera position for the first
    slice, the centre of the slice before for every other one. *)
Definition stepOrigin (gridCoordinate : uint3) (k : nat) : float3 :=
  match k with
  | O => ViewPos (GBuffer cb)
  | S k' => sliceCentre gridCoordinate k'
  end.

Definition stepLengthOf (gridCoordinate : uint3) (k : nat) : float :=
  length3 (sub3 (sliceCentre gridCoordinate k) (stepOrigin gridCoordinate k)).

(** Distance between the centres of slice [k] and of the next one. *)
Definition centreDistance (gridCoordinate : uint3) (k : nat) : float :=
  length3 (sub3 (sliceCentre gridCoordinate (S k)) (sliceCentre gridCoordinate k)).

(** One energy-conserving step: scattering [S], extinction [sigma]. *)
Definition integrateSlice (acc : float4) (S : float3) (sigma stepLength : float) : float4 :=
  let T := exp (fmul (fneg sigma) stepLength) in
  let integrated := shrink3 (sub3 S (scale3 S T)) (fmax sigma (literal 1 100000)) in
  float4_of (add3 (rgb acc) (scale3 integrated (w4 acc))) (fmul (w4 acc) T).

(** Accumulated colour and transmittance after the first [k] slices. *)
Fixpoint accumulated (gridCoordinate : uint3) (k : nat) : float4 :=
  match k with
  | O => mkFloat4 f0 f0 f0 f1
  | S k' =>
      let texel :=
        LightScattering (mkUint3 (ux gridCoordinate) (uy gridCoordinate) (Z.of_nat k')) in
      integrateSlice (accumulated gridCoordinate k') (rgb texel) (w4 texel)
        (stepLengthOf gridCoordinate k')
  end.

(** Number of slices the loop visits. *)
Definition sliceCount : nat := Z.to_nat (to_uint (iz (GridSizeInt cb))).

(** The factor [exp(-sigma * stepLength)] of slice [k]. *)
Definition sliceTransmittance (gridCoordinate : uint3) (k : nat) : float :=
  let texel :=
    LightScattering (mkUint3 (ux gridCoordinate) (uy gridCoordinate) (Z.of_nat k)) in
  exp (fmul (fneg (w4 texel)) (stepLengthOf gridCoordinate k)).

(** The accumulated transmittance after the first [k] slices. *)
Definition transmittanceAfter (gridCoordinate : uint3) (k : nat) : float :=
  w4 (accumulated gridCoordinate k).

(** ** The scattering passes as the specification words them

    A voxel is sampled at the positions its jitter offsets give; sample [i]
    uses entry [i] of the jitter table. *)

Definition jitteredPosition (gridCoordinate : uint3) (i : nat) : float3 :=
  ComputeCellWorldPosition gridCoordinate (xyz (FrameJitterOffsets cb (Z.of_nat i))).

(** What the directional light scatters towards the camera at a position;
    nothing in a scene without directional light (ten cascades). *)
Definition directionalInscattering (worldPosition : float3) : option float3 :=
  if NumCascades (DirectionalLightShadow cb) <? 10 then
    let fromCamera := sub3 worldPosition (ViewPos (GBuffer cb)) in
    let distance := length3 fromCamera in
    let shadow :=
      if 0 <? NumCascades (DirectionalLightShadow cb)
      then SampleShadow_CSM (DirectionalLight cb) (DirectionalLightShadow cb)
             worldPosition distance
      else f1 in
    let phase :=
      PhaseFunction (PhaseG cb)
        (dot3 (Direction (DirectionalLight cb)) (shrink3 fromCamera distance)) in
    Some (scale3 (Color (DirectionalLight cb)) (fmul (fmul (of_Z 8) shadow) phase))
  else None.

(** What the sky scatters, the same at every position; nothing when its
    intensity is not above zero. *)
Definition skyInscattering : option float3 :=
  if fgt (VolumetricScatteringIntensity (SkyLight cb)) f0 then
    let image := rgb (SkyLightImage_SampleLevel (mkFloat3 f0 f0 f0) (of_Z 10000)) in
    Some (scale3 (add3 (mul3 image (MultiplyColor (SkyLight cb))) (AdditiveColor (SkyLight cb)))
                 (VolumetricScatteringIntensity (SkyLight cb)))
  else None.

Definition lit (sum : float3) (light : option float3) : float3 :=
  match light with Some colour => add3 sum colour | None => sum end.

(** The light of the samples [0 .. n-1] of a voxel, added up in this
    order. *)
Definition sampleSum (gridCoordinate : uint3) (n : nat) : float3 :=
  fold_left
    (fun sum i =>
       lit (lit sum (directionalInscattering (jitteredPosition gridCoordinate i)))
           skyInscattering)
    (seq 0 n) (splat3 f0).

(** Scattering and extinction of a voxel in this frame, from the mean of
    [n] jittered samples; no history enters it. *)
Definition supersampledScattering (gridCoordinate : uint3) (n : nat) : float4 :=
  let light :=
    add3 (shrink3 (sampleSum gridCoordinate n) (of_Z (Z.of_nat n)))
         (rgb (LocalShadowedLightScattering gridCoordinate)) in
  let material := VBufferA gridCoordinate in
  float4_of (add3 (mul3 light (xyz material)) (xyz (VBufferB gridCoordinate)))
            (fadd (w4 material) (Luminance (xyz material))).

(** The attenuation of the local light at sample [i];
    [GetRadialLightAttenuation] starts from the values of the sample
    before. *)
Definition localAttenuation (gridCoordinate : uint3) (isSpotLight : bool) (i : nat)
    (before : Attenuation) : Attenuation :=
  let position := jitteredPosition gridCoordinate i in
  let cellRadius :=
    length3 (sub3 position
               (jitteredPosition (uint3_add gridCoordinate (mkUint3 1 1 1)) i)) in
  let distanceBias := fmax (fmul cellRadius (InverseSquaredLightDistanceBiasScale cb)) f1 in
  GetRadialLightAttenuation (LocalLight pl) isSpotLight position (mkFloat3 f0 f0 f1)
    (fmul distanceBias distanceBias) before.

(** What the local light scatters towards the camera at a position. *)
Definition localInscattering (USE_SHADOW isSpotLight : bool) (worldPosition : float3)
    (att : Attenuation) : float3 :=
  let combined :=
    fmul (fmul (distanceAttenuation att) (lightRadiusMask att)) (spotAttenuation att) in
  let shadow :=
    if USE_SHADOW && fgt combined f0
    then ComputeVolumeShadowing worldPosition isSpotLight
    else f1 in
  let toCamera := neg3 (normalize3 (sub3 worldPosition (ViewPos (GBuffer cb)))) in
  let phase := PhaseFunction (PhaseG cb) (dot3 (L att) toCamera) in
  scale3 (Color (LocalLight pl))
         (fmul (fmul (fmul phase combined) shadow) (LocalLightScatteringIntensity pl)).

(** The light of the samples [0 .. n-1] of a pixel of the local light. *)
Definition localSampleSum (USE_SHADOW : bool) (gridCoordinate : uint3) (isSpotLight : bool)
    (n : nat) : float3 * Attenuation :=
  fold_left
    (fun st i =>
       let att := localAttenuation gridCoordinate isSpotLight i (snd st) in
       (add3 (fst st)
             (localInscattering USE_SHADOW isSpotLight (jitteredPosition gridCoordinate i) att),
        att))
    (seq 0 n)
    (splat3 f0, mkAttenuation (splat3 f0) (splat3 f0) f0 f1 f1 f1).

(** The mean of [n] jittered samples of the local light, with alpha 0. *)
Definition supersampledInjection (USE_SHADOW : bool) (gridCoordinate : uint3)
    (isSpotLight : bool) (n : nat) : float4 :=
  float4_of (shrink3 (fst (localSampleSum USE_SHADOW gridCoordinate isSpotLight n))
                     (of_Z (Z.of_nat n)))
            f0.

(** Every component is a finite number that is not below zero. *)
Definition finiteNonNegative (v : float4) : bool :=
  is_finite (x4 v) && is_nonneg (x4 v) && (is_finite (y4 v) && is_nonneg (y4 v)) &&
  (is_finite (z4 v) && is_nonneg (z4 v)) && (is_finite (w4 v) && is_nonneg (w4 v)).

(* --------------------------------------------------------------------- *)
(** ** Properties                                                         *)
(* --------------------------------------------------------------------- *)

Lemma to_uint_range z : 0 <= to_uint z < uint_modulus.
Proof. unfold to_uint, uint_modulus. apply Z.mod_pos_bound. lia. Qed.

Lemma sliceCount_spec : Z.of_nat sliceCount = to_uint (iz (GridSizeInt cb)).
Proof. unfold sliceCount. pose proof (to_uint_range (iz (GridSizeInt cb))). lia. Qed.

(** One iteration of the loop is one step of the recurrence. *)
Lemma FinalIntegration_slice_accumulated (g : uint3) (k : nat) :
  FinalIntegration_slice g (Z.of_nat k)
    (mkIntegrationState (accumulated g k) (stepOrigin g k)) =
  (mkIntegrationState (accumulated g (S k)) (stepOrigin g (S k)),
   (mkUint3 (ux g) (uy g) (Z.of_nat k), accumulated g (S k))).
Proof.
  unfold FinalIntegration_slice. cbn [accumulated stepOrigin].
  unfold integrateSlice, stepLengthOf, sliceStepLength, sliceCentre.
  cbn [accumulatedLightingAndTransmittance previousSliceWorldPosition].
  unfold with_a, with_rgb, float4_of. cbn [x4 y4 z4 w4 x3 y3 z3].
  reflexivity.
Qed.

(** The loop from slice [i] on, with [m] slices left and any surplus of
    fuel, stores the accumulated values of the slices [i .. i+m-1] in
    increasing order and then leaves. *)
Lemma FinalIntegration_loop_from (g : uint3) (m extra i : nat) :
  (i + m)%nat = sliceCount ->
  FinalIntegration_loop (m + extra)%nat g (Z.of_nat i)
    (mkIntegrationState (accumulated g i) (stepOrigin g i)) =
  map (fun k => (mkUint3 (ux g) (uy g) (Z.of_nat k), accumulated g (S k))) (seq i m).
Proof.
  revert i. induction m as [|m IH]; intros i Hn.
  - (* no slice left: the guard fails whatever fuel remains *)
    destruct extra as [|extra]; [reflexivity|].
    cbn [Nat.add FinalIntegration_loop]. unfold uint_lt_int.
    rewrite <- sliceCount_spec.
    replace (Z.of_nat i <? Z.of_nat sliceCount) with false
      by (symmetry; apply Z.ltb_ge; lia).
    reflexivity.
  - cbn [Nat.add FinalIntegration_loop]. unfold uint_lt_int.
    rewrite <- sliceCount_spec.
    replace (Z.of_nat i <? Z.of_nat sliceCount) with true
      by (symmetry; apply Z.ltb_lt; lia).
    rewrite FinalIntegration_slice_accumulated.
    cbn [seq map]. f_equal.
    assert (Hwrap : uint_add (Z.of_nat i) 1 = Z.of_nat (S i)).
    { unfold uint_add, to_uint.
      pose proof sliceCount_spec as Hs.
      pose proof (to_uint_range (iz (GridSizeInt cb))) as Hr.
      rewrite Z.mod_small; lia. }
    rewrite Hwrap. apply IH. lia.
Qed.

(** C1 (as amended).  For the column of any thread, CS_FinalIntegration
    stores exactly one value per slice, front to back in increasing z order;
    the value of slice k is obtained from the one of slice k-1 (from
    (0,0,0,1) for the first slice) by the energy-conserving step with
    T = exp(-sigma * stepLength), colour += ((S - S*T) / max(sigma, 0.00001))
    * transmittance, transmittance *= T, where stepLength is the distance from
    the centre of the slice before to the centre of this slice and, for the
    first slice, from the camera position GBuffer.ViewPos.  Surplus fuel does
    not change the result: the loop has left by then. *)
Theorem C1_final_integration_ray_march (DispatchThreadId : uint3) :
  CS_FinalIntegration DispatchThreadId =
  map (fun k => (mkUint3 (ux DispatchThreadId) (uy DispatchThreadId) (Z.of_nat k),
                 accumulated DispatchThreadId (S k)))
      (seq 0 sliceCount)
  /\ (forall k, accumulated DispatchThreadId (S k) =
        let texel := LightScattering
          (mkUint3 (ux DispatchThreadId) (uy DispatchThreadId) (Z.of_nat k)) in
        let S := rgb texel in
        let sigma := w4 texel in
        let stepLength :=
          length3 (sub3 (sliceCentre DispatchThreadId k)
                        (match k with
                         | O => ViewPos (GBuffer cb)
                         | Datatypes.S j => sliceCentre DispatchThreadId j
                         end)) in
        let T := exp (fmul (fneg sigma) stepLength) in
        let before := accumulated DispatchThreadId k in
        float4_of
          (add3 (rgb before)
                (scale3 (shrink3 (sub3 S (scale3 S T)) (fmax sigma (literal 1 100000)))
                        (w4 before)))
          (fmul (w4 before) T))
  /\ accumulated DispatchThreadId 0 = mkFloat4 f0 f0 f0 f1
  /\ (forall extra : nat,
        FinalIntegration_loop (sliceCount + extra)%nat DispatchThreadId 0
          (mkIntegrationState (mkFloat4 f0 f0 f0 f1) (ViewPos (GBuffer cb))) =
        CS_FinalIntegration DispatchThreadId).
Proof.
  assert (Hloop : forall extra : nat,
    FinalIntegration_loop (sliceCount + extra)%nat DispatchThreadId 0
      (mkIntegrationState (mkFloat4 f0 f0 f0 f1) (ViewPos (GBuffer cb))) =
    map (fun k => (mkUint3 (ux DispatchThreadId) (uy DispatchThreadId) (Z.of_nat k),
                   accumulated DispatchThreadId (S k)))
        (seq 0 sliceCount)).
  { intros extra.
    exact (FinalIntegration_loop_from DispatchThreadId sliceCount extra 0 eq_refl). }
  assert (Hcs : CS_FinalIntegration DispatchThreadId =
                FinalIntegration_loop (sliceCount + 0)%nat DispatchThreadId 0
                  (mkIntegrationState (mkFloat4 f0 f0 f0 f1) (ViewPos (GBuffer cb)))).
  { unfold CS_FinalIntegration, sliceCount. rewrite Nat.add_0_r. reflexivity. }
  split; [|split; [|split]].
  - rewrite Hcs. apply Hloop.
  - intros k. destruct k; reflexivity.
  - reflexivity.
  - intros extra. rewrite Hcs, !Hloop. reflexivity.
Qed.

(** *** The accumulated transmittance *)

Lemma transmittanceAfter_succ (g : uint3) (k : nat) :
  transmittanceAfter g (S k) = fmul (transmittanceAfter g k) (sliceTransmittance g k).
Proof. reflexivity. Qed.

Lemma stored_transmittance (g : uint3) :
  map (fun store => w4 (snd store)) (CS_FinalIntegration g) =
  map (fun k => transmittanceAfter g (S k)) (seq 0 sliceCount).
Proof.
  unfold CS_FinalIntegration. fold sliceCount.
  rewrite <- (Nat.add_0_r sliceCount) at 1.
  change (mkIntegrationState (mkFloat4 f0 f0 f0 f1) (ViewPos (GBuffer cb)))
    with (mkIntegrationState (accumulated g 0) (stepOrigin g 0)).
  change 0 with (Z.of_nat 0).
  rewrite (FinalIntegration_loop_from g sliceCount 0 0 eq_refl).
  rewrite List.map_map. reflexivity.
Qed.

(** While every factor is a binary32 number in [0, 1], so is the
    accumulated transmittance. *)
Lemma transmittanceAfter_in_unit_interval (g : uint3) (n : nat) :
  (forall k, (k < n)%nat ->
     valid (sliceTransmittance g k) = true
     /\ in_unit_interval (sliceTransmittance g k) = true) ->
  forall k, (k <= n)%nat ->
    valid (transmittanceAfter g k) = true
    /\ is_finite (transmittanceAfter g k) = true
    /\ in_unit_interval (transmittanceAfter g k) = true.
Proof.
  intros Hfactor k. induction k as [|k IH]; intros Hk.
  - repeat split.
  - destruct IH as (Hv & Hfin & Hunit); [lia|].
    destruct (Hfactor k ltac:(lia)) as [Htv Htu].
    unfold in_unit_interval in Hunit. apply andb_true_iff in Hunit as [Hnn Hle].
    destruct (fmul_attenuates _ _ Hv Htv Hfin Hnn Htu) as (Hv' & Hfin' & Hnn' & Hle').
    rewrite transmittanceAfter_succ.
    split; [exact Hv'|]. split; [exact Hfin'|].
    unfold in_unit_interval. rewrite Hnn'. cbn [andb].
    exact (fle_trans _ _ _ Hnn' Hle' Hle).
Qed.

(** C2 (as amended).  For the column of any thread of CS_FinalIntegration
    whose slices all have a finite extinction that is not negative, and whose
    steps have a finite length: the alpha channel written for slice k is the
    accumulated transmittance after the slices 0..k; it starts at 1 and is
    multiplied each slice by the factor exp(-sigma * stepLength), whose
    argument is not above zero.  With an exp that gives a binary32 number in
    [0, 1] for every argument not above zero, every factor lies in [0, 1],
    every transmittance written is a binary32 number in [0, 1], and the
    transmittance is non-increasing from slice to slice.  (It may reach 0:
    the product of two factors above 0 can underflow.) *)
Theorem C2_transmittance_non_increasing (DispatchThreadId : uint3) :
  (forall x, fle x f0 = true -> valid (exp x) = true /\ in_unit_interval (exp x) = true) ->
  (forall k, (k < sliceCount)%nat ->
     let sigma :=
       w4 (LightScattering
             (mkUint3 (ux DispatchThreadId) (uy DispatchThreadId) (Z.of_nat k))) in
     is_finite sigma = true /\ is_nonneg sigma = true) ->
  (forall k, (k < sliceCount)%nat ->
     is_finite (stepLengthOf DispatchThreadId k) = true
     /\ is_nonneg (stepLengthOf DispatchThreadId k) = true) ->
  map (fun store => w4 (snd store)) (CS_FinalIntegration DispatchThreadId) =
    map (fun k => transmittanceAfter DispatchThreadId (S k)) (seq 0 sliceCount)
  /\ transmittanceAfter DispatchThreadId 0 = f1
  /\ (forall k, (k < sliceCount)%nat ->
        let sigma :=
          w4 (LightScattering
                (mkUint3 (ux DispatchThreadId) (uy DispatchThreadId) (Z.of_nat k))) in
        let argument := fmul (fneg sigma) (stepLengthOf DispatchThreadId k) in
        fle argument f0 = true
        /\ in_unit_interval (exp argument) = true
        /\ transmittanceAfter DispatchThreadId (S k) =
             fmul (transmittanceAfter DispatchThreadId k) (exp argument)
        /\ valid (transmittanceAfter DispatchThreadId (S k)) = true
        /\ in_unit_interval (transmittanceAfter DispatchThreadId (S k)) = true
        /\ fle (transmittanceAfter DispatchThreadId (S k))
                (transmittanceAfter DispatchThreadId k) = true).
Proof.
  intros Hexp Hsigma Hstep.
  assert (Harg : forall k, (k < sliceCount)%nat ->
            fle (fmul (fneg (w4 (LightScattering
                                   (mkUint3 (ux DispatchThreadId) (uy DispatchThreadId)
                                      (Z.of_nat k)))))
                      (stepLengthOf DispatchThreadId k)) f0 = true).
  { intros k Hk. destruct (Hsigma k Hk) as [Hsf Hsn]. destruct (Hstep k Hk) as [Hlf Hln].
    apply fmul_nonpositive; assumption. }
  assert (Hfactor : forall k, (k < sliceCount)%nat ->
            valid (sliceTransmittance DispatchThreadId k) = true
            /\ in_unit_interval (sliceTransmittance DispatchThreadId k) = true).
  { intros k Hk. unfold sliceTransmittance. cbv zeta. apply Hexp, Harg, Hk. }
  split; [apply stored_transmittance|]. split; [reflexivity|].
  intros k Hk sigma argument.
  pose proof (transmittanceAfter_in_unit_interval DispatchThreadId sliceCount Hfactor)
    as Hinv.
  destruct (Hinv k ltac:(lia)) as (Hv & Hfin & Hunit).
  destruct (Hinv (S k) ltac:(lia)) as (Hv' & _ & Hunit').
  destruct (Hfactor k Hk) as [Htv Htu].
  split; [exact (Harg k Hk)|]. split; [exact Htu|].
  split; [reflexivity|]. split; [exact Hv'|]. split; [exact Hunit'|].
  unfold in_unit_interval in Hunit. apply andb_true_iff in Hunit as [Hnn _].
  rewrite transmittanceAfter_succ.
  apply (fmul_attenuates _ _ Hv Htv Hfin Hnn Htu).
Qed.

(** *** The sample loops *)

Lemma uint_add_succ (n : Z) (i : nat) :
  is_uint n -> Z.of_nat i < n -> uint_add (Z.of_nat i) 1 = Z.of_nat (S i).
Proof.
  unfold is_uint, uint_add, to_uint. intros Hn Hi.
  rewrite Z.mod_small; lia.
Qed.

Lemma LightScattering_loop_from (g : uint3) (n : Z) (m i : nat) (acc : float3) :
  is_uint n -> Z.of_nat (i + m) = n ->
  LightScattering_loop m g n (Z.of_nat i) acc =
  fold_left (fun a j => LightScattering_sample g (Z.of_nat j) a) (seq i m) acc.
Proof.
  intros Hn. revert i acc. induction m as [|m IH]; intros i acc Him; [reflexivity|].
  cbn [LightScattering_loop seq fold_left].
  destruct (Z.ltb_spec (Z.of_nat i) n) as [Hlt|Hge]; [|lia].
  rewrite (uint_add_succ n i Hn Hlt). apply IH. lia.
Qed.

Lemma InjectLight_loop_from (us : bool) (g : uint3) (spot : bool) (n : Z) (m i : nat)
    (st : float4 * Attenuation) :
  is_uint n -> Z.of_nat (i + m) = n ->
  InjectLight_loop m us g spot n (Z.of_nat i) st =
  fold_left (fun a j => InjectLight_sample us g spot (Z.of_nat j) a) (seq i m) st.
Proof.
  intros Hn. revert i st. induction m as [|m IH]; intros i st Him; [reflexivity|].
  cbn [InjectLight_loop seq fold_left].
  destruct (Z.ltb_spec (Z.of_nat i) n) as [Hlt|Hge]; [|lia].
  rewrite (uint_add_succ n i Hn Hlt). apply IH. lia.
Qed.

(** *** The history test *)

Lemma historyAlphaOf_outside (uv : float3) :
  historyOutsideView uv = true -> historyAlphaOf uv = f0.
Proof. unfold historyAlphaOf. intros ->. reflexivity. Qed.

Lemma zero_below_threshold : flt f0 (literal 1 1000) = true.
Proof. vm_compute. reflexivity. Qed.

Lemma zero_not_positive : fgt f0 f0 = false.
Proof. vm_compute. reflexivity. Qed.

(** One pass of a sample loop is one jittered sample. *)
Lemma LightScattering_sample_jittered (g : uint3) (i : nat) (sum : float3) :
  LightScattering_sample g (Z.of_nat i) sum =
  lit (lit sum (directionalInscattering (jitteredPosition g i))) skyInscattering.
Proof.
  unfold LightScattering_sample, jitteredPosition, ComputeCellWorldPosition,
    directionalInscattering, skyInscattering, lit.
  destruct (ComputeCellWorldPosition_depth g (xyz (FrameJitterOffsets cb (Z.of_nat i))))
    as [worldPosition sceneDepth]. cbn [fst].
  destruct (NumCascades (DirectionalLightShadow cb) <? 10);
    destruct (fgt (VolumetricScatteringIntensity (SkyLight cb)) f0); reflexivity.
Qed.

Lemma InjectLight_sample_jittered (us : bool) (g : uint3) (spot : bool) (i : nat)
    (sum : float3) (att : Attenuation) :
  InjectLight_sample us g spot (Z.of_nat i) (float4_of sum f0, att) =
  (float4_of (add3 sum (localInscattering us spot (jitteredPosition g i)
                          (localAttenuation g spot i att))) f0,
   localAttenuation g spot i att).
Proof. destruct sum. reflexivity. Qed.

Lemma LightScattering_samples (g : uint3) (m i : nat) (sum : float3) :
  fold_left (fun a j => LightScattering_sample g (Z.of_nat j) a) (seq i m) sum =
  fold_left
    (fun a j => lit (lit a (directionalInscattering (jitteredPosition g j))) skyInscattering)
    (seq i m) sum.
Proof.
  revert i sum. induction m as [|m IH]; intros i sum; [reflexivity|].
  cbn [seq fold_left]. rewrite LightScattering_sample_jittered. apply IH.
Qed.

Lemma InjectLight_samples (us : bool) (g : uint3) (spot : bool) (m i : nat)
    (sum : float3) (att : Attenuation) :
  fold_left (fun a j => InjectLight_sample us g spot (Z.of_nat j) a) (seq i m)
    (float4_of sum f0, att) =
  let st :=
    fold_left
      (fun st j =>
         let att := localAttenuation g spot j (snd st) in
         (add3 (fst st) (localInscattering us spot (jitteredPosition g j) att), att))
      (seq i m) (sum, att) in
  (float4_of (fst st) f0, snd st).
Proof.
  revert i sum att. induction m as [|m IH]; intros i sum att; [reflexivity|].
  cbn [seq fold_left]. rewrite InjectLight_sample_jittered. rewrite IH. reflexivity.
Qed.

(** C3.  With USE_TEMPORAL_REPROJECTION=1, when a component of the
    reprojected history UV of a voxel is below 0 or above 1, the history
    weight is 0.  CS_LightScattering then stores, for a voxel inside the
    grid, the value made from the mean of exactly HistoryMissSuperSampleCount
    samples, sample i taken at the position of jitter offset i, with no
    history in it (and it stores nothing for a voxel outside, for which it
    takes one sample).  PS_InjectLight, which returns 0 for a pixel outside
    the grid, likewise returns the mean of HistoryMissSuperSampleCount
    jittered samples of the local light. *)
Theorem C3_history_miss_supersamples (DispatchThreadId : uint3) (USE_SHADOW : bool)
    (input : Quad_GS2PS) :
  is_uint (HistoryMissSuperSampleCount cb) ->
  historyOutsideView (reprojectedHistoryUV DispatchThreadId) = true ->
  historyOutsideView (reprojectedHistoryUV (InjectLight_gridCoordinate input)) = true ->
  let N := HistoryMissSuperSampleCount cb in
  let pixel := InjectLight_gridCoordinate input in
  let isSpotLight := fgt (SpotAngles_x (LocalLight pl)) (fneg (of_Z 2)) in
  (* the compute shader *)
  historyAlphaOf (reprojectedHistoryUV DispatchThreadId) = f0
  /\ LightScattering_numSuperSamples true DispatchThreadId =
       (if insideGrid DispatchThreadId then N else 1)
  /\ CS_LightScattering true DispatchThreadId =
       (if insideGrid DispatchThreadId
        then [(DispatchThreadId,
               clampToZero
                 (replaceNanInf (supersampledScattering DispatchThreadId (Z.to_nat N))))]
        else [])
  (* the pixel shader *)
  /\ historyAlphaOf (reprojectedHistoryUV pixel) = f0
  /\ InjectLight_numSuperSamples true pixel = N
  /\ PS_InjectLight true USE_SHADOW input =
       (if insideGrid pixel
        then supersampledInjection USE_SHADOW pixel isSpotLight (Z.to_nat N)
        else splat4 f0).
Proof.
  intros HN Hcs Hps N pixel isSpotLight.
  assert (HNnat : Z.of_nat (0 + Z.to_nat N) = N) by (unfold is_uint in HN; subst N; lia).
  assert (HNback : Z.of_nat (Z.to_nat N) = N) by exact HNnat.
  assert (Ha : historyAlphaOf (reprojectedHistoryUV DispatchThreadId) = f0)
    by (apply historyAlphaOf_outside; exact Hcs).
  assert (Hb : historyAlphaOf (reprojectedHistoryUV pixel) = f0)
    by (apply historyAlphaOf_outside; exact Hps).
  assert (Hn : LightScattering_numSuperSamples true DispatchThreadId =
               (if insideGrid DispatchThreadId then N else 1)).
  { unfold LightScattering_numSuperSamples. rewrite Ha, zero_below_threshold.
    reflexivity. }
  assert (Hm : InjectLight_numSuperSamples true pixel = N).
  { unfold InjectLight_numSuperSamples. rewrite Hb, zero_below_threshold. reflexivity. }
  repeat split; try assumption.
  - unfold CS_LightScattering.
    destruct (insideGrid DispatchThreadId) eqn:Hin; [|reflexivity].
    unfold blendedScatteringAndExtinction. rewrite Hn, ?Hin, Ha, zero_not_positive.
    cbn [andb]. unfold currentScatteringAndExtinction, supersampledScattering, sampleSum.
    pose proof (LightScattering_loop_from DispatchThreadId N (Z.to_nat N) 0 (splat3 f0)
                  HN HNnat) as Hloop.
    change (Z.of_nat 0) with 0 in Hloop. rewrite Hloop.
    rewrite LightScattering_samples, HNback. reflexivity.
  - unfold PS_InjectLight. fold pixel. fold isSpotLight.
    destruct (insideGrid pixel); [|reflexivity].
    cbn [negb]. rewrite Hm.
    change (splat4 f0) with (float4_of (splat3 f0) f0).
    pose proof (InjectLight_loop_from USE_SHADOW pixel isSpotLight N (Z.to_nat N) 0
                  (float4_of (splat3 f0) f0,
                   mkAttenuation (splat3 f0) (splat3 f0) f0 f1 f1 f1) HN HNnat) as Hloop.
    change (Z.of_nat 0) with 0 in Hloop. rewrite Hloop.
    rewrite InjectLight_samples. cbv zeta.
    unfold supersampledInjection, localSampleSum. rewrite HNback.
    destruct (fold_left _ _ _) as [sum att]. reflexivity.
Qed.

(** *** What reaches the store *)

Lemma f0_is_zero : f0 = S754_zero false.
Proof. reflexivity. Qed.

(** A component after the NaN/infinity test and [max(_, 0)]. *)
Lemma sanitized_component (c : float) :
  let c' := fmax (if isnan c || isinf c then f0 else c) f0 in
  is_finite c' = true /\ is_nonneg c' = true.
Proof.
  destruct c as [s|s| |s m e]; cbn [isnan isinf orb].
  - destruct s; vm_compute; split; reflexivity.
  - vm_compute; split; reflexivity.
  - vm_compute; split; reflexivity.
  - unfold fmax, is_nonneg, flt, SFltb, SFleb. rewrite f0_is_zero.
    cbn [isnan SFcompare]. destruct s; cbn; split; reflexivity.
Qed.

Lemma replaceNanInf_component (c : float) :
  (if isnan c || isinf c then f0 else c) = (if is_finite c then c else f0).
Proof. destruct c as [s|s| |s m e]; reflexivity. Qed.

Lemma insideGrid_unsigned (g : uint3) :
  insideGrid g =
  (ux g <? to_uint (ix (GridSizeInt cb))) && (uy g <? to_uint (iy (GridSizeInt cb))) &&
  (uz g <? to_uint (iz (GridSizeInt cb))).
Proof. reflexivity. Qed.

(** C8 (as amended).  CS_LightScattering stores at most one value, at the
    thread's own grid coordinate, and it stores exactly when every component
    of the grid coordinate is below the corresponding component of
    GridSizeInt (the comparison the shader makes, on unsigned integers; for
    a GridSizeInt without negative component the plain integer comparison).
    Before the store each component of the result that is NaN or an
    infinity is replaced by zero, the components that are finite numbers are
    kept, and the result is clamped with max(value, 0); so every stored
    value is, component by component, finite and not negative. *)
Theorem C8_stored_scattering_is_finite_nonnegative (USE_TEMPORAL_REPROJECTION : bool)
    (DispatchThreadId : uint3) :
  let result := blendedScatteringAndExtinction USE_TEMPORAL_REPROJECTION DispatchThreadId in
  CS_LightScattering USE_TEMPORAL_REPROJECTION DispatchThreadId =
    (if insideGrid DispatchThreadId
     then [(DispatchThreadId, clampToZero (replaceNanInf result))]
     else [])
  /\ replaceNanInf result = map4 (fun c => if is_finite c then c else f0) result
  /\ Forall (fun store => fst store = DispatchThreadId /\ finiteNonNegative (snd store) = true)
            (CS_LightScattering USE_TEMPORAL_REPROJECTION DispatchThreadId)
  /\ insideGrid DispatchThreadId =
       (ux DispatchThreadId <? to_uint (ix (GridSizeInt cb)))
       && (uy DispatchThreadId <? to_uint (iy (GridSizeInt cb)))
       && (uz DispatchThreadId <? to_uint (iz (GridSizeInt cb)))
  /\ (0 <= ix (GridSizeInt cb) < 2 ^ 31 -> 0 <= iy (GridSizeInt cb) < 2 ^ 31 ->
       0 <= iz (GridSizeInt cb) < 2 ^ 31 ->
       (CS_LightScattering USE_TEMPORAL_REPROJECTION DispatchThreadId <> [] <->
        ux DispatchThreadId < ix (GridSizeInt cb) /\ uy DispatchThreadId < iy (GridSizeInt cb)
        /\ uz DispatchThreadId < iz (GridSizeInt cb))).
Proof.
  intros result.
  assert (Hcs : CS_LightScattering USE_TEMPORAL_REPROJECTION DispatchThreadId =
                (if insideGrid DispatchThreadId
                 then [(DispatchThreadId, clampToZero (replaceNanInf result))]
                 else [])) by reflexivity.
  split; [exact Hcs|]. split; [|split; [|split]].
  - unfold replaceNanInf, map4. f_equal; apply replaceNanInf_component.
  - rewrite Hcs. destruct (insideGrid DispatchThreadId); [|constructor].
    constructor; [|constructor]. split; [reflexivity|].
    unfold finiteNonNegative, clampToZero, replaceNanInf, map4. cbn [x4 y4 z4 w4 snd].
    destruct (sanitized_component (x4 result)) as [-> ->].
    destruct (sanitized_component (y4 result)) as [-> ->].
    destruct (sanitized_component (z4 result)) as [-> ->].
    destruct (sanitized_component (w4 result)) as [-> ->].
    reflexivity.
  - apply insideGrid_unsigned.
  - intros Hx Hy Hz. rewrite Hcs, insideGrid_unsigned.
    unfold to_uint, uint_modulus.
    rewrite !Z.mod_small by lia.
    destruct (Z.ltb_spec (ux DispatchThreadId) (ix (GridSizeInt cb)));
      destruct (Z.ltb_spec (uy DispatchThreadId) (iy (GridSizeInt cb)));
      destruct (Z.ltb_spec (uz DispatchThreadId) (iz (GridSizeInt cb)));
      cbn [andb]; split; intros H'; try lia; try congruence; try (exfalso; apply H'; reflexivity).
Qed.

(** *** The other shaders of the file *)

Lemma InjectLight_sample_alpha (us : bool) (g : uint3) (spot : bool) (i : Z)
    (st : float4 * Attenuation) :
  w4 (fst (InjectLight_sample us g spot i st)) = w4 (fst st).
Proof. destruct st as [scattering att]. reflexivity. Qed.

Lemma InjectLight_loop_alpha (fuel : nat) (us : bool) (g : uint3) (spot : bool) (n i : Z)
    (st : float4 * Attenuation) :
  w4 (fst (InjectLight_loop fuel us g spot n i st)) = w4 (fst st).
Proof.
  revert i st. induction fuel as [|fuel IH]; intros i st; cbn [InjectLight_loop];
    [reflexivity|].
  destruct (i <? n); [|reflexivity]. rewrite IH. apply InjectLight_sample_alpha.
Qed.

(** PS_InjectLight never writes the alpha channel: whatever the light, the
    samples and the permutation, the fourth component of its result is the
    0 it starts from; and for a pixel outside the grid the whole result is
    0. *)
Theorem PS_InjectLight_alpha_is_zero (USE_TEMPORAL_REPROJECTION USE_SHADOW : bool)
    (input : Quad_GS2PS) :
  w4 (PS_InjectLight USE_TEMPORAL_REPROJECTION USE_SHADOW input) = f0
  /\ (insideGrid (InjectLight_gridCoordinate input) = false ->
      PS_InjectLight USE_TEMPORAL_REPROJECTION USE_SHADOW input = splat4 f0).
Proof.
  unfold PS_InjectLight.
  destruct (insideGrid (InjectLight_gridCoordinate input)); cbn [negb];
    [|split; reflexivity].
  split; [|discriminate].
  match goal with
  | |- context [InjectLight_loop ?fuel ?us ?g ?spot ?n ?i ?st] =>
      pose proof (InjectLight_loop_alpha fuel us g spot n i st) as Halpha;
      destruct (InjectLight_loop fuel us g spot n i st) as [scattering att]
  end.
  exact Halpha.
Qed.

(** [max(c, 0)] is never NaN and never below zero. *)
Lemma fmax_zero_nonneg (c : float) : is_nonneg (fmax c f0) = true /\ isnan (fmax c f0) = false.
Proof. destruct c as [[|]|[|]| |[|] m e]; split; reflexivity. Qed.

(** CS_Initialize stores at most one value to each buffer, both at the
    thread's own grid coordinate, and it stores exactly when every component
    of the coordinate, read as a signed integer, is below the corresponding
    component of GridSizeInt.  The absorption it stores in the fourth
    component of RWVBufferA is never NaN and never negative, whatever the fog
    parameters and exp2 are; the colour stored is GlobalAlbedo times an
    extinction that is never NaN and never negative; RWVBufferB gets
    GlobalEmissive with 0 in the fourth component. *)
Theorem CS_Initialize_stores (DispatchThreadId : uint3) :
  let extinction :=
    Initialize_extinction (ComputeCellWorldPosition DispatchThreadId (splat3 (literal 5 10))) in
  (is_nonneg extinction = true /\ isnan extinction = false)
  /\ (insideGridSigned DispatchThreadId = false -> CS_Initialize DispatchThreadId = ([], []))
  /\ (insideGridSigned DispatchThreadId = true ->
      exists absorption,
        CS_Initialize DispatchThreadId =
          ([(DispatchThreadId, float4_of (scale3 (GlobalAlbedo cb) extinction) absorption)],
           [(DispatchThreadId, float4_of (GlobalEmissive cb) f0)])
        /\ is_nonneg absorption = true /\ isnan absorption = false).
Proof.
  intros extinction. split; [apply fmax_zero_nonneg|]. unfold CS_Initialize. split.
  - intros Hout. rewrite Hout. reflexivity.
  - intros Hin. rewrite Hin. eexists. split; [reflexivity|]. apply fmax_zero_nonneg.
Qed.

Lemma to_int_small (z : Z) : 0 <= z < 2 ^ 31 -> to_int z = z.
Proof.
  intros Hz. unfold to_int, to_uint, uint_modulus.
  change (2 ^ 31) with 2147483648 in *. change (2 ^ 32) with 4294967296.
  rewrite Z.mod_small by lia. destruct (Z.ltb_spec z 2147483648); lia.
Qed.

(** CS_Initialize compares the grid coordinate with GridSizeInt as signed
    integers, CS_LightScattering and PS_InjectLight as unsigned ones.  For
    the coordinates below 2^31 and a GridSizeInt without negative component
    the two tests agree, so the passes store for the same voxels. *)
Theorem Initialize_and_LightScattering_store_for_the_same_voxels
    (USE_TEMPORAL_REPROJECTION : bool) (DispatchThreadId : uint3) :
  0 <= ux DispatchThreadId < 2 ^ 31 -> 0 <= uy DispatchThreadId < 2 ^ 31 ->
  0 <= uz DispatchThreadId < 2 ^ 31 ->
  0 <= ix (GridSizeInt cb) < 2 ^ 31 -> 0 <= iy (GridSizeInt cb) < 2 ^ 31 ->
  0 <= iz (GridSizeInt cb) < 2 ^ 31 ->
  insideGridSigned DispatchThreadId = insideGrid DispatchThreadId
  /\ (fst (CS_Initialize DispatchThreadId) = [] <->
      CS_LightScattering USE_TEMPORAL_REPROJECTION DispatchThreadId = []).
Proof.
  intros Hx Hy Hz Hgx Hgy Hgz.
  assert (Hsame : insideGridSigned DispatchThreadId = insideGrid DispatchThreadId).
  { unfold insideGridSigned, insideGrid, all3, int3_lt, int3_of_uint3, uint3_lt_int3,
      uint_lt_int. cbn [ix iy iz bx by' bz].
    rewrite !to_int_small by assumption.
    unfold to_uint, uint_modulus. change (2 ^ 31) with 2147483648 in *.
    change (2 ^ 32) with 4294967296. rewrite !Z.mod_small by lia. reflexivity. }
  split; [exact Hsame|].
  unfold CS_Initialize, CS_LightScattering. rewrite Hsame.
  destruct (insideGrid DispatchThreadId); cbn [fst]; split; intros H;
    first [reflexivity | discriminate].
Qed.

(** A number that is not above zero is not above an absolute value. *)
Lemma flt_fabs_nonpositive (a w : float) : flt f0 w = false -> flt (fabs a) w = false.
Proof.
  destruct w as [[|]|[|]| |[|] mw ew]; try discriminate;
    destruct a as [[|]|[|]| |[|] ma ea]; reflexivity.
Qed.

(** The quads of a light.  GS_WriteToSlice hands the three vertices of any
    triangle on in their order, each with the position and the layer index
    it came with.  Every vertex VS_WriteToSlice makes for the instance
    [instance] carries the slice instance + MinZ (in uint arithmetic) and the
    texture coordinate 0, so that is the slice PS_InjectLight takes for its
    grid coordinate.  Unless the radius of the bounding sphere is above zero
    (also when it is NaN) the position of every vertex is 0: the triangles
    are degenerate.  A vertex of a slice that cuts the sphere is placed at
    the corner of the square around the circle of the cut and brought to
    clip space. *)
Theorem WriteToSlice_layers_and_degenerate_quads (instance : Z)
    (TexCoord0 TexCoord1 TexCoord2 : float2) :
  let slice := to_uint (instance + MinZ pl) in
  let triangle :=
    GS_WriteToSlice (VS_WriteToSlice TexCoord0 instance)
      (VS_WriteToSlice TexCoord1 instance) (VS_WriteToSlice TexCoord2 instance) in
  (forall input0 input1 input2,
     map (fun vertex => (Position vertex, LayerIndex vertex))
         (GS_WriteToSlice input0 input1 input2) =
     map (fun input => (Vertex_Position (Vertex input), VS_LayerIndex input))
         [input0; input1; input2])
  /\ map LayerIndex triangle = [slice; slice; slice]
  /\ Forall (fun input => uz (InjectLight_gridCoordinate input) = slice) triangle
  /\ is_uint slice
  /\ Vertex_TexCoord (Vertex (VS_WriteToSlice TexCoord0 instance)) = mkFloat2 f0 f0
  /\ (flt f0 (w4 (ViewSpaceBoundingSphere pl)) = false ->
      map Position triangle = [splat4 f0; splat4 f0; splat4 f0])
  /\ (forall TexCoord,
        let sphere := ViewSpaceBoundingSphere pl in
        let depth := ComputeDepthFromZSlice (of_Z slice) in
        let offset := fabs (fsub depth (z4 sphere)) in
        let radius := fsqrt (fsub (fmul (w4 sphere) (w4 sphere)) (fmul offset offset)) in
        Vertex_Position (Vertex (VS_WriteToSlice TexCoord instance)) =
          if flt offset (w4 sphere) then
            mul_row
              (mkFloat4
                 (fadd (x4 sphere) (fmul (fsub (fmul (x2 TexCoord) (of_Z 2)) f1) radius))
                 (fadd (y4 sphere) (fmul (fsub (fmul (y2 TexCoord) (of_Z 2)) f1) radius))
                 depth f1)
              (ViewToVolumeClip pl)
          else splat4 f0).
Proof.
  intros slice triangle. subst slice triangle.
  split; [intros input0 input1 input2; reflexivity|].
  unfold GS_WriteToSlice, VS_WriteToSlice.
  cbn [map LayerIndex Position VS_LayerIndex Vertex Vertex_Position Vertex_TexCoord].
  split; [reflexivity|]. split; [repeat constructor|].
  split; [unfold is_uint; apply to_uint_range|]. split; [reflexivity|].
  split.
  - intros Hradius. rewrite !(flt_fabs_nonpositive _ _ Hradius). reflexivity.
  - intros TexCoord. cbv zeta. unfold uint_add.
    destruct (flt _ _); reflexivity.
Qed.

End Shader.

(* --------------------------------------------------------------------- *)
(** ** A concrete scene                                                   *)
(* --------------------------------------------------------------------- *)

(** A camera at the origin that looks along +z; the column of the thread
    (0,0) of a 1 x 1 x 4 grid lies on the view axis, the fog reaches 4 units
    deep, so the slice centres are at the depths 0.5, 1.5, 2.5 and 3.5. *)
Module Scene.

Record Camera := mkCamera { cameraPosition : float3; cameraFar : float }.

Definition linearToDevice (c : Camera) (linearDepth : float) : float := linearDepth.

Definition worldPosition (c : Camera) (uv : float2) (deviceDepth : float) : float3 :=
  add3 (cameraPosition c)
       (mkFloat3 (fsub (x2 uv) (literal 5 10)) (fsub (y2 uv) (literal 5 10))
                 (fmul deviceDepth (cameraFar c))).

Inductive Light := NoLight.
Inductive LightShadow := NoShadow.

Definition lightColor (_ : Light) : float3 := splat3 f1.
Definition lightDirection (_ : Light) : float3 := mkFloat3 f0 f0 f1.
Definition lightSpotAngle (_ : Light) : float := f0.
(** Ten cascades: the shader's mark for a scene without directional light. *)
Definition cascades (_ : LightShadow) : Z := 10.
Definition unshadowedCSM (_ : Light) (_ : LightShadow) (_ : float3) (_ : float) : float := f1.
Definition unshadowed (_ : Light) (_ : LightShadow) (_ : float3) : float := f1.
Definition keepAttenuation (_ : Light) (_ : bool) (_ _ : float3) (_ : float)
    (a : Attenuation) : Attenuation := a.
Definition luminance (c : float3) : float :=
  dot3 c (mkFloat3 (literal 299 1000) (literal 587 1000) (literal 114 1000)).
Definition pi : float := literal 314159265 100000000.
(** The scene has neither directional nor sky light, so [pow] is never
    evaluated; the stand-in poisons any result that would use it. *)
Definition unusedPow (_ _ : float) : float := S754_nan.

Definition identity4x4 : float4x4 :=
  mkFloat4x4 (mkFloat4 f1 f0 f0 f0) (mkFloat4 f0 f1 f0 f0)
             (mkFloat4 f0 f0 f1 f0) (mkFloat4 f0 f0 f0 f1).

(** The clip transform of a previous frame whose camera stood 8 units to
    the right: every voxel of this frame reprojects left of the old view. *)
Definition movedCamera : float4x4 :=
  mkFloat4x4 (mkFloat4 f1 f0 f0 f0) (mkFloat4 f0 f1 f0 f0)
             (mkFloat4 f0 f0 f0 f1) (mkFloat4 (fneg (of_Z 8)) f0 f0 f0).

Definition data (missSamples : Z) : Data Camera Light LightShadow :=
  mkData Camera Light LightShadow
    (mkCamera (mkFloat3 f0 f0 f0) (of_Z 4))
    (splat3 f1) f1 (splat3 f0) (literal 9 10)
    (mkFloat3 f1 f1 (of_Z 4)) missSamples (mkInt3 1 1 4)
    f0 (of_Z 4) f1 (splat4 f0) movedCamera
    (fun _ => splat4 (literal 5 10))
    NoLight NoShadow
    (mkSkyLightData (splat3 f1) f0 (splat3 f0)).

Definition perLight : PerLight Light LightShadow :=
  mkPerLight Light LightShadow 0 f1 (splat4 f0) identity4x4 NoLight NoShadow.

Definition origin : uint3 := mkUint3 0 0 0.

(** A material with no scattering, absorption 3 and an emissive colour
    whose red channel is NaN. *)
Definition noScattering (_ : uint3) : float4 := mkFloat4 f0 f0 f0 (of_Z 3).
Definition brokenEmissive (_ : uint3) : float4 := mkFloat4 S754_nan f1 (of_Z 2) f0.
Definition dark (_ : uint3) : float4 := splat4 f0.
Definition darkSample (_ : float3) (_ : float) : float4 := splat4 f0.

Definition pixelAtOrigin : Quad_GS2PS :=
  mkQuad_GS2PS (mkFloat4 (literal 5 10) (literal 5 10) f0 f1) 0.

(** Fog with scattering 1 and extinction 1 everywhere. *)
Definition evenFog (_ : uint3) : float4 := splat4 f1.

(** A stand-in for [exp] on the numbers that are not above zero: at the
    two arguments the even fog asks for, -0.5 and -1, it is exp rounded to
    nearest; at zero it is 1; elsewhere it is the lower bound 0. *)
Definition expOfEvenFog (x : float) : float :=
  if SFeqb x (fneg (literal 5 10)) then S754_finite false 10175896 (-24)
  else if SFeqb x (fneg f1) then S754_finite false 12343986 (-25)
  else if SFeqb x f0 then f1
  else f0.

(** The transmittance accumulated over the first [k] slices of the even
    fog, in the column of the thread (0,0). *)
Definition evenFogTransmittance (k : nat) : float :=
  transmittanceAfter Camera cameraFar cameraPosition linearToDevice worldPosition Light
    LightShadow expOfEvenFog (data 4) evenFog origin k.

(** Fog with extinction 140 in the first slice and 70 behind it: every
    slice has the optical depth 70. *)
Definition denseFog (c : uint3) : float4 :=
  mkFloat4 f1 f1 f1 (if uz c =? 0 then of_Z 140 else of_Z 70).

(** The binary32 number nearest to e^-70, about 3.975e-31. *)
Definition expMinus70 : float := S754_finite false 8454847 (-124).

End Scene.

Import Scene.

(** The same camera and grid by daylight.  The sun shines along the view
    axis through an opening at depth 0.5: what lies nearer to the camera is
    in shadow, for the sun and for the lamp alike.  The four jitter offsets
    put the samples of the voxel at the origin at the depths 0.125, 0.375,
    0.625 and 0.875, two in shadow and two in the light. *)
Module Daylight.

Inductive Light := Sun | Lamp.
Inductive LightShadow := OneCascade | ShadowCube.

Definition lightColor (_ : Light) : float3 := splat3 f1.
Definition lightDirection (_ : Light) : float3 := mkFloat3 f0 f0 f1.
Definition lightSpotAngle (_ : Light) : float := f0.
Definition cascades (s : LightShadow) : Z :=
  match s with OneCascade => 1 | ShadowCube => 0 end.
Definition behindOpening (p : float3) : float :=
  if flt (z3 p) (literal 5 10) then f0 else f1.
Definition shadowCSM (_ : Light) (_ : LightShadow) (p : float3) (_ : float) : float :=
  behindOpening p.
Definition shadowLocal (_ : Light) (_ : LightShadow) (p : float3) : float :=
  behindOpening p.
(** The lamp is as bright everywhere: the attenuation stays as it starts. *)
Definition evenAttenuation (_ : Light) (_ : bool) (_ _ : float3) (_ : float)
    (a : Attenuation) : Attenuation := a.
(** The phase is isotropic (PhaseG = 0), so [pow] is asked for 1^1.5 only. *)
Definition powOfOne (x _ : float) : float := if SFeqb x f1 then f1 else S754_nan.
Definition jitter (i : Z) : float4 :=
  mkFloat4 (literal 5 10) (literal 5 10) (literal (2 * i + 1) 8) f0.

Definition data : Data Camera Light LightShadow :=
  mkData Camera Light LightShadow
    (mkCamera (mkFloat3 f0 f0 f0) (of_Z 4))
    (splat3 f1) f1 (splat3 f0) (literal 9 10)
    (mkFloat3 f1 f1 (of_Z 4)) 4 (mkInt3 1 1 4)
    f0 (of_Z 4) f1 (splat4 f0) movedCamera jitter
    Sun OneCascade
    (mkSkyLightData (splat3 f1) f1 (splat3 f0)).

Definition perLight : PerLight Light LightShadow :=
  mkPerLight Light LightShadow 0 f1 (splat4 f0) identity4x4 Lamp ShadowCube.

Definition skyImage (_ : float3) (_ : float) : float4 := splat4 (literal 25 100).
(** The history texture holds 9 everywhere: any blend would show. *)
Definition oldFrame (_ : float3) (_ : float) : float4 := splat4 (of_Z 9).

(** The voxel at the origin from [n] samples. *)
Definition scattering (n : nat) : float4 :=
  supersampledScattering Camera cameraFar cameraPosition linearToDevice worldPosition Light
    LightShadow lightColor lightDirection cascades shadowCSM luminance pi powOfOne data
    evenFog dark dark skyImage origin n.

(** The pixel at the origin from [n] samples of the lamp. *)
Definition injection (n : nat) : float4 :=
  supersampledInjection Camera cameraFar cameraPosition linearToDevice worldPosition Light
    LightShadow lightColor shadowLocal shadowLocal evenAttenuation pi powOfOne data perLight
    true origin true n.

End Daylight.

(** C1, counterexample to the claim as stated.  In the scene the centres of
    consecutive slices are 1 apart, but the first slice is integrated over
    the step 0.5 from the camera to its centre: whatever exp is, the first
    value stored is the energy-conserving step over 0.5, so not every
    stepLength is a distance between consecutive slice centres. *)
Lemma C1_counterexample_first_step_from_camera :
  sliceCount Camera Light LightShadow (data 4) = 4%nat
  /\ centreDistance Camera cameraFar linearToDevice worldPosition Light LightShadow
       (data 4) origin 0 = f1
  /\ centreDistance Camera cameraFar linearToDevice worldPosition Light LightShadow
       (data 4) origin 1 = f1
  /\ centreDistance Camera cameraFar linearToDevice worldPosition Light LightShadow
       (data 4) origin 2 = f1
  /\ stepLengthOf Camera cameraFar cameraPosition linearToDevice worldPosition Light
       LightShadow (data 4) origin 0 = literal 5 10
  /\ literal 5 10 <> f1
  /\ (forall exp : float -> float,
        head (CS_FinalIntegration Camera cameraFar cameraPosition linearToDevice
                worldPosition Light LightShadow exp (data 4) evenFog origin) =
        Some (origin,
              integrateSlice exp (mkFloat4 f0 f0 f0 f1) (splat3 f1) f1 (literal 5 10))).
Proof.
  split; [vm_compute; reflexivity|].
  split; [vm_compute; reflexivity|].
  split; [vm_compute; reflexivity|].
  split; [vm_compute; reflexivity|].
  split; [vm_compute; reflexivity|].
  split.
  - vm_compute. discriminate.
  - intros exp.
    pose proof (FinalIntegration_loop_from Camera cameraFar cameraPosition linearToDevice
                  worldPosition Light LightShadow exp (data 4) evenFog origin 4 0 0 eq_refl)
      as Hloop.
    unfold CS_FinalIntegration.
    change (Z.to_nat (to_uint (iz (GridSizeInt Camera Light LightShadow (data 4)))))
      with (4 + 0)%nat.
    change (accumulated Camera cameraFar cameraPosition linearToDevice worldPosition Light
              LightShadow exp (data 4) evenFog origin 0)
      with (mkFloat4 f0 f0 f0 f1) in Hloop.
    change (stepOrigin Camera cameraFar cameraPosition linearToDevice worldPosition Light
              LightShadow (data 4) origin 0)
      with (cameraPosition (GBuffer _ _ _ (data 4))) in Hloop.
    change (Z.of_nat 0) with 0 in Hloop.
    rewrite Hloop. cbn [seq map head accumulated].
    assert (Hstep : stepLengthOf Camera cameraFar cameraPosition linearToDevice worldPosition
                      Light LightShadow (data 4) origin 0 = literal 5 10)
      by (vm_compute; reflexivity).
    rewrite Hstep. reflexivity.
Qed.

(** C2, witness: the even fog, whose extinction is 1 in every slice, with
    steps of the lengths 0.5, 1, 1 and 1.  The factors are about 0.607 and
    0.368; the transmittance written goes down from slice to slice and stays
    in [0, 1]. *)
Lemma C2_witness_even_fog :
  (in_unit_interval (evenFogTransmittance 1) = true
   /\ fle (evenFogTransmittance 1) (evenFogTransmittance 0) = true)
  /\ (in_unit_interval (evenFogTransmittance 2) = true
      /\ fle (evenFogTransmittance 2) (evenFogTransmittance 1) = true)
  /\ (in_unit_interval (evenFogTransmittance 3) = true
      /\ fle (evenFogTransmittance 3) (evenFogTransmittance 2) = true)
  /\ (in_unit_interval (evenFogTransmittance 4) = true
      /\ fle (evenFogTransmittance 4) (evenFogTransmittance 3) = true).
Proof.
  assert (Hexp : forall x, fle x f0 = true ->
            valid (expOfEvenFog x) = true /\ in_unit_interval (expOfEvenFog x) = true).
  { intros x _. unfold expOfEvenFog.
    destruct (SFeqb x (fneg (literal 5 10))); [split; reflexivity|].
    destruct (SFeqb x (fneg f1)); [split; reflexivity|].
    destruct (SFeqb x f0); split; reflexivity. }
  assert (Hsigma : forall k, (k < sliceCount Camera Light LightShadow (data 4))%nat ->
            let sigma := w4 (evenFog (mkUint3 (ux origin) (uy origin) (Z.of_nat k))) in
            is_finite sigma = true /\ is_nonneg sigma = true).
  { intros k _. split; reflexivity. }
  assert (Hstep : forall k, (k < sliceCount Camera Light LightShadow (data 4))%nat ->
            is_finite (stepLengthOf Camera cameraFar cameraPosition linearToDevice
                         worldPosition Light LightShadow (data 4) origin k) = true
            /\ is_nonneg (stepLengthOf Camera cameraFar cameraPosition linearToDevice
                            worldPosition Light LightShadow (data 4) origin k) = true).
  { intros k Hk. change (sliceCount Camera Light LightShadow (data 4)) with 4%nat in Hk.
    destruct k as [|[|[|[|k]]]]; [| | | |lia]; split; vm_compute; reflexivity. }
  destruct (C2_transmittance_non_increasing Camera cameraFar cameraPosition linearToDevice
              worldPosition Light LightShadow expOfEvenFog (data 4) evenFog origin
              Hexp Hsigma Hstep)
    as (_ & _ & Hslices).
  change (sliceCount Camera Light LightShadow (data 4)) with 4%nat in Hslices.
  assert (Hpick : forall k, (k < 4)%nat ->
            in_unit_interval (evenFogTransmittance (S k)) = true
            /\ fle (evenFogTransmittance (S k)) (evenFogTransmittance k) = true).
  { intros k Hk. destruct (Hslices k Hk) as (_ & _ & _ & _ & Hunit & Hle).
    exact (conj Hunit Hle). }
  exact (conj (Hpick 0%nat ltac:(lia)) (conj (Hpick 1%nat ltac:(lia))
          (conj (Hpick 2%nat ltac:(lia)) (Hpick 3%nat ltac:(lia))))).
Defined.

(** C2, counterexample to the claim as stated.  In the dense fog every
    extinction is non-negative and every slice has the optical depth 70, so
    every factor is exp(-70).  For any exp that returns the binary32 number
    nearest to e^-70 there, the factor lies in (0, 1], but the transmittance
    written for the second slice is its square, about 1.6e-61, which binary32
    rounds to 0: the transmittance written is 0 from the second slice on and
    not in (0, 1]. *)
Lemma C2_counterexample_transmittance_underflows :
  (forall c, is_nonneg (w4 (denseFog c)) = true)
  /\ valid expMinus70 = true
  /\ flt f0 expMinus70 = true
  /\ fle expMinus70 f1 = true
  /\ flt f0 f0 = false
  /\ (forall exp : float -> float,
        exp (fneg (of_Z 70)) = expMinus70 ->
        sliceTransmittance Camera cameraFar cameraPosition linearToDevice worldPosition Light
          LightShadow exp (data 4) denseFog origin 0 = expMinus70
        /\ sliceTransmittance Camera cameraFar cameraPosition linearToDevice worldPosition
             Light LightShadow exp (data 4) denseFog origin 1 = expMinus70
        /\ map (fun store => w4 (snd store))
             (CS_FinalIntegration Camera cameraFar cameraPosition linearToDevice
                worldPosition Light LightShadow exp (data 4) denseFog origin) =
           [expMinus70; f0; f0; f0]).
Proof.
  split; [intros c; unfold denseFog; cbn [w4]; destruct (uz c =? 0); reflexivity|].
  split; [reflexivity|]. split; [reflexivity|]. split; [reflexivity|].
  split; [reflexivity|].
  intros exp Hexp.
  assert (Hfactor : forall k, (k < 4)%nat ->
            sliceTransmittance Camera cameraFar cameraPosition linearToDevice worldPosition
              Light LightShadow exp (data 4) denseFog origin k = expMinus70).
  { intros k Hk. unfold sliceTransmittance. cbv zeta. rewrite <- Hexp. f_equal.
    destruct k as [|[|[|[|k]]]]; [| | | |lia]; vm_compute; reflexivity. }
  split; [apply Hfactor; lia|]. split; [apply Hfactor; lia|].
  rewrite stored_transmittance.
  change (sliceCount Camera Light LightShadow (data 4)) with 4%nat.
  cbn [seq map].
  rewrite !transmittanceAfter_succ, !Hfactor by lia.
  change (transmittanceAfter Camera cameraFar cameraPosition linearToDevice worldPosition
            Light LightShadow exp (data 4) denseFog origin 0) with f1.
  vm_compute. reflexivity.
Qed.

(** C3, witness: by daylight every voxel reprojects outside the previous
    view, and with HistoryMissSuperSampleCount = 4 both passes take the mean
    of four samples for the voxel at the origin: about 0.568 with the sun and
    the sky, where the first sample alone gives the 0.25 of the sky, and
    about 0.0398 for the lamp, where the first sample alone gives 0.  Nothing
    of the history, which holds 9, is in the value stored. *)
Lemma C3_witness_moved_camera :
  CS_LightScattering Camera cameraFar cameraPosition linearToDevice worldPosition
    Daylight.Light Daylight.LightShadow Daylight.lightColor Daylight.lightDirection
    Daylight.cascades Daylight.shadowCSM luminance pi Daylight.powOfOne Daylight.data
    evenFog dark dark Daylight.oldFrame Daylight.skyImage true origin =
  [(origin, clampToZero (replaceNanInf (Daylight.scattering 4)))]
  /\ Daylight.scattering 4 =
     mkFloat4 (S754_finite false 9534658 (-24)) (S754_finite false 9534658 (-24))
              (S754_finite false 9534658 (-24)) (of_Z 2)
  /\ Daylight.scattering 1 =
     mkFloat4 (literal 25 100) (literal 25 100) (literal 25 100) (of_Z 2)
  /\ PS_InjectLight Camera cameraFar cameraPosition linearToDevice worldPosition
       Daylight.Light Daylight.LightShadow Daylight.lightColor Daylight.lightSpotAngle
       Daylight.shadowLocal Daylight.shadowLocal Daylight.evenAttenuation pi Daylight.powOfOne
       Daylight.data Daylight.perLight true true pixelAtOrigin =
     Daylight.injection 4
  /\ Daylight.injection 4 =
     mkFloat4 (S754_finite false 10680707 (-28)) (S754_finite false 10680707 (-28))
              (S754_finite false 10680707 (-28)) f0
  /\ Daylight.injection 1 = splat4 f0.
Proof.
  assert (H1 : is_uint (HistoryMissSuperSampleCount Camera Daylight.Light
                          Daylight.LightShadow Daylight.data)).
  { unfold is_uint, uint_modulus. cbn. lia. }
  assert (H2 : historyOutsideView
                 (reprojectedHistoryUV Camera cameraFar linearToDevice worldPosition
                    Daylight.Light Daylight.LightShadow Daylight.data origin) = true).
  { vm_compute. reflexivity. }
  assert (H3 : historyOutsideView
                 (reprojectedHistoryUV Camera cameraFar linearToDevice worldPosition
                    Daylight.Light Daylight.LightShadow Daylight.data
                    (InjectLight_gridCoordinate pixelAtOrigin)) = true).
  { vm_compute. reflexivity. }
  pose proof (C3_history_miss_supersamples Camera cameraFar cameraPosition linearToDevice
                worldPosition Daylight.Light Daylight.LightShadow Daylight.lightColor
                Daylight.lightDirection Daylight.lightSpotAngle Daylight.cascades
                Daylight.shadowCSM Daylight.shadowLocal Daylight.shadowLocal
                Daylight.evenAttenuation
                luminance pi Daylight.powOfOne Daylight.data Daylight.perLight evenFog dark
                dark Daylight.oldFrame Daylight.skyImage origin true pixelAtOrigin
                H1 H2 H3) as T.
  cbv zeta in T.
  destruct T as (_ & _ & Hcs & _ & _ & Hps).
  assert (Hpix : InjectLight_gridCoordinate pixelAtOrigin = origin).
  { vm_compute. reflexivity. }
  assert (Hin : insideGrid Camera Daylight.Light Daylight.LightShadow Daylight.data origin
                = true).
  { vm_compute. reflexivity. }
  rewrite Hin in Hcs. rewrite Hpix, Hin in Hps.
  split; [exact Hcs|]. split; [vm_compute; reflexivity|]. split; [vm_compute; reflexivity|].
  split; [exact Hps|]. split; vm_compute; reflexivity.
Defined.

(** C8, counterexample to the claim as stated.  The result for the voxel at
    the origin has NaN in its first component only; what is stored is not
    the zero vector: the NaN became 0 and the other three components kept
    their values. *)
Lemma C8_counterexample_only_nan_component_zeroed :
  blendedScatteringAndExtinction Camera cameraFar cameraPosition linearToDevice
    worldPosition Light LightShadow lightColor lightDirection cascades unshadowedCSM
    luminance pi unusedPow (data 4) noScattering brokenEmissive dark darkSample darkSample
    false origin = mkFloat4 S754_nan f1 (of_Z 2) (of_Z 3)
  /\ CS_LightScattering Camera cameraFar cameraPosition linearToDevice worldPosition Light
       LightShadow lightColor lightDirection cascades unshadowedCSM luminance pi unusedPow
       (data 4) noScattering brokenEmissive dark darkSample darkSample false origin =
     [(origin, mkFloat4 f0 f1 (of_Z 2) (of_Z 3))]
  /\ mkFloat4 f0 f1 (of_Z 2) (of_Z 3) <> splat4 f0.
Proof.
  split; [vm_compute; reflexivity|]. split; [vm_compute; reflexivity|].
  vm_compute. discriminate.
Qed.

(** [exp2] where the scene needs it: its fog has no height falloff, so the
    exponent is a zero. *)
Definition exp2OfLevelFog (x : float) : float :=
  match x with S754_zero _ => f1 | _ => S754_nan end.

(** In the scene the thread (0,0,0) passes both tests and both passes store
    for it. *)
Lemma Initialize_and_LightScattering_store_for_the_same_voxels_witness :
  insideGridSigned Camera Light LightShadow (data 4) origin =
    insideGrid Camera Light LightShadow (data 4) origin
  /\ (fst (CS_Initialize Camera cameraFar linearToDevice worldPosition Light LightShadow
             luminance exp2OfLevelFog (data 4) origin) = [] <->
      CS_LightScattering Camera cameraFar cameraPosition linearToDevice worldPosition Light
        LightShadow lightColor lightDirection cascades unshadowedCSM luminance pi unusedPow
        (data 4) noScattering brokenEmissive dark darkSample darkSample false origin = []).
Proof.
  apply (Initialize_and_LightScattering_store_for_the_same_voxels Camera cameraFar
           cameraPosition linearToDevice worldPosition Light LightShadow lightColor
           lightDirection cascades unshadowedCSM luminance pi unusedPow exp2OfLevelFog
           (data 4) noScattering brokenEmissive dark darkSample darkSample false origin);
    cbn; lia.
Defined.

End VolumetricFog.

(* ===================================================================== *)
(** * .NET values shared by the build tool and the editor                 *)
(* ===================================================================== *)

Module DotNet.

(** How a call ends: it returns, or an exception leaves it. *)
Inductive Outcome (E A : Type) : Type :=
  | Returned (a : A)
  | Thrown (e : E).
Arguments Returned {E A} a.
Arguments Thrown {E A} e.

(** [string.IsNullOrEmpty]; [None] is the null reference. *)
Definition IsNullOrEmpty (s : option string) : bool :=
  match s with
  | None => true
  | Some s => bool_decide (s = EmptyString)
  end.

(** [Dictionary<K, V>] that is only added to: its entries in the order of
    insertion, no key twice. *)
Module Dictionary.
Section Dictionary.
Context {K V : Type} `{EqDecision K}.

Definition TryGetValue (d : list (K * V)) (k : K) : option V :=
  snd <$> List.find (fun e => bool_decide (fst e = k)) d.

(** [Add]: [None] stands for the ArgumentException on a key that is
    already there. *)
Definition Add (d : list (K * V)) (k : K) (v : V) : option (list (K * V)) :=
  match TryGetValue d k with
  | Some _ => None
  | None => Some (d ++ [(k, v)])
  end.

(** [d[k] = v]: replaces the value of a key that is there, adds otherwise. *)
Fixpoint set_Item (d : list (K * V)) (k : K) (v : V) : list (K * V) :=
  match d with
  | [] => [(k, v)]
  | e :: d' => if bool_decide (fst e = k) then (k, v) :: d' else e :: set_Item d' k v
  end.

Definition Count (d : list (K * V)) : Z := Z.of_nat (length d).

End Dictionary.
End Dictionary.

(** [System.Version]: a component that was not given is -1. *)
Record Version := mkVersion { Major : Z; Minor : Z; Build : Z; Revision : Z }.

Definition Version2 (major minor : Z) : Version := mkVersion major minor (-1) (-1).

(** [operator ==] on two versions that are not null. *)
Definition Version_eqb (a b : Version) : bool :=
  (Major a =? Major b) && (Minor a =? Minor b) && (Build a =? Build b)
  && (Revision a =? Revision b).

(** [HashSet<string>.Add] on a set that is only added to, kept in the order
    of insertion. *)
Definition HashSet_Add (set : list string) (s : string) : list string :=
  if bool_decide (s ∈ set) then set else set ++ [s].

End DotNet.

(** Facts about the dictionary operations. *)
Module DictionaryFacts.
Import DotNet.
Section DictionaryFacts.
Context {K V : Type} `{EqDecision K}.

Lemma TryGetValue_Some_elem_of (d : list (K * V)) (k : K) (v : V) :
  Dictionary.TryGetValue d k = Some v -> (k, v) ∈ d.
Proof.
  unfold Dictionary.TryGetValue. induction d as [|[k' v'] d IH]; cbn; [discriminate|].
  destruct (bool_decide_reflect (k' = k)) as [->|Hne]; cbn.
  - intros [= ->]. apply list_elem_of_here.
  - intros Hfind. apply list_elem_of_further, IH, Hfind.
Qed.

Lemma TryGetValue_None_not_key (d : list (K * V)) (k : K) :
  Dictionary.TryGetValue d k = None <-> k ∉ d.*1.
Proof.
  unfold Dictionary.TryGetValue. induction d as [|[k' v'] d IH]; cbn.
  - split; [intros _ Hin; inversion Hin|reflexivity].
  - destruct (bool_decide_reflect (k' = k)) as [->|Hne]; cbn.
    + split; [discriminate|]. intros Hnot. exfalso. apply Hnot, list_elem_of_here.
    + rewrite IH. split.
      * intros Hnot Hin. apply elem_of_cons in Hin as [->|Hin]; [congruence|auto].
      * intros Hnot Hin. apply Hnot, list_elem_of_further, Hin.
Qed.

Lemma elem_of_TryGetValue (d : list (K * V)) (k : K) (v : V) :
  NoDup d.*1 -> (k, v) ∈ d -> Dictionary.TryGetValue d k = Some v.
Proof.
  unfold Dictionary.TryGetValue. induction d as [|[k' v'] d IH]; cbn; intros Hnd Hin.
  - inversion Hin.
  - apply NoDup_cons in Hnd as [Hfresh Hnd].
    destruct (bool_decide_reflect (k' = k)) as [->|Hne]; cbn.
    + apply elem_of_cons in Hin as [[= ->]|Hin]; [reflexivity|].
      exfalso. apply Hfresh. apply (list_elem_of_fmap_2 fst _ _ Hin).
    + apply elem_of_cons in Hin as [[= -> ->]|Hin]; [congruence|]. apply IH; assumption.
Qed.

Lemma set_Item_keys (d : list (K * V)) (k : K) (v : V) :
  (Dictionary.set_Item d k v).*1 = if decide (k ∈ d.*1) then d.*1 else d.*1 ++ [k].
Proof.
  induction d as [|[k' v'] d IH]; cbn.
  - destruct (decide (k ∈ [])) as [Hin|_]; [inversion Hin|reflexivity].
  - destruct (bool_decide_reflect (k' = k)) as [->|Hne]; cbn.
    + rewrite decide_True by apply list_elem_of_here. reflexivity.
    + rewrite IH. destruct (decide (k ∈ d.*1)) as [Hin|Hnot].
      * rewrite decide_True by (apply list_elem_of_further, Hin). reflexivity.
      * rewrite decide_False; [reflexivity|].
        intros Hin. apply elem_of_cons in Hin as [->|Hin]; [congruence|auto].
Qed.

Lemma set_Item_NoDup (d : list (K * V)) (k : K) (v : V) :
  NoDup d.*1 -> NoDup (Dictionary.set_Item d k v).*1.
Proof.
  intros Hnd. rewrite set_Item_keys. destruct (decide (k ∈ d.*1)); [exact Hnd|].
  apply NoDup_app. split; [exact Hnd|]. split.
  - intros x Hx Hk. apply list_elem_of_singleton in Hk. congruence.
  - apply NoDup_singleton.
Qed.

Lemma set_Item_Forall (P : K * V -> Prop) (d : list (K * V)) (k : K) (v : V) :
  Forall P d -> P (k, v) -> Forall P (Dictionary.set_Item d k v).
Proof.
  intros Hall Hkv. induction Hall as [|[k' v'] d Hhead Hall IH]; cbn.
  - constructor; [exact Hkv|constructor].
  - destruct (bool_decide (k' = k)); constructor; assumption.
Qed.

End DictionaryFacts.
End DictionaryFacts.

(* ===================================================================== *)
(** * Flax.Build: WindowsPlatformBase                                     *)
(* ===================================================================== *)

Module WindowsPlatformBase.
Import DotNet DictionaryFacts.

Inductive WindowsPlatformToolset := Default | Latest | v140 | v141 | v142.

Inductive WindowsPlatformSDK :=
  | SDK_Latest
  | v8_1
  | v10_0_10240_0
  | v10_0_10586_0
  | v10_0_14393_0
  | v10_0_15063_0
  | v10_0_16299_0
  | v10_0_17134_0
  | v10_0_17763_0
  | v10_0_18362_0
  | v10_0_19041_0.

#[global] Instance WindowsPlatformToolset_eq_dec : EqDecision WindowsPlatformToolset.
Proof. solve_decision. Defined.

#[global] Instance WindowsPlatformSDK_eq_dec : EqDecision WindowsPlatformSDK.
Proof. solve_decision. Defined.

(** A value of the registry: a string, or data of another kind (which
    [as string] turns into null). *)
Inductive RegistryValue := RegistryString (s : string) | RegistryOther.

Inductive VisualStudioVersion :=
  | VisualStudio2015 | VisualStudio2017 | VisualStudio2019 | VisualStudioOther.

#[global] Instance VisualStudioVersion_eq_dec : EqDecision VisualStudioVersion.
Proof. solve_decision. Defined.

Record VisualStudioInstance := mkVisualStudioInstance {
  VS_Version : VisualStudioVersion;
  VS_Path : string
}.

(** What [Log.Warning] and [Log.Verbose] are called with. *)
Inductive Message :=
  | UnknownWindows10SDK (version : Version) (sdk10 : string)
  | FoundWindowsSDK (key : WindowsPlatformSDK) (value : string)
  | FoundWindowsToolset (key : WindowsPlatformToolset) (value : string).

Inductive LogEntry := Warning (m : Message) | Verbose (m : Message).

Inductive Exception :=
  | ArgumentException                   (* Dictionary.Add: the key is already there *)
  | ArgumentOutOfRangeException (paramName : string).

(** The static fields of the class, the log, and the registry values asked
    for so far (key name and value name, oldest first). *)
Record Statics := mkStatics {
  _toolsets : option (list (WindowsPlatformToolset * string));
  _sdks : option (list (WindowsPlatformSDK * string));
  logged : list LogEntry;
  registryReads : list (string * string)
}.

Definition M (A : Type) : Type := Statics -> Outcome Exception A * Statics.

Definition ret {A} (a : A) : M A := fun st => (Returned a, st).
Definition throw {A} (e : Exception) : M A := fun st => (Thrown e, st).
Definition bind {A B} (m : M A) (k : A -> M B) : M B :=
  fun st =>
    match m st with
    | (Returned a, st') => k a st'
    | (Thrown e, st') => (Thrown e, st')
    end.

Notation "'do' x <- m ; k" := (bind m (fun x => k))
  (at level 10, x name, m at level 100, k at level 200).
Notation "'run' m ; k" := (bind m (fun _ => k))
  (at level 10, m at level 100, k at level 200).

Definition when (b : bool) (m : M unit) : M unit := if b then m else ret tt.

(** [foreach (var x in l) body(x)] *)
Fixpoint foreach {A} (l : list A) (body : A -> M unit) : M unit :=
  match l with
  | [] => ret tt
  | x :: l' => run body x; foreach l' body
  end.

Definition Log (e : LogEntry) : M unit :=
  fun st => (Returned tt,
             mkStatics (_toolsets st) (_sdks st) (logged st ++ [e]) (registryReads st)).

Definition get_sdks : M (option (list (WindowsPlatformSDK * string))) :=
  fun st => (Returned (_sdks st), st).
Definition set_sdks (d : list (WindowsPlatformSDK * string)) : M unit :=
  fun st => (Returned tt, mkStatics (_toolsets st) (Some d) (logged st) (registryReads st)).
Definition get_toolsets : M (option (list (WindowsPlatformToolset * string))) :=
  fun st => (Returned (_toolsets st), st).
Definition set_toolsets (d : list (WindowsPlatformToolset * string)) : M unit :=
  fun st => (Returned tt, mkStatics (Some d) (_sdks st) (logged st) (registryReads st)).

Section Host.

(** ** The machine the build tool runs on

    The registry, the file system and the .NET library functions that are
    not part of the repository. *)
Variable Registry_GetValue : string -> string -> option RegistryValue.
Variable File_Exists : string -> bool.
Variable Directory_Exists : string -> bool.
Variable Directory_GetDirectories : string -> list string.
Variable Path_Combine : string -> string -> string.
Variable Path_GetFileName : string -> string.
Variable Version_TryParse : string -> option Version.
Variable VisualStudioInstance_GetInstances : list VisualStudioInstance.

Definition Path_Combine3 (a b c : string) : string := Path_Combine (Path_Combine a b) c.
Definition Path_Combine4 (a b c d : string) : string :=
  Path_Combine (Path_Combine (Path_Combine a b) c) d.
Definition Path_Combine5 (a b c d e : string) : string :=
  Path_Combine (Path_Combine (Path_Combine (Path_Combine a b) c) d) e.

(** [Registry.GetValue(keyName, valueName, null) as string] *)
Definition Registry_GetValue_as_string (keyName valueName : string) : M (option string) :=
  fun st =>
    (Returned match Registry_GetValue keyName valueName with
              | Some (RegistryString s) => Some s
              | _ => None
              end,
     mkStatics (_toolsets st) (_sdks st) (logged st)
               (registryReads st ++ [(keyName, valueName)])).

(** [TryReadDirRegistryKey]: the returned flag and the [out] value. *)
Definition TryReadDirRegistryKey (keyName valueName : string) : M (bool * option string) :=
  do value <- Registry_GetValue_as_string keyName valueName;
  if IsNullOrEmpty value then ret (false, None) else ret (true, value).

Definition TryReadInstallDirRegistryKey32 (keySuffix valueName : string)
  : M (bool * option string) :=
  do r <- TryReadDirRegistryKey ("HKEY_CURRENT_USER\SOFTWARE\" +:+ keySuffix) valueName;
  if fst r then ret (true, snd r) else
  do r <- TryReadDirRegistryKey ("HKEY_LOCAL_MACHINE\SOFTWARE\" +:+ keySuffix) valueName;
  if fst r then ret (true, snd r) else
  do r <- TryReadDirRegistryKey ("HKEY_CURRENT_USER\SOFTWARE\Wow6432Node\" +:+ keySuffix) valueName;
  if fst r then ret (true, snd r) else
  do r <- TryReadDirRegistryKey ("HKEY_LOCAL_MACHINE\SOFTWARE\Wow6432Node\" +:+ keySuffix) valueName;
  if fst r then ret (true, snd r) else
  ret (false, snd r).

(** [_toolsets[key] = value] *)
Definition toolsets_set_Item (key : WindowsPlatformToolset) (value : string) : M unit :=
  do d <- get_toolsets;
  set_toolsets (Dictionary.set_Item (default [] d) key value).

(** [_sdks.Add(key, value)] *)
Definition sdks_Add (key : WindowsPlatformSDK) (value : string) : M unit :=
  do d <- get_sdks;
  match Dictionary.Add (default [] d) key value with
  | Some d' => set_sdks d'
  | None => throw ArgumentException
  end.

Definition FindMsvcToolsets (rootDir : string) : M unit :=
  if negb (Directory_Exists rootDir) then ret tt else
  let toolsets := Directory_GetDirectories rootDir in
  foreach toolsets (fun toolset =>
    match Version_TryParse (Path_GetFileName toolset) with
    | Some version =>
        if File_Exists (Path_Combine5 toolset "bin" "Hostx64" "x64" "cl.exe")
           || File_Exists (Path_Combine5 toolset "bin" "Hostx86" "x64" "cl.exe")
        then
          if (Major version =? 14) && (Z.quot (Minor version) 10 =? 1)
          then toolsets_set_Item v141 toolset
          else if (Major version =? 14) && (Z.quot (Minor version) 10 =? 2)
          then toolsets_set_Item v142 toolset
          else ret tt
        else ret tt
    | None => ret tt
    end).

Definition GetToolsets : M (list (WindowsPlatformToolset * string)) :=
  do cached <- get_toolsets;
  match cached with
  | Some d => ret d
  | None =>
      let vsInstances := VisualStudioInstance_GetInstances in
      run set_toolsets [];
      run (match List.find (fun x => bool_decide (VS_Version x = VisualStudio2015)) vsInstances with
           | Some vs2015 =>
               let rootDir := Path_Combine (VS_Path vs2015) "VC" in
               when (Directory_Exists rootDir
                     && (File_Exists (Path_Combine4 rootDir "bin" "amd64" "cl.exe")
                         || File_Exists (Path_Combine4 rootDir "bin" "x86_amd64" "cl.exe")))
                    (toolsets_set_Item v140 rootDir)
           | None => ret tt
           end);
      run foreach (filter (fun x => VS_Version x = VisualStudio2017) vsInstances)
            (fun vs2017 => FindMsvcToolsets (Path_Combine4 (VS_Path vs2017) "VC" "Tools" "MSVC"));
      run foreach (filter (fun x => VS_Version x = VisualStudio2019) vsInstances)
            (fun vs2019 => FindMsvcToolsets (Path_Combine4 (VS_Path vs2019) "VC" "Tools" "MSVC"));
      do d <- get_toolsets;
      run foreach (default [] d) (fun e => Log (Verbose (FoundWindowsToolset (fst e) (snd e))));
      do d <- get_toolsets;
      ret (default [] d)
  end.

Definition GetSDKVersion (sdk : WindowsPlatformSDK) : M Version :=
  match sdk with
  | v8_1 => ret (Version2 8 1)
  | v10_0_10240_0 => ret (mkVersion 10 0 10240 0)
  | v10_0_10586_0 => ret (mkVersion 10 0 10586 0)
  | v10_0_14393_0 => ret (mkVersion 10 0 14393 0)
  | v10_0_15063_0 => ret (mkVersion 10 0 15063 0)
  | v10_0_16299_0 => ret (mkVersion 10 0 16299 0)
  | v10_0_17134_0 => ret (mkVersion 10 0 17134 0)
  | v10_0_17763_0 => ret (mkVersion 10 0 17763 0)
  | v10_0_18362_0 => ret (mkVersion 10 0 18362 0)
  | v10_0_19041_0 => ret (mkVersion 10 0 19041 0)
  | SDK_Latest => throw (ArgumentOutOfRangeException "sdk")
  end.

(** [version == GetSDKVersion(sdk)] *)
Definition versionIs (version : Version) (sdk : WindowsPlatformSDK) : M bool :=
  do v <- GetSDKVersion sdk;
  ret (Version_eqb version v).

(** The body of the inner [foreach] of [GetSDKs]: one directory below
    [sdk10]\Include. *)
Definition GetSDKs_includeDir (sdk10 includeDir : string) : M unit :=
  match Version_TryParse (Path_GetFileName includeDir) with
  | Some version =>
      if File_Exists (Path_Combine3 includeDir "um" "windows.h") then
        do b <- versionIs version v10_0_10240_0;
        if b then sdks_Add v10_0_10240_0 sdk10 else
        do b <- versionIs version v10_0_10586_0;
        if b then sdks_Add v10_0_10586_0 sdk10 else
        do b <- versionIs version v10_0_14393_0;
        if b then sdks_Add v10_0_14393_0 sdk10 else
        do b <- versionIs version v10_0_15063_0;
        if b then sdks_Add v10_0_15063_0 sdk10 else
        do b <- versionIs version v10_0_16299_0;
        if b then sdks_Add v10_0_16299_0 sdk10 else
        do b <- versionIs version v10_0_17134_0;
        if b then sdks_Add v10_0_17134_0 sdk10 else
        do b <- versionIs version v10_0_17763_0;
        if b then sdks_Add v10_0_17763_0 sdk10 else
        do b <- versionIs version v10_0_18362_0;
        if b then sdks_Add v10_0_18362_0 sdk10 else
        do b <- versionIs version v10_0_19041_0;
        if b then sdks_Add v10_0_19041_0 sdk10 else
        Log (Warning (UnknownWindows10SDK version sdk10))
      else ret tt
  | None => ret tt
  end.

(** The body of the outer [foreach] of [GetSDKs]: one Windows 10 SDK root. *)
Definition GetSDKs_root (sdk10 : string) : M unit :=
  let includeRootDir := Path_Combine sdk10 "Include" in
  when (Directory_Exists includeRootDir)
       (foreach (Directory_GetDirectories includeRootDir) (GetSDKs_includeDir sdk10)).

Definition GetSDKs : M (list (WindowsPlatformSDK * string)) :=
  do cached <- get_sdks;
  match cached with
  | Some d => ret d
  | None =>
      run set_sdks [];
      (* Check Windows 8.1 SDK *)
      do r <- TryReadInstallDirRegistryKey32 "Microsoft\Microsoft SDKs\Windows\v8.1"
                "InstallationFolder";
      run (match r with
           | (true, Some sdk81) =>
               when (File_Exists (Path_Combine4 sdk81 "Include" "um" "windows.h"))
                    (sdks_Add v8_1 sdk81)
           | _ => ret tt
           end);
      (* Check Windows 10 SDKs *)
      let sdk10Roots : list string := [] in
      do r <- TryReadInstallDirRegistryKey32 "Microsoft\Windows Kits\Installed Roots"
                "KitsRoot10";
      let sdk10Roots :=
        match r with
        | (true, Some rootDir) => HashSet_Add sdk10Roots rootDir
        | _ => sdk10Roots
        end in
      do r <- TryReadInstallDirRegistryKey32 "Microsoft\Microsoft SDKs\Windows\v10.0"
                "InstallationFolder";
      let sdk10Roots :=
        match r with
        | (true, Some rootDir) => HashSet_Add sdk10Roots rootDir
        | _ => sdk10Roots
        end in
      run foreach sdk10Roots GetSDKs_root;
      do d <- get_sdks;
      run foreach (default [] d) (fun e => Log (Verbose (FoundWindowsSDK (fst e) (snd e))));
      do d <- get_sdks;
      ret (default [] d)
  end.

(** The constructor of [WindowsPlatformBase]: the value it gives the field
    [_hasRequiredSDKsInstalled]. *)
Definition WindowsPlatformBase_ctor : M bool :=
  do sdsk <- GetSDKs;
  do toolsets <- GetToolsets;
  ret ((0 <? Dictionary.Count sdsk) && (0 <? Dictionary.Count toolsets)).

(** ** GetVCToolPath32 and GetVCToolPath64 *)

(** [Path.GetDirectoryName]; it gives null for a root. *)
Variable Path_GetDirectoryName : string -> option string.

(** What can leave the two functions: the indexer [toolsets[toolset]] on a
    key that is not there, the two [Exception]s with their messages'
    arguments, the [default] label, and whatever leaves GetToolsets. *)
Inductive ToolPathException :=
  | KeyNotFoundException (toolset : WindowsPlatformToolset)
  | No32BitCompiler (compilerPath : string)
  | No64BitCompiler (nativeCompilerPath crossCompilerPath : string)
  | ToolsetOutOfRange (toolset : WindowsPlatformToolset)
  | FromGetToolsets (e : Exception).

(** [toolsets[toolset]] *)
Definition toolsets_get_Item (toolsets : list (WindowsPlatformToolset * string))
    (toolset : WindowsPlatformToolset) : Outcome ToolPathException string :=
  match Dictionary.TryGetValue toolsets toolset with
  | Some value => Returned value
  | None => Thrown (KeyNotFoundException toolset)
  end.

Definition GetVCToolPath32 (toolset : WindowsPlatformToolset) (st : Statics)
  : Outcome ToolPathException (option string) * Statics :=
  match GetToolsets st with
  | (Thrown e, st) => (Thrown (FromGetToolsets e), st)
  | (Returned toolsets, st) =>
      match toolsets_get_Item toolsets toolset with
      | Thrown e => (Thrown e, st)
      | Returned vcToolChainDir =>
          match toolset with
          | v140 =>
              let compilerPath := Path_Combine3 vcToolChainDir "bin" "cl.exe" in
              if File_Exists compilerPath
              then (Returned (Path_GetDirectoryName compilerPath), st)
              else (Thrown (No32BitCompiler compilerPath), st)
          | v141 | v142 =>
              let nativeCompilerPath :=
                Path_Combine5 vcToolChainDir "bin" "HostX86" "x86" "cl.exe" in
              if File_Exists nativeCompilerPath
              then (Returned (Path_GetDirectoryName nativeCompilerPath), st)
              else (Thrown (No32BitCompiler nativeCompilerPath), st)
          | Default | Latest => (Thrown (ToolsetOutOfRange toolset), st)
          end
      end
  end.

Definition GetVCToolPath64 (toolset : WindowsPlatformToolset) (st : Statics)
  : Outcome ToolPathException (option string) * Statics :=
  match GetToolsets st with
  | (Thrown e, st) => (Thrown (FromGetToolsets e), st)
  | (Returned toolsets, st) =>
      match toolsets_get_Item toolsets toolset with
      | Thrown e => (Thrown e, st)
      | Returned vcToolChainDir =>
          match toolset with
          | v140 =>
              let nativeCompilerPath :=
                Path_Combine4 vcToolChainDir "bin" "amd64" "cl.exe" in
              if File_Exists nativeCompilerPath
              then (Returned (Path_GetDirectoryName nativeCompilerPath), st)
              else
                let crossCompilerPath :=
                  Path_Combine4 vcToolChainDir "bin" "x86_amd64" "cl.exe" in
                if File_Exists crossCompilerPath
                then (Returned (Path_GetDirectoryName crossCompilerPath), st)
                else (Thrown (No64BitCompiler nativeCompilerPath crossCompilerPath), st)
          | v141 | v142 =>
              let nativeCompilerPath :=
                Path_Combine5 vcToolChainDir "bin" "HostX64" "x64" "cl.exe" in
              if File_Exists nativeCompilerPath
              then (Returned (Path_GetDirectoryName nativeCompilerPath), st)
              else
                let crossCompilerPath :=
                  Path_Combine5 vcToolChainDir "bin" "HostX86" "x64" "cl.exe" in
                if File_Exists crossCompilerPath
                then (Returned (Path_GetDirectoryName crossCompilerPath), st)
                else (Thrown (No64BitCompiler nativeCompilerPath crossCompilerPath), st)
          | Default | Latest => (Thrown (ToolsetOutOfRange toolset), st)
          end
      end
  end.

(** ** The registry probing as the specification words it *)

(** The four keys asked for a key suffix, in the order of asking. *)
Definition installDirLocations (keySuffix : string) : list string :=
  [ "HKEY_CURRENT_USER\SOFTWARE\" +:+ keySuffix;
    "HKEY_LOCAL_MACHINE\SOFTWARE\" +:+ keySuffix;
    "HKEY_CURRENT_USER\SOFTWARE\Wow6432Node\" +:+ keySuffix;
    "HKEY_LOCAL_MACHINE\SOFTWARE\Wow6432Node\" +:+ keySuffix ].

(** The non-empty string that the key holds under [valueName], if it holds
    one. *)
Definition nonEmptyStringAt (valueName keyName : string) : option string :=
  match Registry_GetValue keyName valueName with
  | Some (RegistryString s) => if bool_decide (s = EmptyString) then None else Some s
  | _ => None
  end.

(** The value of the first key of the list that holds a non-empty string. *)
Fixpoint firstNonEmpty (valueName : string) (keys : list string) : option string :=
  match keys with
  | [] => None
  | k :: keys' =>
      match nonEmptyStringAt valueName k with
      | Some s => Some s
      | None => firstNonEmpty valueName keys'
      end
  end.

(** The keys of the list up to and including the first one that holds a
    non-empty string. *)
Fixpoint askedKeys (valueName : string) (keys : list string) : list string :=
  match keys with
  | [] => []
  | k :: keys' =>
      k :: match nonEmptyStringAt valueName k with
           | Some _ => []
           | None => askedKeys valueName keys'
           end
  end.

Definition withReads (st : Statics) (reads : list (string * string)) : Statics :=
  mkStatics (_toolsets st) (_sdks st) (logged st) (registryReads st ++ reads).

(** ** The SDK table as the specification words it *)

Definition windows10SDKs : list (WindowsPlatformSDK * Version) :=
  [ (v10_0_10240_0, mkVersion 10 0 10240 0);
    (v10_0_10586_0, mkVersion 10 0 10586 0);
    (v10_0_14393_0, mkVersion 10 0 14393 0);
    (v10_0_15063_0, mkVersion 10 0 15063 0);
    (v10_0_16299_0, mkVersion 10 0 16299 0);
    (v10_0_17134_0, mkVersion 10 0 17134 0);
    (v10_0_17763_0, mkVersion 10 0 17763 0);
    (v10_0_18362_0, mkVersion 10 0 18362 0);
    (v10_0_19041_0, mkVersion 10 0 19041 0) ].

(** The Windows 10 SDK whose version is exactly [version]. *)
Definition knownWindows10SDK (version : Version) : option WindowsPlatformSDK :=
  fst <$> List.find (fun e => Version_eqb version (snd e)) windows10SDKs.

Definition withLog (st : Statics) (entries : list LogEntry) : Statics :=
  mkStatics (_toolsets st) (_sdks st) (logged st ++ entries) (registryReads st).

(** What an entry of [_sdks] rests on: for Windows 8.1 the installation
    folder found in the registry with Include\um\windows.h in it, for a
    Windows 10 SDK a directory below the root's Include directory whose
    name parses as the version of that SDK and that holds um\windows.h. *)
Definition entitled (e : WindowsPlatformSDK * string) : Prop :=
  match fst e with
  | v8_1 =>
      firstNonEmpty "InstallationFolder"
        (installDirLocations "Microsoft\Microsoft SDKs\Windows\v8.1") = Some (snd e)
      /\ File_Exists (Path_Combine4 (snd e) "Include" "um" "windows.h") = true
  | sdk =>
      exists includeDir version,
        Directory_Exists (Path_Combine (snd e) "Include") = true
        /\ includeDir ∈ Directory_GetDirectories (Path_Combine (snd e) "Include")
        /\ Version_TryParse (Path_GetFileName includeDir) = Some version
        /\ (sdk, version) ∈ windows10SDKs
        /\ File_Exists (Path_Combine3 includeDir "um" "windows.h") = true
  end.

(** [_sdks] is set and every entry of it is entitled. *)
Definition sdksEntitled (st : Statics) : Prop :=
  exists d, _sdks st = Some d /\ Forall entitled d.

(** A computation keeps a property of the state, however it ends. *)
Definition preserves {A} (P : Statics -> Prop) (m : M A) : Prop :=
  forall st, P st -> P (snd (m st)).

(** What a computation returns, when it returns. *)
Definition returns {A} (Q : A -> Prop) (m : M A) : Prop :=
  forall st a, fst (m st) = Returned a -> Q a.

(** ** What an entry of [_toolsets] rests on *)

(** A directory below VC\Tools\MSVC that FindMsvcToolsets takes for the
    toolset 14.1x ([minorTens] 1) or 14.2x ([minorTens] 2). *)
Definition msvcToolset (minorTens : Z) (dir : string) : Prop :=
  exists version,
    Version_TryParse (Path_GetFileName dir) = Some version
    /\ Major version = 14 /\ Z.quot (Minor version) 10 = minorTens
    /\ File_Exists (Path_Combine5 dir "bin" "Hostx64" "x64" "cl.exe")
       || File_Exists (Path_Combine5 dir "bin" "Hostx86" "x64" "cl.exe") = true.

Definition toolsetBacked (e : WindowsPlatformToolset * string) : Prop :=
  match fst e with
  | v140 =>
      Directory_Exists (snd e) = true
      /\ File_Exists (Path_Combine4 (snd e) "bin" "amd64" "cl.exe")
         || File_Exists (Path_Combine4 (snd e) "bin" "x86_amd64" "cl.exe") = true
  | v141 => msvcToolset 1 (snd e)
  | v142 => msvcToolset 2 (snd e)
  | Default | Latest => False
  end.

(** [_toolsets] is set, every entry of it is backed and no key is there
    twice. *)
Definition toolsetsBacked (st : Statics) : Prop :=
  exists d, _toolsets st = Some d /\ Forall toolsetBacked d /\ NoDup d.*1.

(* --------------------------------------------------------------------- *)
(** ** Properties                                                         *)
(* --------------------------------------------------------------------- *)

Lemma withReads_nil st : withReads st [] = st.
Proof. destruct st; unfold withReads; cbn. rewrite app_nil_r. reflexivity. Qed.

Lemma withReads_app st r1 r2 : withReads (withReads st r1) r2 = withReads st (r1 ++ r2).
Proof. unfold withReads; cbn. rewrite <- app_assoc. reflexivity. Qed.

(** One probe: it reads the key once and reports the non-empty string. *)
Lemma TryReadDirRegistryKey_spec (keyName valueName : string) (st : Statics) :
  TryReadDirRegistryKey keyName valueName st =
  (Returned match nonEmptyStringAt valueName keyName with
            | Some s => (true, Some s)
            | None => (false, None)
            end,
   withReads st [(keyName, valueName)]).
Proof.
  unfold TryReadDirRegistryKey, Registry_GetValue_as_string, bind, nonEmptyStringAt,
    withReads, IsNullOrEmpty.
  destruct (Registry_GetValue keyName valueName) as [[s|]|]; cbn; try reflexivity.
  destruct (bool_decide (s = EmptyString)); reflexivity.
Qed.

Lemma TryReadInstallDirRegistryKey32_spec (keySuffix valueName : string) (st : Statics) :
  TryReadInstallDirRegistryKey32 keySuffix valueName st =
  (Returned match firstNonEmpty valueName (installDirLocations keySuffix) with
            | Some s => (true, Some s)
            | None => (false, None)
            end,
   withReads st (map (fun k => (k, valueName))
                     (askedKeys valueName (installDirLocations keySuffix)))).
Proof.
  unfold TryReadInstallDirRegistryKey32, installDirLocations.
  cbn [firstNonEmpty askedKeys map].
  unfold bind at 1. rewrite TryReadDirRegistryKey_spec.
  destruct (nonEmptyStringAt valueName _) as [s1|]; [reflexivity|].
  cbn [fst snd]. unfold bind at 1. rewrite TryReadDirRegistryKey_spec.
  destruct (nonEmptyStringAt valueName _) as [s2|];
    [cbn [fst snd]; unfold ret; rewrite withReads_app; reflexivity|].
  cbn [fst snd]. unfold bind at 1. rewrite TryReadDirRegistryKey_spec.
  destruct (nonEmptyStringAt valueName _) as [s3|];
    [cbn [fst snd]; unfold ret; rewrite !withReads_app; reflexivity|].
  cbn [fst snd]. unfold bind at 1. rewrite TryReadDirRegistryKey_spec.
  destruct (nonEmptyStringAt valueName _) as [s4|];
    cbn [fst snd]; unfold ret; rewrite !withReads_app; reflexivity.
Qed.

Lemma askedKeys_prefix (valueName : string) (keys : list string) :
  askedKeys valueName keys `prefix_of` keys.
Proof.
  induction keys as [|k keys IH]; cbn; [reflexivity|].
  destruct (nonEmptyStringAt valueName k).
  - apply prefix_cons, prefix_nil.
  - apply prefix_cons, IH.
Qed.

Lemma askedKeys_all (valueName : string) (keys : list string) :
  firstNonEmpty valueName keys = None -> askedKeys valueName keys = keys.
Proof.
  induction keys as [|k keys IH]; cbn; [reflexivity|].
  destruct (nonEmptyStringAt valueName k); [discriminate|].
  intros H. rewrite IH by exact H. reflexivity.
Qed.

(** C4.  TryReadInstallDirRegistryKey32 asks for the value under
    HKEY_CURRENT_USER\SOFTWARE, HKEY_LOCAL_MACHINE\SOFTWARE,
    HKEY_CURRENT_USER\SOFTWARE\Wow6432Node and
    HKEY_LOCAL_MACHINE\SOFTWARE\Wow6432Node (each followed by the key
    suffix), in this order and nowhere else, and stops at the first of them
    that holds a non-empty string: it returns true with that string, or,
    after it asked all four in vain, false with a null directory.  It
    changes nothing else and never throws. *)
Theorem C4_install_dir_registry_lookup (keySuffix valueName : string) (st : Statics) :
  let locations :=
    [ "HKEY_CURRENT_USER\SOFTWARE\" +:+ keySuffix;
      "HKEY_LOCAL_MACHINE\SOFTWARE\" +:+ keySuffix;
      "HKEY_CURRENT_USER\SOFTWARE\Wow6432Node\" +:+ keySuffix;
      "HKEY_LOCAL_MACHINE\SOFTWARE\Wow6432Node\" +:+ keySuffix ] in
  let asked := askedKeys valueName locations in
  TryReadInstallDirRegistryKey32 keySuffix valueName st =
    (Returned match firstNonEmpty valueName locations with
              | Some dir => (true, Some dir)
              | None => (false, None)
              end,
     mkStatics (_toolsets st) (_sdks st) (logged st)
               (registryReads st ++ map (fun k => (k, valueName)) asked))
  /\ asked `prefix_of` locations
  /\ (firstNonEmpty valueName locations = None -> asked = locations)
  /\ (forall dir, firstNonEmpty valueName locations = Some dir ->
        exists k, last asked = Some k /\ nonEmptyStringAt valueName k = Some dir
                  /\ Registry_GetValue k valueName = Some (RegistryString dir)
                  /\ dir <> EmptyString
                  /\ forall k', k' ∈ removelast asked -> nonEmptyStringAt valueName k' = None).
Proof.
  intros locations asked.
  split; [exact (TryReadInstallDirRegistryKey32_spec keySuffix valueName st)|].
  split; [apply askedKeys_prefix|].
  split; [apply askedKeys_all|].
  intros dir. subst asked. generalize locations. clear locations.
  induction locations as [|k keys IH]; cbn [firstNonEmpty askedKeys]; [discriminate|].
  destruct (nonEmptyStringAt valueName k) as [s|] eqn:Hk.
  - intros [= ->]. exists k. split; [reflexivity|]. split; [exact Hk|].
    unfold nonEmptyStringAt in Hk.
    destruct (Registry_GetValue k valueName) as [[s|]|]; try discriminate.
    destruct (bool_decide_reflect (s = EmptyString)); [discriminate|].
    injection Hk as ->. split; [reflexivity|]. split; [assumption|].
    cbn. intros k' Hk'. inversion Hk'.
  - intros Hdir. destruct (IH Hdir) as (k0 & Hlast & Hat & Hreg & Hne & Hbefore).
    exists k0.
    assert (Hnonempty : askedKeys valueName keys <> []).
    { intros E. rewrite E in Hlast. discriminate. }
    split.
    { destruct (askedKeys valueName keys) as [|a l] eqn:E; [congruence|].
      rewrite <- Hlast. reflexivity. }
    split; [exact Hat|]. split; [exact Hreg|]. split; [exact Hne|].
    intros k' Hk'.
    destruct (askedKeys valueName keys) as [|a l] eqn:E; [congruence|].
    cbn [removelast] in Hk'. fold (removelast (a :: l)) in Hk'.
    apply elem_of_cons in Hk' as [->|Hk']; [exact Hk|].
    apply Hbefore. exact Hk'.
Qed.

(** *** Keeping a property through the monad *)

Lemma preserves_ret {A} (P : Statics -> Prop) (a : A) : preserves P (ret a).
Proof. intros st H. exact H. Qed.

Lemma preserves_bind {A B} (P : Statics -> Prop) (Q : A -> Prop) (m : M A) (k : A -> M B) :
  preserves P m -> returns Q m -> (forall a, Q a -> preserves P (k a)) ->
  preserves P (bind m k).
Proof.
  intros Hm Hq Hk st H. unfold bind.
  specialize (Hm st H). specialize (Hq st).
  destruct (m st) as [[a|e] st']; cbn in *.
  - apply Hk; [apply Hq; reflexivity|exact Hm].
  - exact Hm.
Qed.

Lemma preserves_seq {A B} (P : Statics -> Prop) (m : M A) (k : A -> M B) :
  preserves P m -> (forall a, preserves P (k a)) -> preserves P (bind m k).
Proof.
  intros Hm Hk. apply (preserves_bind P (fun _ => True)); auto.
  intros st a _. exact I.
Qed.

Lemma preserves_when (P : Statics -> Prop) (b : bool) (m : M unit) :
  (b = true -> preserves P m) -> preserves P (when b m).
Proof. destruct b; intros H; [apply H; reflexivity|apply preserves_ret]. Qed.

Lemma preserves_foreach {A} (P : Statics -> Prop) (l : list A) (body : A -> M unit) :
  (forall x, x ∈ l -> preserves P (body x)) -> preserves P (foreach l body).
Proof.
  induction l as [|x l IH]; intros H; cbn [foreach]; [apply preserves_ret|].
  apply preserves_seq.
  - apply H. apply elem_of_cons. left. reflexivity.
  - intros _. apply IH. intros y Hy. apply H. apply elem_of_cons. right. exact Hy.
Qed.

Lemma preserves_Log (e : LogEntry) : preserves sdksEntitled (Log e).
Proof. intros st H. exact H. Qed.

Lemma preserves_get_sdks : preserves sdksEntitled get_sdks.
Proof. intros st H. exact H. Qed.

Lemma preserves_TryReadInstallDirRegistryKey32 (keySuffix valueName : string) :
  preserves sdksEntitled (TryReadInstallDirRegistryKey32 keySuffix valueName).
Proof. intros st H. rewrite TryReadInstallDirRegistryKey32_spec. exact H. Qed.

Lemma returns_TryReadInstallDirRegistryKey32 (keySuffix valueName : string) :
  returns (fun r => r = match firstNonEmpty valueName (installDirLocations keySuffix) with
                        | Some s => (true, Some s)
                        | None => (false, None)
                        end)
          (TryReadInstallDirRegistryKey32 keySuffix valueName).
Proof.
  intros st a. rewrite TryReadInstallDirRegistryKey32_spec. cbn. intros [= <-]. reflexivity.
Qed.

Lemma preserves_sdks_Add (key : WindowsPlatformSDK) (value : string) :
  entitled (key, value) -> preserves sdksEntitled (sdks_Add key value).
Proof.
  intros He st (d & Hd & Hall). unfold sdks_Add, bind, get_sdks. rewrite Hd.
  change (default [] (Some d)) with d.
  destruct (Dictionary.Add d key value) as [d'|] eqn:Hadd.
  - exists d'. split; [reflexivity|].
    unfold Dictionary.Add in Hadd.
    destruct (Dictionary.TryGetValue d key); [discriminate|]. injection Hadd as <-.
    apply Forall_app. split; [exact Hall|]. constructor; [exact He|constructor].
  - exists d. split; assumption.
Qed.

(** *** The directories below Include *)

Lemma Version_eqb_eq (a b : Version) : Version_eqb a b = true -> a = b.
Proof.
  destruct a, b. unfold Version_eqb. cbn. intros H.
  repeat (apply andb_prop in H; destruct H as [H ?]).
  f_equal; apply Z.eqb_eq; assumption.
Qed.

Lemma knownWindows10SDK_Some (version : Version) (sdk : WindowsPlatformSDK) :
  knownWindows10SDK version = Some sdk -> (sdk, version) ∈ windows10SDKs.
Proof.
  unfold knownWindows10SDK. intros H.
  destruct (List.find _ windows10SDKs) as [[sdk' v]|] eqn:Hf; [|discriminate].
  injection H as <-. apply find_some in Hf as [Hin Heq].
  apply Version_eqb_eq in Heq. cbn in Heq. subst v.
  apply list_elem_of_In. exact Hin.
Qed.

(** One directory below Include: it is registered when its name parses as
    one of the nine versions and um\windows.h is in it, logged when its
    name parses as another version and um\windows.h is in it, and passed
    over otherwise. *)
Lemma GetSDKs_includeDir_spec (sdk10 includeDir : string) (st : Statics) :
  GetSDKs_includeDir sdk10 includeDir st =
  match Version_TryParse (Path_GetFileName includeDir) with
  | Some version =>
      if File_Exists (Path_Combine3 includeDir "um" "windows.h") then
        match knownWindows10SDK version with
        | Some sdk => sdks_Add sdk sdk10 st
        | None => (Returned tt, withLog st [Warning (UnknownWindows10SDK version sdk10)])
        end
      else (Returned tt, st)
  | None => (Returned tt, st)
  end.
Proof.
  unfold GetSDKs_includeDir.
  destruct (Version_TryParse (Path_GetFileName includeDir)) as [version|]; [|reflexivity].
  destruct (File_Exists (Path_Combine3 includeDir "um" "windows.h")); [|reflexivity].
  unfold knownWindows10SDK, windows10SDKs. cbn [List.find snd fst].
  unfold versionIs, GetSDKVersion, bind, ret.
  repeat match goal with
         | |- context [Version_eqb version ?v] =>
             destruct (Version_eqb version v); [reflexivity|]
         end.
  reflexivity.
Qed.

Lemma preserves_GetSDKs_includeDir (sdk10 includeDir : string) :
  Directory_Exists (Path_Combine sdk10 "Include") = true ->
  includeDir ∈ Directory_GetDirectories (Path_Combine sdk10 "Include") ->
  preserves sdksEntitled (GetSDKs_includeDir sdk10 includeDir).
Proof.
  intros Hdir Hin st H. rewrite GetSDKs_includeDir_spec.
  destruct (Version_TryParse (Path_GetFileName includeDir)) as [version|] eqn:Hv; [|exact H].
  destruct (File_Exists (Path_Combine3 includeDir "um" "windows.h")) eqn:Hf; [|exact H].
  destruct (knownWindows10SDK version) as [sdk|] eqn:Hk; [|exact H].
  apply preserves_sdks_Add; [|exact H].
  apply knownWindows10SDK_Some in Hk.
  assert (He : exists includeDir' version',
             Directory_Exists (Path_Combine sdk10 "Include") = true
             /\ includeDir' ∈ Directory_GetDirectories (Path_Combine sdk10 "Include")
             /\ Version_TryParse (Path_GetFileName includeDir') = Some version'
             /\ (sdk, version') ∈ windows10SDKs
             /\ File_Exists (Path_Combine3 includeDir' "um" "windows.h") = true)
    by (exists includeDir, version; auto).
  unfold entitled. cbn [fst snd].
  destruct sdk; try exact He.
  exfalso. clear -Hk. unfold windows10SDKs in Hk.
  repeat (apply elem_of_cons in Hk as [Hk|Hk]; [discriminate|]).
  inversion Hk.
Qed.

Lemma preserves_GetSDKs_root (sdk10 : string) :
  preserves sdksEntitled (GetSDKs_root sdk10).
Proof.
  unfold GetSDKs_root. apply preserves_when. intros Hdir.
  apply preserves_foreach. intros includeDir Hin.
  apply preserves_GetSDKs_includeDir; assumption.
Qed.

(** *** GetSDKs as a whole *)

Lemma GetSDKs_cached (st : Statics) (d : list (WindowsPlatformSDK * string)) :
  _sdks st = Some d -> GetSDKs st = (Returned d, st).
Proof. intros H. unfold GetSDKs, bind, get_sdks. rewrite H. reflexivity. Qed.

Lemma GetSDKs_first_call (st : Statics) :
  _sdks st = None -> sdksEntitled (snd (GetSDKs st)).
Proof.
  intros Hnone. unfold GetSDKs. unfold bind at 1. unfold get_sdks at 1. rewrite Hnone.
  unfold bind at 1. unfold set_sdks at 1.
  match goal with
  | |- sdksEntitled (snd (?m ?s)) =>
      cut (preserves sdksEntitled m);
        [intros Hp; apply Hp; exists []; split; [reflexivity|constructor]|]
  end.
  apply (preserves_bind _ _ _ _
           (preserves_TryReadInstallDirRegistryKey32 _ _)
           (returns_TryReadInstallDirRegistryKey32 _ _)).
  intros r ->.
  apply preserves_seq.
  { destruct (firstNonEmpty _ _) as [sdk81|] eqn:H81; [|apply preserves_ret].
    apply preserves_when. intros Hfile. apply preserves_sdks_Add.
    split; [exact H81|exact Hfile]. }
  intros _.
  apply preserves_seq; [apply preserves_TryReadInstallDirRegistryKey32|intros r1].
  apply preserves_seq; [apply preserves_TryReadInstallDirRegistryKey32|intros r2].
  apply preserves_seq.
  { apply preserves_foreach. intros sdk10 _. apply preserves_GetSDKs_root. }
  intros _.
  apply preserves_seq; [apply preserves_get_sdks|intros d].
  apply preserves_seq.
  { apply preserves_foreach. intros e _. apply preserves_Log. }
  intros _.
  apply preserves_seq; [apply preserves_get_sdks|intros d'; apply preserves_ret].
Qed.

(** A computation that, when it returns, returns what [_sdks] holds. *)
Definition returnsCache (m : M (list (WindowsPlatformSDK * string))) : Prop :=
  forall st d st', m st = (Returned d, st') -> is_Some (_sdks st') -> _sdks st' = Some d.

Lemma returnsCache_bind {A} (m : M A) (k : A -> M (list (WindowsPlatformSDK * string))) :
  (forall a, returnsCache (k a)) -> returnsCache (bind m k).
Proof.
  intros Hk st d st'. unfold bind. destruct (m st) as [[a|e] st1]; [apply Hk|discriminate].
Qed.

Lemma returnsCache_tail :
  returnsCache (do d <- get_sdks; ret (default [] d)).
Proof.
  intros st d st'. unfold bind, get_sdks, ret. intros [= <- <-] [d0 Hd0].
  rewrite Hd0. reflexivity.
Qed.

Lemma GetSDKs_returned (st st' : Statics) (d : list (WindowsPlatformSDK * string)) :
  GetSDKs st = (Returned d, st') -> _sdks st' = Some d.
Proof.
  destruct (_sdks st) as [d0|] eqn:Hst.
  - rewrite (GetSDKs_cached st d0 Hst). intros [= <- <-]. exact Hst.
  - intros Hrun.
    assert (Hsome : is_Some (_sdks st')).
    { pose proof (GetSDKs_first_call st Hst) as (d1 & Hd1 & _).
      rewrite Hrun in Hd1. cbn in Hd1. rewrite Hd1. eexists; reflexivity. }
    unfold GetSDKs in Hrun. unfold bind at 1 in Hrun. unfold get_sdks at 1 in Hrun.
    rewrite Hst in Hrun. unfold bind at 1 in Hrun. unfold set_sdks at 1 in Hrun.
    match type of Hrun with
    | ?m ?s = _ => assert (Hrc : returnsCache m)
    end.
    { do 7 (apply returnsCache_bind; intro). apply returnsCache_tail. }
    exact (Hrc _ _ _ Hrun Hsome).
Qed.

Lemma knownWindows10SDK_None (version : Version) :
  (forall sdk, (sdk, version) ∉ windows10SDKs) -> knownWindows10SDK version = None.
Proof.
  intros H. destruct (knownWindows10SDK version) as [sdk|] eqn:Hk; [|reflexivity].
  exfalso. exact (H sdk (knownWindows10SDK_Some version sdk Hk)).
Qed.

(** C5 (as amended).  On its first call (while [_sdks] is null) GetSDKs
    fills the dictionary so that: Windows 8.1 is registered only with the
    installation folder found in the registry and only when that folder
    contains Include\um\windows.h; a Windows 10 SDK is registered only for a
    directory below the root's Include directory whose name parses as a
    Version equal (in all four components) to the version of that SDK, one
    of the nine enumerated versions 10.0.10240.0 through 10.0.19041.0, and
    that contains um\windows.h.  A directory whose name parses as any other
    version is never added; when it contains um\windows.h the only effect
    is one warning in the log, and when it does not it is passed over in
    silence.  Every later call returns the cached dictionary and does
    nothing else. *)
Theorem C5_GetSDKs_registers_only_verified_sdks (st : Statics) :
  _sdks st = None ->
  exists d,
    _sdks (snd (GetSDKs st)) = Some d
    /\ (forall d', fst (GetSDKs st) = Returned d' -> d' = d)
    /\ (forall root, (v8_1, root) ∈ d ->
          firstNonEmpty "InstallationFolder"
            (installDirLocations "Microsoft\Microsoft SDKs\Windows\v8.1") = Some root
          /\ File_Exists (Path_Combine4 root "Include" "um" "windows.h") = true)
    /\ (forall sdk root, (sdk, root) ∈ d -> sdk <> v8_1 ->
          exists includeDir version,
            Directory_Exists (Path_Combine root "Include") = true
            /\ includeDir ∈ Directory_GetDirectories (Path_Combine root "Include")
            /\ Version_TryParse (Path_GetFileName includeDir) = Some version
            /\ (sdk, version) ∈ windows10SDKs
            /\ File_Exists (Path_Combine3 includeDir "um" "windows.h") = true)
    /\ (length windows10SDKs = 9%nat /\ NoDup (snd <$> windows10SDKs))
    /\ (forall sdk10 includeDir version st0,
          Version_TryParse (Path_GetFileName includeDir) = Some version ->
          (forall sdk, (sdk, version) ∉ windows10SDKs) ->
          GetSDKs_includeDir sdk10 includeDir st0 =
            (Returned tt,
             if File_Exists (Path_Combine3 includeDir "um" "windows.h")
             then mkStatics (_toolsets st0) (_sdks st0)
                    (logged st0 ++ [Warning (UnknownWindows10SDK version sdk10)])
                    (registryReads st0)
             else st0))
    /\ (forall later, _sdks later = Some d -> GetSDKs later = (Returned d, later)).
Proof.
  intros Hnone.
  destruct (GetSDKs_first_call st Hnone) as (d & Hd & Hall).
  exists d. split; [exact Hd|].
  rewrite Forall_forall in Hall.
  split; [|split; [|split; [|split; [|split]]]].
  - intros d' Hret.
    destruct (GetSDKs st) as [out st'] eqn:Hrun. cbn in Hret, Hd. subst out.
    apply GetSDKs_returned in Hrun. congruence.
  - intros root Hin. exact (Hall _ Hin).
  - intros sdk root Hin Hne. specialize (Hall _ Hin). unfold entitled in Hall.
    cbn [fst snd] in Hall. destruct sdk; try exact Hall. congruence.
  - split; [reflexivity|].
    unfold windows10SDKs. cbn [fmap list_fmap snd].
    repeat (apply NoDup_cons; split;
            [intros Hin; repeat (apply elem_of_cons in Hin as [Hin|Hin]; [discriminate|]);
             inversion Hin|]).
    apply NoDup_nil. exact I.
  - intros sdk10 includeDir version st0 Hv Hother.
    rewrite GetSDKs_includeDir_spec, Hv, (knownWindows10SDK_None version Hother).
    destruct (File_Exists _); reflexivity.
  - intros later Hlater. apply GetSDKs_cached. exact Hlater.
Qed.

(** *** GetToolsets and the constructor *)

(** GetToolsets touches neither [_sdks] nor anything it would have to
    throw for. *)
Lemma preserves_toolsets_set_Item (P : Statics -> Prop) key value :
  (forall st d, P st -> P (mkStatics (Some d) (_sdks st) (logged st) (registryReads st))) ->
  preserves P (toolsets_set_Item key value).
Proof. intros HP st H. unfold toolsets_set_Item, bind, get_toolsets, set_toolsets. cbn. auto. Qed.

Lemma preserves_FindMsvcToolsets (P : Statics -> Prop) rootDir :
  (forall st d, P st -> P (mkStatics (Some d) (_sdks st) (logged st) (registryReads st))) ->
  preserves P (FindMsvcToolsets rootDir).
Proof.
  intros HP. unfold FindMsvcToolsets.
  destruct (negb (Directory_Exists rootDir)); [apply preserves_ret|].
  apply preserves_foreach. intros toolset _.
  destruct (Version_TryParse (Path_GetFileName toolset)) as [version|]; [|apply preserves_ret].
  destruct (_ || _); [|apply preserves_ret].
  destruct (_ && _); [apply preserves_toolsets_set_Item; exact HP|].
  destruct (_ && _); [apply preserves_toolsets_set_Item; exact HP|apply preserves_ret].
Qed.

(** The steps of GetToolsets after [_toolsets = new Dictionary]. *)
Ltac toolsets_search Hset Hlog :=
  apply preserves_seq;
    [ destruct (List.find _ _) as [?vs2015|]; [|apply preserves_ret];
      apply preserves_when; intros _; apply preserves_toolsets_set_Item; exact Hset
    | intros _ ];
  apply preserves_seq;
    [ apply preserves_foreach; intros ?vs _; apply preserves_FindMsvcToolsets; exact Hset
    | intros _ ];
  apply preserves_seq;
    [ apply preserves_foreach; intros ?vs _; apply preserves_FindMsvcToolsets; exact Hset
    | intros _ ];
  apply preserves_seq; [intros ?st ?H; assumption|intros ?d];
  apply preserves_seq;
    [ apply preserves_foreach; intros ?e _ ?st ?H; apply Hlog; assumption
    | intros _ ];
  apply preserves_seq; [intros ?st ?H; assumption|intros ?d; apply preserves_ret].

Lemma preserves_GetToolsets (P : Statics -> Prop) :
  (forall st d, P st -> P (mkStatics (Some d) (_sdks st) (logged st) (registryReads st))) ->
  (forall st e, P st -> P (mkStatics (_toolsets st) (_sdks st) (logged st ++ [e])
                             (registryReads st))) ->
  preserves P GetToolsets.
Proof.
  intros Hset Hlog. unfold GetToolsets.
  apply preserves_seq; [intros st H; exact H|intros cached].
  destruct cached as [d|]; [apply preserves_ret|].
  apply preserves_seq; [intros st H; apply Hset; exact H|intros _].
  toolsets_search Hset Hlog.
Qed.

(** A computation that cannot throw. *)
Definition neverThrows {A} (m : M A) : Prop :=
  forall st, exists a, fst (m st) = Returned a.

Lemma neverThrows_ret {A} (a : A) : neverThrows (ret a).
Proof. intros st. exists a. reflexivity. Qed.

Lemma neverThrows_bind {A B} (m : M A) (k : A -> M B) :
  neverThrows m -> (forall a, neverThrows (k a)) -> neverThrows (bind m k).
Proof.
  intros Hm Hk st. unfold bind. destruct (Hm st) as [a Ha].
  destruct (m st) as [[a'|e] st']; cbn in Ha; [|discriminate].
  apply Hk.
Qed.

Lemma neverThrows_foreach {A} (l : list A) (body : A -> M unit) :
  (forall x, neverThrows (body x)) -> neverThrows (foreach l body).
Proof.
  intros H. induction l as [|x l IH]; cbn [foreach]; [apply neverThrows_ret|].
  apply neverThrows_bind; [apply H|intros _; exact IH].
Qed.

Lemma neverThrows_toolsets_set_Item key value : neverThrows (toolsets_set_Item key value).
Proof. intros st. exists tt. reflexivity. Qed.

Lemma neverThrows_FindMsvcToolsets rootDir : neverThrows (FindMsvcToolsets rootDir).
Proof.
  unfold FindMsvcToolsets.
  destruct (negb (Directory_Exists rootDir)); [apply neverThrows_ret|].
  apply neverThrows_foreach. intros toolset.
  destruct (Version_TryParse (Path_GetFileName toolset)) as [version|]; [|apply neverThrows_ret].
  destruct (_ || _); [|apply neverThrows_ret].
  destruct (_ && _); [apply neverThrows_toolsets_set_Item|].
  destruct (_ && _); [apply neverThrows_toolsets_set_Item|apply neverThrows_ret].
Qed.

Lemma neverThrows_GetToolsets : neverThrows GetToolsets.
Proof.
  unfold GetToolsets.
  apply neverThrows_bind; [intros st; eexists; reflexivity|intros cached].
  destruct cached as [d|]; [apply neverThrows_ret|].
  apply neverThrows_bind; [intros st; eexists; reflexivity|intros _].
  apply neverThrows_bind.
  { destruct (List.find _ _) as [vs2015|]; [|apply neverThrows_ret].
    unfold when. destruct (_ && _);
      [apply neverThrows_toolsets_set_Item|apply neverThrows_ret]. }
  intros _.
  apply neverThrows_bind;
    [apply neverThrows_foreach; intros vs; apply neverThrows_FindMsvcToolsets|intros _].
  apply neverThrows_bind;
    [apply neverThrows_foreach; intros vs; apply neverThrows_FindMsvcToolsets|intros _].
  apply neverThrows_bind; [intros st; eexists; reflexivity|intros d].
  apply neverThrows_bind.
  { apply neverThrows_foreach. intros e st. exists tt. reflexivity. }
  intros _.
  apply neverThrows_bind; [intros st; eexists; reflexivity|intros d'; apply neverThrows_ret].
Qed.

(** A computation that, when it returns, returns what [_toolsets] holds. *)
Definition returnsToolsets (m : M (list (WindowsPlatformToolset * string))) : Prop :=
  forall st d st', m st = (Returned d, st') -> is_Some (_toolsets st') ->
                   _toolsets st' = Some d.

Lemma returnsToolsets_bind {A} (m : M A) (k : A -> M (list (WindowsPlatformToolset * string))) :
  (forall a, returnsToolsets (k a)) -> returnsToolsets (bind m k).
Proof.
  intros Hk st d st'. unfold bind. destruct (m st) as [[a|e] st1]; [apply Hk|discriminate].
Qed.

Lemma returnsToolsets_tail :
  returnsToolsets (do d <- get_toolsets; ret (default [] d)).
Proof.
  intros st d st'. unfold bind, get_toolsets, ret. intros [= <- <-] [d0 Hd0].
  rewrite Hd0. reflexivity.
Qed.

(** When GetToolsets returns, it returns what [_toolsets] holds. *)
Lemma GetToolsets_returned (st st' : Statics) (d : list (WindowsPlatformToolset * string)) :
  GetToolsets st = (Returned d, st') -> _toolsets st' = Some d.
Proof.
  unfold GetToolsets. unfold bind at 1. unfold get_toolsets at 1.
  destruct (_toolsets st) as [d0|] eqn:Hst.
  - unfold ret. intros [= <- <-]. exact Hst.
  - unfold bind at 1. unfold set_toolsets at 1. intros Hrun.
    match type of Hrun with
    | ?search ?st1 = _ =>
        assert (Hpres : preserves (fun s => is_Some (_toolsets s)) search);
        [|assert (Hrc : returnsToolsets search)]
    end.
    + assert (Hset : forall (s : Statics) (d' : list (WindowsPlatformToolset * string)),
                 is_Some (_toolsets s) ->
                 is_Some (_toolsets (mkStatics (Some d') (_sdks s) (logged s)
                                       (registryReads s))))
        by (intros; eexists; reflexivity).
      assert (Hlog : forall (s : Statics) (e : LogEntry),
                 is_Some (_toolsets s) ->
                 is_Some (_toolsets (mkStatics (_toolsets s) (_sdks s) (logged s ++ [e])
                                       (registryReads s))))
        by (intros s e H; exact H).
      toolsets_search Hset Hlog.
    + do 5 (apply returnsToolsets_bind; intro). apply returnsToolsets_tail.
    + apply (Hrc _ _ _ Hrun).
      assert (Hstart : is_Some (_toolsets (mkStatics (Some []) (_sdks st) (logged st)
                                             (registryReads st))))
        by (eexists; reflexivity).
      apply Hpres in Hstart. rewrite Hrun in Hstart. exact Hstart.
Qed.

(** The field [_hasRequiredSDKsInstalled] after the constructor: true
    exactly when GetSDKs and GetToolsets each found something. *)
Lemma WindowsPlatformBase_ctor_flag (st st' : Statics) (flag : bool) :
  WindowsPlatformBase_ctor st = (Returned flag, st') ->
  exists sdks toolsets,
    _sdks st' = Some sdks /\ _toolsets st' = Some toolsets
    /\ (flag = true <-> sdks <> [] /\ toolsets <> []).
Proof.
  unfold WindowsPlatformBase_ctor. unfold bind at 1.
  destruct (GetSDKs st) as [[sdks|e] st1] eqn:Hsdks; [|discriminate].
  apply GetSDKs_returned in Hsdks.
  unfold bind at 1.
  destruct (GetToolsets st1) as [[toolsets|e] st2] eqn:Htool; [|discriminate].
  pose proof (preserves_GetToolsets (fun s => _sdks s = Some sdks)
                (fun s d' H => H) (fun s e H => H) st1 Hsdks) as Hkeep.
  rewrite Htool in Hkeep. cbn [snd] in Hkeep.
  apply GetToolsets_returned in Htool.
  unfold ret. intros [= <- <-].
  exists sdks, toolsets. split; [exact Hkeep|]. split; [exact Htool|].
  unfold Dictionary.Count.
  destruct sdks, toolsets; cbn; split; intros H; try discriminate;
    try (destruct H; congruence); try (split; discriminate); reflexivity.
Qed.

(* --------------------------------------------------------------------- *)
(** ** The toolsets and the compiler directories                          *)
(* --------------------------------------------------------------------- *)

Lemma preserves_backed_set_Item (key : WindowsPlatformToolset) (value : string) :
  toolsetBacked (key, value) -> preserves toolsetsBacked (toolsets_set_Item key value).
Proof.
  intros Hb st (d & Hd & Hall & Hnd).
  unfold toolsets_set_Item, bind, get_toolsets, set_toolsets. rewrite Hd. cbn.
  exists (Dictionary.set_Item d key value). split; [reflexivity|]. split.
  - apply set_Item_Forall; assumption.
  - apply set_Item_NoDup. exact Hnd.
Qed.

Lemma preserves_backed_FindMsvcToolsets (rootDir : string) :
  preserves toolsetsBacked (FindMsvcToolsets rootDir).
Proof.
  unfold FindMsvcToolsets.
  destruct (negb (Directory_Exists rootDir)); [apply preserves_ret|].
  apply preserves_foreach. intros toolset _.
  destruct (Version_TryParse (Path_GetFileName toolset)) as [version|] eqn:Hversion;
    [|apply preserves_ret].
  destruct (_ || _) eqn:Hcl; [|apply preserves_ret].
  destruct (Z.eqb_spec (Major version) 14) as [Hmajor|_]; cbn [andb];
    [|apply preserves_ret].
  destruct (Z.eqb_spec (Z.quot (Minor version) 10) 1) as [H1|_].
  { apply preserves_backed_set_Item. exists version. auto. }
  destruct (Z.eqb_spec (Z.quot (Minor version) 10) 2) as [H2|_]; [|apply preserves_ret].
  apply preserves_backed_set_Item. exists version. auto.
Qed.

(** The first call fills the dictionary with backed entries only. *)
Lemma GetToolsets_first_call (st : Statics) :
  _toolsets st = None -> toolsetsBacked (snd (GetToolsets st)).
Proof.
  intros Hnone. unfold GetToolsets. unfold bind at 1. unfold get_toolsets at 1.
  rewrite Hnone. unfold bind at 1. unfold set_toolsets at 1.
  match goal with
  | |- toolsetsBacked (snd (?m ?s)) =>
      cut (preserves toolsetsBacked m);
        [intros Hp; apply Hp; exists []; split; [reflexivity|];
         split; [constructor|apply NoDup_nil; exact I]|]
  end.
  apply preserves_seq.
  { destruct (List.find _ _) as [vs2015|]; [|apply preserves_ret].
    apply preserves_when. intros Hfound. apply andb_prop in Hfound as [Hdir Hcl].
    apply preserves_backed_set_Item. split; assumption. }
  intros _.
  apply preserves_seq;
    [apply preserves_foreach; intros vs _; apply preserves_backed_FindMsvcToolsets|intros _].
  apply preserves_seq;
    [apply preserves_foreach; intros vs _; apply preserves_backed_FindMsvcToolsets|intros _].
  apply preserves_seq; [intros s H; exact H|intros d].
  apply preserves_seq; [apply preserves_foreach; intros e _ s H; exact H|intros _].
  apply preserves_seq; [intros s H; exact H|intros d'; apply preserves_ret].
Qed.

(** GetToolsets caches what it returns.  After a call that returned, the
    field [_toolsets] holds the dictionary returned, and a call after it
    returns the same dictionary and changes nothing: the Visual Studio
    instances are asked for once.  A call that finds the field set returns
    that dictionary and changes nothing. *)
Theorem GetToolsets_returns_the_cache (st st' : Statics)
    (d : list (WindowsPlatformToolset * string)) :
  GetToolsets st = (Returned d, st') ->
  _toolsets st' = Some d
  /\ GetToolsets st' = (Returned d, st')
  /\ (forall d0, _toolsets st = Some d0 -> d = d0 /\ st' = st).
Proof.
  intros Hrun.
  pose proof (GetToolsets_returned st st' d Hrun) as Hcache.
  split; [exact Hcache|].
  assert (Hagain : forall s d1, _toolsets s = Some d1 -> GetToolsets s = (Returned d1, s)).
  { intros s d1 Hs. unfold GetToolsets, bind, get_toolsets. rewrite Hs. reflexivity. }
  split; [apply Hagain; exact Hcache|].
  intros d0 Hd0. rewrite (Hagain st d0 Hd0) in Hrun. injection Hrun as <- <-. auto.
Qed.

(** On its first call (while [_toolsets] is null) GetToolsets registers
    only the toolsets v140, v141 and v142, each at most once: v140 with a
    directory that exists and holds bin\amd64\cl.exe or
    bin\x86_amd64\cl.exe, v141 (v142) with a directory whose name parses as
    a version 14.1x (14.2x) and that holds bin\Hostx64\x64\cl.exe or
    bin\Hostx86\x64\cl.exe.  Default and Latest are never registered. *)
Theorem GetToolsets_registers_only_verified_toolsets (st : Statics) :
  _toolsets st = None ->
  exists d st',
    GetToolsets st = (Returned d, st')
    /\ NoDup d.*1
    /\ (forall toolset dir, (toolset, dir) ∈ d -> toolset ∈ [v140; v141; v142])
    /\ (forall dir, (v140, dir) ∈ d ->
          Directory_Exists dir = true
          /\ File_Exists (Path_Combine4 dir "bin" "amd64" "cl.exe")
             || File_Exists (Path_Combine4 dir "bin" "x86_amd64" "cl.exe") = true)
    /\ (forall toolset dir, (toolset, dir) ∈ d -> toolset <> v140 ->
          exists version,
            Version_TryParse (Path_GetFileName dir) = Some version
            /\ Major version = 14
            /\ Z.quot (Minor version) 10 = (if decide (toolset = v141) then 1 else 2)
            /\ File_Exists (Path_Combine5 dir "bin" "Hostx64" "x64" "cl.exe")
               || File_Exists (Path_Combine5 dir "bin" "Hostx86" "x64" "cl.exe") = true).
Proof.
  intros Hnone.
  destruct (neverThrows_GetToolsets st) as [d Hd].
  destruct (GetToolsets st) as [outcome st'] eqn:Hrun. cbn in Hd. subst outcome.
  pose proof (GetToolsets_first_call st Hnone) as (d' & Hd' & Hall & Hnd).
  rewrite Hrun in Hd'. cbn [snd] in Hd'.
  rewrite (GetToolsets_returned st st' d Hrun) in Hd'. injection Hd' as <-.
  rewrite Forall_forall in Hall.
  exists d, st'. split; [reflexivity|]. split; [exact Hnd|].
  split; [|split].
  - intros toolset dir Hin. specialize (Hall _ Hin). unfold toolsetBacked in Hall.
    cbn [fst] in Hall.
    destruct toolset; try contradiction;
      repeat (first [apply list_elem_of_here | apply list_elem_of_further]).
  - intros dir Hin. exact (Hall _ Hin).
  - intros toolset dir Hin Hne. specialize (Hall _ Hin). unfold toolsetBacked in Hall.
    cbn [fst snd] in Hall.
    destruct toolset; try contradiction; try congruence; exact Hall.
Qed.

(** The state and the dictionary a first call of GetToolsets leaves. *)
Lemma GetToolsets_first_call_returned (st st' : Statics)
    (d : list (WindowsPlatformToolset * string)) :
  _toolsets st = None -> GetToolsets st = (Returned d, st') ->
  _toolsets st' = Some d /\ Forall toolsetBacked d /\ NoDup d.*1
  /\ GetToolsets st' = (Returned d, st').
Proof.
  intros Hnone Hrun.
  pose proof (GetToolsets_first_call st Hnone) as (d' & Hd' & Hall & Hnd).
  rewrite Hrun in Hd'. cbn [snd] in Hd'.
  pose proof (GetToolsets_returned st st' d Hrun) as Hcache.
  rewrite Hcache in Hd'. injection Hd' as <-.
  split; [exact Hcache|]. split; [exact Hall|]. split; [exact Hnd|].
  unfold GetToolsets, bind, get_toolsets. rewrite Hcache. reflexivity.
Qed.

(** GetVCToolPath64 for the Visual Studio 2015 toolset that GetToolsets
    registered: it returns the directory of bin\amd64\cl.exe when that file
    exists and of bin\x86_amd64\cl.exe otherwise, a file that exists; it
    does not throw, on the first call or later. *)
Theorem GetVCToolPath64_of_registered_v140 (st st' : Statics)
    (d : list (WindowsPlatformToolset * string)) (dir : string) :
  _toolsets st = None -> GetToolsets st = (Returned d, st') -> (v140, dir) ∈ d ->
  let nativeCompilerPath := Path_Combine4 dir "bin" "amd64" "cl.exe" in
  let crossCompilerPath := Path_Combine4 dir "bin" "x86_amd64" "cl.exe" in
  let found := if File_Exists nativeCompilerPath then nativeCompilerPath
               else crossCompilerPath in
  File_Exists found = true
  /\ GetVCToolPath64 v140 st = (Returned (Path_GetDirectoryName found), st')
  /\ GetVCToolPath64 v140 st' = (Returned (Path_GetDirectoryName found), st').
Proof.
  intros Hnone Hrun Hin native cross found.
  destruct (GetToolsets_first_call_returned st st' d Hnone Hrun)
    as (Hcache & Hall & Hnd & Hagain).
  rewrite Forall_forall in Hall. destruct (Hall _ Hin) as [_ Hcl]. cbn [snd] in Hcl.
  fold native cross in Hcl.
  assert (Hget : toolsets_get_Item d v140 = Returned dir).
  { unfold toolsets_get_Item. rewrite (elem_of_TryGetValue d v140 dir Hnd Hin). reflexivity. }
  assert (Hfound : File_Exists found = true).
  { subst found. destruct (File_Exists native) eqn:Hnative; [exact Hnative|exact Hcl]. }
  split; [exact Hfound|].
  assert (Hcall : forall s, GetToolsets s = (Returned d, st') ->
            GetVCToolPath64 v140 s = (Returned (Path_GetDirectoryName found), st')).
  { intros s Hs. unfold GetVCToolPath64. rewrite Hs, Hget. fold native cross.
    subst found. destruct (File_Exists native) eqn:Hnative; [reflexivity|].
    rewrite Hfound. reflexivity. }
  split; [exact (Hcall st Hrun)|exact (Hcall st' Hagain)].
Qed.

(** GetVCToolPath64 for a toolset that FindMsvcToolsets registered (v141 or
    v142).  The search accepted the directory for bin\Hostx64\x64\cl.exe or
    bin\Hostx86\x64\cl.exe; GetVCToolPath64 looks for bin\HostX64\x64\cl.exe
    and bin\HostX86\x64\cl.exe.  Where the file system does not tell these
    names apart, it returns the directory of one of the two, which exists,
    and does not throw. *)
Theorem GetVCToolPath64_of_registered_msvc (st st' : Statics)
    (d : list (WindowsPlatformToolset * string)) (toolset : WindowsPlatformToolset)
    (dir : string) :
  (forall dir', File_Exists (Path_Combine5 dir' "bin" "HostX64" "x64" "cl.exe") =
                File_Exists (Path_Combine5 dir' "bin" "Hostx64" "x64" "cl.exe")) ->
  (forall dir', File_Exists (Path_Combine5 dir' "bin" "HostX86" "x64" "cl.exe") =
                File_Exists (Path_Combine5 dir' "bin" "Hostx86" "x64" "cl.exe")) ->
  _toolsets st = None -> GetToolsets st = (Returned d, st') ->
  (toolset, dir) ∈ d -> toolset <> v140 ->
  let nativeCompilerPath := Path_Combine5 dir "bin" "HostX64" "x64" "cl.exe" in
  let crossCompilerPath := Path_Combine5 dir "bin" "HostX86" "x64" "cl.exe" in
  let found := if File_Exists nativeCompilerPath then nativeCompilerPath
               else crossCompilerPath in
  File_Exists found = true
  /\ GetVCToolPath64 toolset st = (Returned (Path_GetDirectoryName found), st').
Proof.
  intros Hcase64 Hcase86 Hnone Hrun Hin Hne native cross found.
  destruct (GetToolsets_first_call_returned st st' d Hnone Hrun)
    as (Hcache & Hall & Hnd & Hagain).
  rewrite Forall_forall in Hall. specialize (Hall _ Hin).
  assert (Hcl : File_Exists native || File_Exists cross = true).
  { subst native cross. rewrite Hcase64, Hcase86. unfold toolsetBacked in Hall.
    cbn [fst snd] in Hall.
    destruct toolset; try contradiction; try congruence;
      destruct Hall as (version & _ & _ & _ & Hcl); exact Hcl. }
  assert (Hget : toolsets_get_Item d toolset = Returned dir).
  { unfold toolsets_get_Item. rewrite (elem_of_TryGetValue d toolset dir Hnd Hin).
    reflexivity. }
  assert (Hfound : File_Exists found = true).
  { subst found. destruct (File_Exists native) eqn:Hnative; [exact Hnative|exact Hcl]. }
  split; [exact Hfound|].
  unfold GetVCToolPath64. rewrite Hrun, Hget.
  unfold toolsetBacked in Hall. cbn [fst] in Hall.
  destruct toolset; try contradiction; try congruence; fold native cross; subst found;
    (destruct (File_Exists native) eqn:Hnative; [reflexivity|]); rewrite Hfound; reflexivity.
Qed.

(** GetVCToolPath32 and GetVCToolPath64 for a toolset that GetToolsets did
    not register throw the KeyNotFoundException of the dictionary's
    indexer.  That is always so for Default and Latest, so the [default]
    label with its ArgumentOutOfRangeException is never reached. *)
Theorem GetVCToolPath_of_unregistered_toolset (st st' : Statics)
    (d : list (WindowsPlatformToolset * string)) :
  _toolsets st = None -> GetToolsets st = (Returned d, st') ->
  (forall toolset, toolset ∉ d.*1 ->
     GetVCToolPath32 toolset st = (Thrown (KeyNotFoundException toolset), st')
     /\ GetVCToolPath64 toolset st = (Thrown (KeyNotFoundException toolset), st'))
  /\ (Default ∉ d.*1) /\ (Latest ∉ d.*1)
  /\ (forall toolset toolset',
        fst (GetVCToolPath32 toolset st) <> Thrown (ToolsetOutOfRange toolset')
        /\ fst (GetVCToolPath64 toolset st) <> Thrown (ToolsetOutOfRange toolset')).
Proof.
  intros Hnone Hrun.
  destruct (GetToolsets_first_call_returned st st' d Hnone Hrun)
    as (Hcache & Hall & Hnd & Hagain).
  rewrite Forall_forall in Hall.
  assert (Hkeys : forall toolset, toolset ∈ d.*1 -> toolset <> Default /\ toolset <> Latest).
  { intros toolset Hin. apply list_elem_of_fmap in Hin as ([toolset' dir] & -> & Hin).
    specialize (Hall _ Hin). unfold toolsetBacked in Hall. cbn [fst] in *.
    destruct toolset'; try contradiction; split; discriminate. }
  assert (Hmissing : forall toolset, toolset ∉ d.*1 ->
            toolsets_get_Item d toolset = Thrown (KeyNotFoundException toolset)).
  { intros toolset Hnot. unfold toolsets_get_Item.
    apply TryGetValue_None_not_key in Hnot. rewrite Hnot. reflexivity. }
  assert (Hdefault : Default ∉ d.*1) by (intros Hin; destruct (Hkeys _ Hin); congruence).
  assert (Hlatest : Latest ∉ d.*1) by (intros Hin; destruct (Hkeys _ Hin); congruence).
  split; [|split; [exact Hdefault|split; [exact Hlatest|]]].
  - intros toolset Hnot. unfold GetVCToolPath32, GetVCToolPath64.
    rewrite Hrun, (Hmissing toolset Hnot). split; reflexivity.
  - intros toolset toolset'. unfold GetVCToolPath32, GetVCToolPath64. rewrite Hrun.
    destruct (decide (toolset ∈ d.*1)) as [Hin|Hnot].
    + destruct (Hkeys _ Hin) as [Hd Hl]. unfold toolsets_get_Item.
      destruct (Dictionary.TryGetValue d toolset) as [dir|]; [|split; discriminate].
      destruct toolset; try congruence;
        split; repeat (match goal with |- context [File_Exists ?p] =>
                                         destruct (File_Exists p) end); discriminate.
    + rewrite (Hmissing toolset Hnot). split; discriminate.
Qed.

(* --------------------------------------------------------------------- *)
(** ** The SDK dictionary and its versions                                *)
(* --------------------------------------------------------------------- *)

(** A first call of GetSDKs that fails, with whatever exception: the
    dictionary filled so far stays in [_sdks], every entry of it rests on the
    check that let it in, and every later call returns that dictionary,
    does not throw and looks for nothing again. *)
Theorem GetSDKs_failure_is_cached (st st' : Statics) (e : Exception) :
  _sdks st = None -> GetSDKs st = (Thrown e, st') ->
  exists d,
    _sdks st' = Some d /\ Forall entitled d /\ GetSDKs st' = (Returned d, st').
Proof.
  intros Hnone Hrun.
  pose proof (GetSDKs_first_call st Hnone) as (d & Hd & Hall).
  rewrite Hrun in Hd. cbn [snd] in Hd.
  exists d. split; [exact Hd|]. split; [exact Hall|]. apply GetSDKs_cached. exact Hd.
Qed.

(** GetSDKVersion has a version for every SDK that a first call of GetSDKs
    registered (it never registers Latest, for which GetSDKVersion throws):
    a loop over the dictionary that asks for the version of each key, as
    Sdk.Print does, cannot fail there.  For a Windows 10 SDK the version is
    the one the name of a directory below the root's Include directory
    parses as. *)
Theorem GetSDKVersion_of_registered_sdk (st st' : Statics)
    (d : list (WindowsPlatformSDK * string)) (sdk : WindowsPlatformSDK) (root : string) :
  _sdks st = None -> GetSDKs st = (Returned d, st') -> (sdk, root) ∈ d ->
  sdk <> SDK_Latest
  /\ exists version,
       (forall s, GetSDKVersion sdk s = (Returned version, s))
       /\ (sdk <> v8_1 ->
           exists includeDir,
             includeDir ∈ Directory_GetDirectories (Path_Combine root "Include")
             /\ Version_TryParse (Path_GetFileName includeDir) = Some version).
Proof.
  intros Hnone Hrun Hin.
  pose proof (GetSDKs_first_call st Hnone) as (d' & Hd' & Hall).
  rewrite Hrun in Hd'. cbn [snd] in Hd'.
  rewrite (GetSDKs_returned st st' d Hrun) in Hd'. injection Hd' as <-.
  rewrite Forall_forall in Hall. specialize (Hall _ Hin).
  unfold entitled in Hall. cbn [fst snd] in Hall.
  destruct sdk;
    try (destruct Hall as (includeDir & version & _ & Hdir & Hparse & Htable & _);
         unfold windows10SDKs in Htable;
         repeat (apply elem_of_cons in Htable as [Htable|Htable];
                 [first [discriminate Htable
                        |injection Htable as ->;
                         split; [discriminate|]; eexists; split; [intros s; reflexivity|];
                         intros _; exists includeDir; split; assumption]|]);
         inversion Htable).
  split; [discriminate|]. exists (Version2 8 1). split; [intros s; reflexivity|].
  intros Hne. congruence.
Qed.

(** Two SDKs that GetSDKVersion gives versions equal under [==] are the
    same SDK: at most one comparison of the chain in GetSDKs can succeed.
    For Latest there is no version. *)
Theorem GetSDKVersion_injective (a b : WindowsPlatformSDK) (s s' : Statics)
    (va vb : Version) :
  fst (GetSDKVersion a s) = Returned va -> fst (GetSDKVersion b s') = Returned vb ->
  Version_eqb va vb = true ->
  a = b /\ a <> SDK_Latest
  /\ GetSDKVersion SDK_Latest s = (Thrown (ArgumentOutOfRangeException "sdk"), s).
Proof.
  intros Ha Hb Heq.
  destruct a; cbn in Ha; try discriminate; injection Ha as <-;
    destruct b; cbn in Hb; try discriminate; injection Hb as <-;
    cbn in Heq; try discriminate; (split; [reflexivity|split; [discriminate|reflexivity]]).
Qed.

End Host.

(** ** A machine with one Windows 10 kit

    The registry knows the kit root under HKEY_LOCAL_MACHINE; its Include
    directory holds 10.0.19041.0 with um\windows.h and 10.0.99999.0
    without it. *)
Module Machine.

Definition registry (keyName valueName : string) : option RegistryValue :=
  if String.eqb keyName "HKEY_LOCAL_MACHINE\SOFTWARE\Microsoft\Windows Kits\Installed Roots"
     && String.eqb valueName "KitsRoot10"
  then Some (RegistryString "C:\Kits\10")
  else None.

Definition combine (a b : string) : string := a +:+ "\" +:+ b.

Definition files (path : string) : bool :=
  String.eqb path "C:\Kits\10\Include\10.0.19041.0\um\windows.h".

Definition directories (path : string) : bool :=
  String.eqb path "C:\Kits\10\Include".

Definition subdirectories (path : string) : list string :=
  if String.eqb path "C:\Kits\10\Include"
  then ["C:\Kits\10\Include\10.0.19041.0"; "C:\Kits\10\Include\10.0.99999.0"]
  else [].

Definition fileName (path : string) : string :=
  if String.eqb path "C:\Kits\10\Include\10.0.19041.0" then "10.0.19041.0"
  else if String.eqb path "C:\Kits\10\Include\10.0.99999.0" then "10.0.99999.0"
  else path.

Definition parseVersion (s : string) : option Version :=
  if String.eqb s "10.0.19041.0" then Some (mkVersion 10 0 19041 0)
  else if String.eqb s "10.0.99999.0" then Some (mkVersion 10 0 99999 0)
  else None.

Definition fresh : Statics := mkStatics None None [] [].

End Machine.

Import Machine.

(** C5, witness: the first call on the machine. *)
Lemma C5_witness_one_kit :
  _sdks fresh = None
  /\ exists d,
       _sdks (snd (GetSDKs registry files directories subdirectories combine fileName
                     parseVersion fresh)) = Some d.
Proof.
  assert (H : _sdks fresh = None) by reflexivity.
  split; [exact H|].
  destruct (C5_GetSDKs_registers_only_verified_sdks registry files directories subdirectories
              combine fileName parseVersion fresh H) as (d & Hd & _).
  exists d. exact Hd.
Defined.

(** C5, counterexample to the claim as stated.  The directory 10.0.99999.0
    parses as a version that is none of the nine, yet the call logs no
    warning for it (it holds no um\windows.h): the log has the one line for
    the SDK that was found. *)
Lemma C5_counterexample_unlisted_version_not_logged :
  "C:\Kits\10\Include\10.0.99999.0" ∈ subdirectories (combine "C:\Kits\10" "Include")
  /\ parseVersion (fileName "C:\Kits\10\Include\10.0.99999.0")
     = Some (mkVersion 10 0 99999 0)
  /\ knownWindows10SDK (mkVersion 10 0 99999 0) = None
  /\ fst (GetSDKs registry files directories subdirectories combine fileName parseVersion
            fresh) = Returned [(v10_0_19041_0, "C:\Kits\10")]
  /\ logged (snd (GetSDKs registry files directories subdirectories combine fileName
                    parseVersion fresh))
     = [Verbose (FoundWindowsSDK v10_0_19041_0 "C:\Kits\10")].
Proof.
  split; [vm_compute; apply elem_of_cons; right; apply elem_of_cons; left; reflexivity|].
  split; [vm_compute; reflexivity|].
  split; [vm_compute; reflexivity|].
  split; vm_compute; reflexivity.
Qed.

(** ** A workstation with Visual Studio 2015 and 2019

    Visual Studio 2015 has the cross compiler only; the 2019 instance has
    the one toolset 14.28 with the native compiler.  File names are
    compared without regard to case, the way the Windows file systems
    compare them. *)
Module Workstation.

Definition lowerAscii (c : Ascii.ascii) : Ascii.ascii :=
  let n := Ascii.nat_of_ascii c in
  if ((65 <=? n) && (n <=? 90))%nat then Ascii.ascii_of_nat (n + 32) else c.

Fixpoint lower (s : string) : string :=
  match s with
  | EmptyString => EmptyString
  | String c s' => String (lowerAscii c) (lower s')
  end.

Definition sameName (a b : string) : bool := String.eqb (lower a) (lower b).

Definition instances : list VisualStudioInstance :=
  [ mkVisualStudioInstance VisualStudio2015 "C:\VS14";
    mkVisualStudioInstance VisualStudio2019 "C:\VS16" ].

Definition files (path : string) : bool :=
  sameName path "C:\VS14\VC\bin\x86_amd64\cl.exe"
  || sameName path "C:\VS16\VC\Tools\MSVC\14.28.29333\bin\HostX64\x64\cl.exe".

Definition directories (path : string) : bool :=
  sameName path "C:\VS14\VC" || sameName path "C:\VS16\VC\Tools\MSVC".

Definition subdirectories (path : string) : list string :=
  if sameName path "C:\VS16\VC\Tools\MSVC" then ["C:\VS16\VC\Tools\MSVC\14.28.29333"]
  else [].

Definition fileName (path : string) : string :=
  if String.eqb path "C:\VS16\VC\Tools\MSVC\14.28.29333" then "14.28.29333" else path.

Definition parseVersion (s : string) : option Version :=
  if String.eqb s "14.28.29333" then Some (mkVersion 14 28 29333 (-1)) else None.

Definition directoryName (path : string) : option string :=
  if String.eqb path "C:\VS14\VC\bin\x86_amd64\cl.exe"
  then Some "C:\VS14\VC\bin\x86_amd64"
  else if String.eqb path "C:\VS16\VC\Tools\MSVC\14.28.29333\bin\HostX64\x64\cl.exe"
  then Some "C:\VS16\VC\Tools\MSVC\14.28.29333\bin\HostX64\x64"
  else None.

(** What GetToolsets finds there, and the state it leaves. *)
Definition found : list (WindowsPlatformToolset * string) :=
  [(v140, "C:\VS14\VC"); (v142, "C:\VS16\VC\Tools\MSVC\14.28.29333")].

Definition searched : Statics :=
  mkStatics (Some found) None
    [ Verbose (FoundWindowsToolset v140 "C:\VS14\VC");
      Verbose (FoundWindowsToolset v142 "C:\VS16\VC\Tools\MSVC\14.28.29333") ]
    [].

End Workstation.

(** ** A machine with the same Windows 10 SDK under two roots *)
Module TwoKits.

Definition registry (keyName valueName : string) : option RegistryValue :=
  if String.eqb keyName "HKEY_LOCAL_MACHINE\SOFTWARE\Microsoft\Windows Kits\Installed Roots"
     && String.eqb valueName "KitsRoot10"
  then Some (RegistryString "C:\Kits\10")
  else if String.eqb keyName
            "HKEY_LOCAL_MACHINE\SOFTWARE\Microsoft\Microsoft SDKs\Windows\v10.0"
          && String.eqb valueName "InstallationFolder"
  then Some (RegistryString "D:\Kits\10")
  else None.

Definition files (path : string) : bool :=
  String.eqb path "C:\Kits\10\Include\10.0.19041.0\um\windows.h"
  || String.eqb path "D:\Kits\10\Include\10.0.19041.0\um\windows.h".

Definition directories (path : string) : bool :=
  String.eqb path "C:\Kits\10\Include" || String.eqb path "D:\Kits\10\Include".

Definition subdirectories (path : string) : list string :=
  if String.eqb path "C:\Kits\10\Include" then ["C:\Kits\10\Include\10.0.19041.0"]
  else if String.eqb path "D:\Kits\10\Include" then ["D:\Kits\10\Include\10.0.19041.0"]
  else [].

Definition fileName (path : string) : string :=
  if String.eqb path "C:\Kits\10\Include\10.0.19041.0"
     || String.eqb path "D:\Kits\10\Include\10.0.19041.0"
  then "10.0.19041.0" else path.

End TwoKits.

Lemma lower_app (a b : string) :
  Workstation.lower (a +:+ b) = Workstation.lower a +:+ Workstation.lower b.
Proof.
  induction a as [|c a IH]; [reflexivity|].
  change (String c a +:+ b) with (String c (a +:+ b)).
  change (Workstation.lower (String c (a +:+ b)))
    with (String (Workstation.lowerAscii c) (Workstation.lower (a +:+ b))).
  rewrite IH. reflexivity.
Qed.

(** The workstation does not tell HostX64 from Hostx64. *)
Lemma Workstation_ignores_case (host host' : string) (dir : string) :
  Workstation.lower host = Workstation.lower host' ->
  Workstation.files (Path_Combine5 combine dir "bin" host "x64" "cl.exe") =
  Workstation.files (Path_Combine5 combine dir "bin" host' "x64" "cl.exe").
Proof.
  intros Hhost. unfold Workstation.files, Workstation.sameName, Path_Combine5, combine.
  rewrite !lower_app, Hhost. reflexivity.
Qed.

Lemma Workstation_search :
  GetToolsets Workstation.files Workstation.directories Workstation.subdirectories combine
    Workstation.fileName Workstation.parseVersion Workstation.instances fresh =
  (Returned Workstation.found, Workstation.searched).
Proof. vm_compute. reflexivity. Qed.

(** Witness: after the search on the workstation the toolsets found are
    the cache, and the next call returns them as they are. *)
Lemma GetToolsets_returns_the_cache_witness :
  _toolsets Workstation.searched = Some Workstation.found
  /\ GetToolsets Workstation.files Workstation.directories Workstation.subdirectories combine
       Workstation.fileName Workstation.parseVersion Workstation.instances
       Workstation.searched =
     (Returned Workstation.found, Workstation.searched).
Proof.
  destruct (GetToolsets_returns_the_cache Workstation.files Workstation.directories
              Workstation.subdirectories combine Workstation.fileName
              Workstation.parseVersion Workstation.instances fresh Workstation.searched
              Workstation.found Workstation_search) as (Hcache & Hagain & _).
  exact (conj Hcache Hagain).
Defined.

(** Witness: the first search on the workstation. *)
Lemma GetToolsets_registers_only_verified_toolsets_witness :
  exists d st',
    GetToolsets Workstation.files Workstation.directories Workstation.subdirectories combine
      Workstation.fileName Workstation.parseVersion Workstation.instances fresh =
    (Returned d, st')
    /\ NoDup d.*1
    /\ forall toolset dir, (toolset, dir) ∈ d -> toolset ∈ [v140; v141; v142].
Proof.
  destruct (GetToolsets_registers_only_verified_toolsets Workstation.files
              Workstation.directories Workstation.subdirectories combine Workstation.fileName
              Workstation.parseVersion Workstation.instances fresh eq_refl)
    as (d & st' & Hrun & Hnd & Hkeys & _).
  exists d, st'. split; [exact Hrun|]. split; [exact Hnd|exact Hkeys].
Defined.

(** Witness: the Visual Studio 2015 toolset of the workstation has the
    cross compiler only, and that is the directory returned. *)
Lemma GetVCToolPath64_of_registered_v140_witness :
  GetVCToolPath64 Workstation.files Workstation.directories Workstation.subdirectories combine
    Workstation.fileName Workstation.parseVersion Workstation.instances
    Workstation.directoryName v140 fresh =
  (Returned (Some "C:\VS14\VC\bin\x86_amd64"), Workstation.searched).
Proof.
  assert (Hin : (v140, "C:\VS14\VC") ∈ Workstation.found) by apply list_elem_of_here.
  destruct (GetVCToolPath64_of_registered_v140 Workstation.files Workstation.directories
              Workstation.subdirectories combine Workstation.fileName
              Workstation.parseVersion Workstation.instances Workstation.directoryName
              fresh Workstation.searched Workstation.found "C:\VS14\VC" eq_refl
              Workstation_search Hin) as (_ & Hcall & _).
  rewrite Hcall. vm_compute. reflexivity.
Defined.

(** Witness: the 14.28 toolset of the workstation was accepted for
    bin\Hostx64\x64\cl.exe and is found again as bin\HostX64\x64\cl.exe. *)
Lemma GetVCToolPath64_of_registered_msvc_witness :
  GetVCToolPath64 Workstation.files Workstation.directories Workstation.subdirectories combine
    Workstation.fileName Workstation.parseVersion Workstation.instances
    Workstation.directoryName v142 fresh =
  (Returned (Some "C:\VS16\VC\Tools\MSVC\14.28.29333\bin\HostX64\x64"), Workstation.searched).
Proof.
  assert (Hin : (v142, "C:\VS16\VC\Tools\MSVC\14.28.29333") ∈ Workstation.found)
    by (apply list_elem_of_further, list_elem_of_here).
  assert (Hne : v142 <> v140) by discriminate.
  destruct (GetVCToolPath64_of_registered_msvc Workstation.files Workstation.directories
              Workstation.subdirectories combine Workstation.fileName
              Workstation.parseVersion Workstation.instances Workstation.directoryName
              fresh Workstation.searched Workstation.found v142
              "C:\VS16\VC\Tools\MSVC\14.28.29333"
              (fun dir => Workstation_ignores_case "HostX64" "Hostx64" dir eq_refl)
              (fun dir => Workstation_ignores_case "HostX86" "Hostx86" dir eq_refl)
              eq_refl Workstation_search Hin Hne) as (_ & Hcall).
  rewrite Hcall. vm_compute. reflexivity.
Defined.

(** Witness: the workstation has no 14.1x toolset. *)
Lemma GetVCToolPath_of_unregistered_toolset_witness :
  GetVCToolPath32 Workstation.files Workstation.directories Workstation.subdirectories combine
    Workstation.fileName Workstation.parseVersion Workstation.instances
    Workstation.directoryName v141 fresh =
  (Thrown (KeyNotFoundException v141), Workstation.searched)
  /\ GetVCToolPath64 Workstation.files Workstation.directories Workstation.subdirectories
       combine Workstation.fileName Workstation.parseVersion Workstation.instances
       Workstation.directoryName Latest fresh =
     (Thrown (KeyNotFoundException Latest), Workstation.searched).
Proof.
  destruct (GetVCToolPath_of_unregistered_toolset Workstation.files Workstation.directories
              Workstation.subdirectories combine Workstation.fileName
              Workstation.parseVersion Workstation.instances Workstation.directoryName
              fresh Workstation.searched Workstation.found eq_refl Workstation_search)
    as (Hmissing & _ & Hlatest & _).
  assert (H141 : v141 ∉ Workstation.found.*1).
  { cbn. intros Hin.
    repeat (apply elem_of_cons in Hin as [Hin|Hin]; [discriminate Hin|]). inversion Hin. }
  split; [exact (proj1 (Hmissing v141 H141))|exact (proj2 (Hmissing Latest Hlatest))].
Defined.

(** Witness: both roots of the machine hold 10.0.19041.0; the second Add
    throws, and the dictionary with the first root is what later calls
    return. *)
Lemma GetSDKs_failure_is_cached_witness :
  fst (GetSDKs TwoKits.registry TwoKits.files TwoKits.directories TwoKits.subdirectories
         combine TwoKits.fileName parseVersion fresh) = Thrown ArgumentException
  /\ exists d,
       _sdks (snd (GetSDKs TwoKits.registry TwoKits.files TwoKits.directories
                     TwoKits.subdirectories combine TwoKits.fileName parseVersion fresh))
       = Some d
       /\ d = [(v10_0_19041_0, "C:\Kits\10")].
Proof.
  remember (snd (GetSDKs TwoKits.registry TwoKits.files TwoKits.directories
                   TwoKits.subdirectories combine TwoKits.fileName parseVersion fresh))
    as failed eqn:Hfailed.
  assert (Hrun : GetSDKs TwoKits.registry TwoKits.files TwoKits.directories
                   TwoKits.subdirectories combine TwoKits.fileName parseVersion fresh =
                 (Thrown ArgumentException, failed)).
  { rewrite Hfailed. vm_compute. reflexivity. }
  destruct (GetSDKs_failure_is_cached TwoKits.registry TwoKits.files TwoKits.directories
              TwoKits.subdirectories combine TwoKits.fileName parseVersion fresh failed
              ArgumentException eq_refl Hrun) as (d & Hd & _).
  rewrite Hrun. split; [reflexivity|]. exists d. split; [exact Hd|].
  rewrite Hfailed in Hd. vm_compute in Hd. congruence.
Defined.

(** Witness: the kit of the machine with one kit. *)
Lemma GetSDKVersion_of_registered_sdk_witness :
  exists version,
    GetSDKVersion v10_0_19041_0 fresh = (Returned version, fresh)
    /\ exists includeDir,
         includeDir ∈ subdirectories (combine "C:\Kits\10" "Include")
         /\ parseVersion (fileName includeDir) = Some version.
Proof.
  assert (Hrun : GetSDKs registry files directories subdirectories combine fileName
                   parseVersion fresh =
                 (Returned [(v10_0_19041_0, "C:\Kits\10")],
                  snd (GetSDKs registry files directories subdirectories combine fileName
                         parseVersion fresh)))
    by (vm_compute; reflexivity).
  destruct (GetSDKVersion_of_registered_sdk registry files directories subdirectories
              combine fileName parseVersion fresh _ _ v10_0_19041_0 "C:\Kits\10" eq_refl
              Hrun (list_elem_of_here _ _)) as (_ & version & Hversion & Hdir).
  exists version. split; [apply Hversion|]. apply Hdir. discriminate.
Defined.

(** Witness: Windows 8.1 has the version 8.1 and no other SDK has. *)
Lemma GetSDKVersion_injective_witness :
  v8_1 = v8_1 /\ v8_1 <> SDK_Latest
  /\ GetSDKVersion SDK_Latest fresh = (Thrown (ArgumentOutOfRangeException "sdk"), fresh).
Proof.
  exact (GetSDKVersion_injective v8_1 v8_1 fresh fresh (Version2 8 1) (Version2 8 1)
           eq_refl eq_refl eq_refl).
Defined.

End WindowsPlatformBase.

(* ===================================================================== *)
(** * Flax.Build: Platform.GetToolchain                                   *)
(* ===================================================================== *)

Module Platform.
Import DotNet.

Section Platform.

(** [TargetPlatform], [TargetArchitecture] and [Toolchain] are declared
    outside the embedded sources; a [Toolchain] value is a reference to an
    instance.  [World] is whatever state [CreateToolchain] works on. *)
Context {TargetPlatform TargetArchitecture Toolchain World CreateError : Type}.
Context `{EqDecision TargetArchitecture}.

Inductive Exception :=
  | NoRequiredSDK (target : TargetPlatform)
      (* "Platform {0} has no required SDK installed and cannot be used." *)
  | CreateToolchainFailed (e : CreateError)
  | ArgumentException.

(** The abstract members of the class. *)
Variable Target : TargetPlatform.
Variable HasRequiredSDKsInstalled : bool.
Variable CreateToolchain :
  TargetArchitecture -> World -> Outcome CreateError Toolchain * World.

(** The field [_toolchains] of the platform object, and the world. *)
Definition State : Type := option (list (TargetArchitecture * Toolchain)) * World.

Definition GetToolchain (targetArchitecture : TargetArchitecture) (st : State)
  : Outcome Exception Toolchain * State :=
  if negb HasRequiredSDKsInstalled then (Thrown (NoRequiredSDK Target), st) else
  let world := snd st in
  let _toolchains := match fst st with None => [] | Some d => d end in
  let key := targetArchitecture in
  match Dictionary.TryGetValue _toolchains key with
  | Some toolchain => (Returned toolchain, (Some _toolchains, world))
  | None =>
      match CreateToolchain targetArchitecture world with
      | (Returned toolchain, world') =>
          match Dictionary.Add _toolchains key toolchain with
          | Some d => (Returned toolchain, (Some d, world'))
          | None => (Thrown ArgumentException, (Some _toolchains, world'))
          end
      | (Thrown e, world') => (Thrown (CreateToolchainFailed e), (Some _toolchains, world'))
      end
  end.

End Platform.

Section Properties.

Context {TargetPlatform TargetArchitecture Toolchain World CreateError : Type}.
Context `{EqDecision TargetArchitecture}.
Variable Target : TargetPlatform.
Variable CreateToolchain :
  TargetArchitecture -> World -> Outcome CreateError Toolchain * World.

Lemma TryGetValue_added (d : list (TargetArchitecture * Toolchain)) key toolchain :
  Dictionary.TryGetValue d key = None ->
  Dictionary.TryGetValue (d ++ [(key, toolchain)]) key = Some toolchain.
Proof.
  unfold Dictionary.TryGetValue.
  induction d as [|e d IH]; cbn [app List.find fst].
  - intros _. rewrite bool_decide_eq_true_2 by reflexivity. reflexivity.
  - destruct (bool_decide (e.1 = key)); [discriminate|]. exact IH.
Qed.

(** Without the required SDKs the call throws and leaves everything as it
    was. *)
Lemma GetToolchain_without_SDKs arch (st : State) :
  GetToolchain Target false CreateToolchain arch st =
  (Thrown (NoRequiredSDK Target), st).
Proof. reflexivity. Qed.

(** With them, it hands out the cached toolchain of the architecture or
    creates, caches and hands out a new one; exceptions are those of
    CreateToolchain. *)
Lemma GetToolchain_with_SDKs arch cache world :
  GetToolchain Target true CreateToolchain arch (cache, world) =
  match Dictionary.TryGetValue (default [] cache) arch with
  | Some toolchain => (Returned toolchain, (Some (default [] cache), world))
  | None =>
      match CreateToolchain arch world with
      | (Returned toolchain, world') =>
          (Returned toolchain, (Some (default [] cache ++ [(arch, toolchain)]), world'))
      | (Thrown e, world') =>
          (Thrown (CreateToolchainFailed e), (Some (default [] cache), world'))
      end
  end.
Proof.
  unfold GetToolchain. cbn [negb fst snd].
  change (match cache with None => [] | Some d => d end) with (default [] cache).
  destruct (Dictionary.TryGetValue (default [] cache) arch) eqn:Hget; [reflexivity|].
  destruct (CreateToolchain arch world) as [[toolchain|e] world']; [|reflexivity].
  unfold Dictionary.Add. rewrite Hget. reflexivity.
Qed.

Lemma GetToolchain_again arch (st st' : State) toolchain :
  GetToolchain Target true CreateToolchain arch st = (Returned toolchain, st') ->
  GetToolchain Target true CreateToolchain arch st' = (Returned toolchain, st').
Proof.
  destruct st as [cache world]. rewrite GetToolchain_with_SDKs.
  destruct (Dictionary.TryGetValue (default [] cache) arch) as [t|] eqn:Hget.
  - intros [= <- <-]. rewrite GetToolchain_with_SDKs.
    change (default [] (Some (default [] cache))) with (default [] cache).
    rewrite Hget. reflexivity.
  - destruct (CreateToolchain arch world) as [[t|e] world']; [|discriminate].
    intros [= <- <-]. rewrite GetToolchain_with_SDKs.
    change (default [] (Some (default [] cache ++ [(arch, t)])))
      with (default [] cache ++ [(arch, t)]).
    rewrite (TryGetValue_added _ _ _ Hget). reflexivity.
Qed.

End Properties.

(** C6.  Platform.GetToolchain throws (and changes nothing) when
    HasRequiredSDKsInstalled is false.  When it is true the call returns
    the toolchain cached for the architecture, or else the one
    CreateToolchain returns, which it caches; only an exception of
    CreateToolchain can leave it.  After a call that returned, a call with
    the same architecture returns the identical instance and creates
    nothing.  For WindowsPlatformBase the flag is what the constructor
    computes: true exactly when GetSDKs and GetToolsets each returned a
    dictionary that is not empty. *)
Theorem C6_GetToolchain_requires_SDKs_and_caches
    (TargetPlatform TargetArchitecture Toolchain World CreateError : Type)
    (eq_dec : EqDecision TargetArchitecture) (Target : TargetPlatform)
    (CreateToolchain : TargetArchitecture -> World -> Outcome CreateError Toolchain * World) :
  (forall arch st,
      GetToolchain Target false CreateToolchain arch st = (Thrown (NoRequiredSDK Target), st))
  /\ (forall arch cache world,
        GetToolchain Target true CreateToolchain arch (cache, world) =
        match Dictionary.TryGetValue (default [] cache) arch with
        | Some toolchain => (Returned toolchain, (Some (default [] cache), world))
        | None =>
            match CreateToolchain arch world with
            | (Returned toolchain, world') =>
                (Returned toolchain, (Some (default [] cache ++ [(arch, toolchain)]), world'))
            | (Thrown e, world') =>
                (Thrown (CreateToolchainFailed e), (Some (default [] cache), world'))
            end
        end)
  /\ (forall arch st st' toolchain,
        GetToolchain Target true CreateToolchain arch st = (Returned toolchain, st') ->
        GetToolchain Target true CreateToolchain arch st' = (Returned toolchain, st'))
  /\ (forall Registry_GetValue File_Exists Directory_Exists Directory_GetDirectories
             Path_Combine Path_GetFileName Version_TryParse VisualStudioInstance_GetInstances
             st st' flag,
        WindowsPlatformBase.WindowsPlatformBase_ctor Registry_GetValue File_Exists
          Directory_Exists Directory_GetDirectories Path_Combine Path_GetFileName
          Version_TryParse VisualStudioInstance_GetInstances st = (Returned flag, st') ->
        exists sdks toolsets,
          WindowsPlatformBase._sdks st' = Some sdks
          /\ WindowsPlatformBase._toolsets st' = Some toolsets
          /\ (flag = true <-> sdks <> [] /\ toolsets <> [])).
Proof.
  split; [|split; [|split]].
  - intros arch st. apply GetToolchain_without_SDKs.
  - intros arch cache world. apply GetToolchain_with_SDKs.
  - intros arch st st' toolchain. apply GetToolchain_again.
  - intros ? ? ? ? ? ? ? ? st st' flag.
    apply WindowsPlatformBase.WindowsPlatformBase_ctor_flag.
Qed.

End Platform.

(* ===================================================================== *)
(** * TextureTool.Build.cs: TextureTool.Setup                             *)
(* ===================================================================== *)

Module TextureTool.
Import DotNet.

(** The platforms the build rules name; [OtherPlatform] is any further
    value of the enumeration. *)
Inductive TargetPlatform :=
  | Windows | UWP | XboxOne | XboxScarlett
  | Linux | PS4 | Android
  | OtherPlatform (value : Z).

(** [BuildOptions], as far as the rules touch it: the paths, files and
    dependencies are [List<string>], the definitions a [HashSet<string>]. *)
Record BuildOptions := mkBuildOptions {
  Platform_Target : TargetPlatform;
  SourcePaths : list string;
  SourceFiles : list string;
  PrivateDependencies : list string;
  PublicDefinitions : gset string
}.

Inductive Exception (BaseError : Type) :=
  | InvalidPlatformException (platform : TargetPlatform)
  | BaseSetupFailed (e : BaseError).
Arguments InvalidPlatformException {BaseError} platform.
Arguments BaseSetupFailed {BaseError} e.

Section Setup.

(** [EngineModule.Setup], [Module.FolderPath] and [Path.Combine] are not
    part of the embedded sources. *)
Variable BaseError : Type.
Variable EngineModule_Setup : BuildOptions -> Outcome BaseError unit * BuildOptions.
Variable FolderPath : string.
Variable Path_Combine : string -> string -> string.

Definition SourcePaths_Clear (o : BuildOptions) : BuildOptions :=
  mkBuildOptions (Platform_Target o) [] (SourceFiles o) (PrivateDependencies o)
    (PublicDefinitions o).
Definition SourceFiles_Add (s : string) (o : BuildOptions) : BuildOptions :=
  mkBuildOptions (Platform_Target o) (SourcePaths o) (SourceFiles o ++ [s])
    (PrivateDependencies o) (PublicDefinitions o).
Definition PrivateDependencies_Add (s : string) (o : BuildOptions) : BuildOptions :=
  mkBuildOptions (Platform_Target o) (SourcePaths o) (SourceFiles o)
    (PrivateDependencies o ++ [s]) (PublicDefinitions o).
Definition PublicDefinitions_Add (s : string) (o : BuildOptions) : BuildOptions :=
  mkBuildOptions (Platform_Target o) (SourcePaths o) (SourceFiles o)
    (PrivateDependencies o) ({[ s ]} ∪ PublicDefinitions o).

(** The [switch] over the target: the two flags, or the exception of the
    [default] label. *)
Definition codecOf (target : TargetPlatform) : option (bool * bool) :=
  match target with
  | Windows | UWP | XboxOne | XboxScarlett => Some (true, false)
  | Linux | PS4 | Android => Some (false, true)
  | OtherPlatform _ => None
  end.

(** [Setup]: how the call ends and the options object as it leaves it. *)
Definition Setup (options : BuildOptions)
  : Outcome (Exception BaseError) unit * BuildOptions :=
  match EngineModule_Setup options with
  | (Thrown e, options) => (Thrown (BaseSetupFailed e), options)
  | (Returned _, options) =>
      let options := SourcePaths_Clear options in
      let options := SourceFiles_Add (Path_Combine FolderPath "TextureTool.cpp") options in
      let options := SourceFiles_Add (Path_Combine FolderPath "TextureTool.h") options in
      match codecOf (Platform_Target options) with
      | None => (Thrown (InvalidPlatformException (Platform_Target options)), options)
      | Some (useDirectXTex, useStb) =>
          let options :=
            if useDirectXTex then
              SourceFiles_Add (Path_Combine FolderPath "TextureTool.DirectXTex.cpp")
                (PrivateDependencies_Add "DirectXTex" options)
            else options in
          let options :=
            if useStb then
              SourceFiles_Add (Path_Combine FolderPath "TextureTool.stb.cpp")
                (PrivateDependencies_Add "stb" options)
            else options in
          (Returned tt, PublicDefinitions_Add "COMPILE_WITH_TEXTURE_TOOL" options)
      end
  end.

(** [GetFilesToDeploy]: the list as the call leaves it. *)
Definition GetFilesToDeploy (files : list string) : list string :=
  files ++ [Path_Combine FolderPath "TextureTool.h"].

(** ** The rule as the specification words it *)

Inductive Codec := DirectXTex | stb.

Definition codecName (c : Codec) : string :=
  match c with DirectXTex => "DirectXTex" | stb => "stb" end.

Definition codecSource (c : Codec) : string :=
  match c with DirectXTex => "TextureTool.DirectXTex.cpp" | stb => "TextureTool.stb.cpp" end.

Definition codecFor (target : TargetPlatform) : option Codec :=
  match target with
  | Windows | UWP | XboxOne | XboxScarlett => Some DirectXTex
  | Linux | PS4 | Android => Some stb
  | OtherPlatform _ => None
  end.

(* --------------------------------------------------------------------- *)
(** ** Properties                                                         *)
(* --------------------------------------------------------------------- *)

(** The rules do not change the target of the options they work on. *)
Lemma Setup_after_base (options base : BuildOptions) :
  EngineModule_Setup options = (Returned tt, base) ->
  Setup options =
  match codecFor (Platform_Target base) with
  | Some codec =>
      (Returned tt,
       mkBuildOptions (Platform_Target base) []
         (SourceFiles base ++ [Path_Combine FolderPath "TextureTool.cpp";
                               Path_Combine FolderPath "TextureTool.h";
                               Path_Combine FolderPath (codecSource codec)])
         (PrivateDependencies base ++ [codecName codec])
         ({[ "COMPILE_WITH_TEXTURE_TOOL" ]} ∪ PublicDefinitions base))
  | None =>
      (Thrown (InvalidPlatformException (Platform_Target base)),
       mkBuildOptions (Platform_Target base) []
         (SourceFiles base ++ [Path_Combine FolderPath "TextureTool.cpp";
                               Path_Combine FolderPath "TextureTool.h"])
         (PrivateDependencies base) (PublicDefinitions base))
  end.
Proof.
  intros Hbase. unfold Setup. rewrite Hbase.
  unfold SourcePaths_Clear, SourceFiles_Add, PrivateDependencies_Add, PublicDefinitions_Add.
  cbn [Platform_Target SourcePaths SourceFiles PrivateDependencies PublicDefinitions].
  destruct (Platform_Target base); cbn [codecOf codecFor codecName codecSource];
    cbn [Platform_Target SourcePaths SourceFiles PrivateDependencies PublicDefinitions];
    rewrite <- ?app_assoc; reflexivity.
Qed.

(** C7.  After base.Setup returned, TextureTool.Setup adds exactly one
    codec to the private dependencies, with its source file: DirectXTex and
    TextureTool.DirectXTex.cpp on Windows, UWP, XboxOne and XboxScarlett,
    stb and TextureTool.stb.cpp on Linux, PS4 and Android.  For any other
    platform it throws InvalidPlatformException for that platform, and the
    private dependencies are then the ones base.Setup left: nothing was
    added to them. *)
Theorem C7_texture_codec_by_platform (options base : BuildOptions) :
  EngineModule_Setup options = (Returned tt, base) ->
  let target := Platform_Target base in
  let after := snd (Setup options) in
  (target ∈ [Windows; UWP; XboxOne; XboxScarlett] ->
     fst (Setup options) = Returned tt
     /\ PrivateDependencies after = PrivateDependencies base ++ ["DirectXTex"]
     /\ SourceFiles after =
        SourceFiles base ++ [Path_Combine FolderPath "TextureTool.cpp";
                             Path_Combine FolderPath "TextureTool.h";
                             Path_Combine FolderPath "TextureTool.DirectXTex.cpp"])
  /\ (target ∈ [Linux; PS4; Android] ->
       fst (Setup options) = Returned tt
       /\ PrivateDependencies after = PrivateDependencies base ++ ["stb"]
       /\ SourceFiles after =
          SourceFiles base ++ [Path_Combine FolderPath "TextureTool.cpp";
                               Path_Combine FolderPath "TextureTool.h";
                               Path_Combine FolderPath "TextureTool.stb.cpp"])
  /\ (target ∉ [Windows; UWP; XboxOne; XboxScarlett; Linux; PS4; Android] ->
       fst (Setup options) = Thrown (InvalidPlatformException target)
       /\ PrivateDependencies after = PrivateDependencies base).
Proof.
  intros Hbase target after. subst after.
  rewrite (Setup_after_base options base Hbase). fold target.
  split; [|split]; intros Hin.
  - assert (Hc : codecFor target = Some DirectXTex).
    { repeat (apply elem_of_cons in Hin as [->|Hin]; [reflexivity|]). inversion Hin. }
    rewrite Hc. repeat split.
  - assert (Hc : codecFor target = Some stb).
    { repeat (apply elem_of_cons in Hin as [->|Hin]; [reflexivity|]). inversion Hin. }
    rewrite Hc. repeat split.
  - assert (Hc : codecFor target = None).
    { destruct target; try reflexivity; exfalso; apply Hin;
        repeat (first [apply list_elem_of_here | apply list_elem_of_further]). }
    rewrite Hc. repeat split.
Qed.

(** The define marks success.  When Setup returns, the public definitions
    are those base.Setup left together with COMPILE_WITH_TEXTURE_TOOL; when
    it throws, the public definitions and the private dependencies are the
    ones base.Setup left, so a define that base.Setup did not set is there
    afterwards exactly when Setup returned.  If base.Setup throws, Setup
    throws the same error and leaves the options as base.Setup left them.  If
    base.Setup returns, then also when Setup throws for the platform the
    source paths have been emptied, the source files of base.Setup come first
    in the list, and every file GetFilesToDeploy adds to a list is one of the
    source files. *)
Theorem Setup_define_marks_success (options : BuildOptions) :
  let base := snd (EngineModule_Setup options) in
  let after := snd (Setup options) in
  (fst (Setup options) = Returned tt ->
   PublicDefinitions after = {[ "COMPILE_WITH_TEXTURE_TOOL" ]} ∪ PublicDefinitions base)
  /\ (fst (Setup options) <> Returned tt ->
      PublicDefinitions after = PublicDefinitions base
      /\ PrivateDependencies after = PrivateDependencies base)
  /\ ("COMPILE_WITH_TEXTURE_TOOL" ∉ PublicDefinitions base ->
      (fst (Setup options) = Returned tt <->
       "COMPILE_WITH_TEXTURE_TOOL" ∈ PublicDefinitions after))
  /\ (forall e, fst (EngineModule_Setup options) = Thrown e ->
      Setup options = (Thrown (BaseSetupFailed e), base))
  /\ (fst (EngineModule_Setup options) = Returned tt ->
      SourcePaths after = []
      /\ (exists added, SourceFiles after = SourceFiles base ++ added)
      /\ forall files file,
           file ∈ GetFilesToDeploy files -> file ∈ files \/ file ∈ SourceFiles after).
Proof.
  intros base after. subst base after.
  destruct (EngineModule_Setup options) as [[[]|e] base] eqn:Hbase; cbn [fst snd].
  - rewrite (Setup_after_base options base Hbase).
    destruct (codecFor (Platform_Target base)) as [codec|];
      cbn [fst snd PublicDefinitions PrivateDependencies SourcePaths SourceFiles].
    + split; [reflexivity|]. split; [intros Hne; contradiction|].
      split; [intros _; split; [intros _; set_solver|reflexivity]|].
      split; [discriminate|]. intros _. split; [reflexivity|].
      split; [eexists; reflexivity|].
      intros files file Hin. unfold GetFilesToDeploy in Hin.
      apply elem_of_app in Hin as [Hin|Hin]; [left; exact Hin|right].
      apply list_elem_of_singleton in Hin as ->.
      apply elem_of_app. right. apply list_elem_of_further, list_elem_of_here.
    + split; [discriminate|].
      split; [intros _; split; reflexivity|].
      split; [intros Hfresh; split; [discriminate|intros Hin; contradiction]|].
      split; [discriminate|]. intros _. split; [reflexivity|].
      split; [eexists; reflexivity|].
      intros files file Hin. unfold GetFilesToDeploy in Hin.
      apply elem_of_app in Hin as [Hin|Hin]; [left; exact Hin|right].
      apply list_elem_of_singleton in Hin as ->.
      apply elem_of_app. right. apply list_elem_of_further, list_elem_of_here.
  - unfold Setup. rewrite Hbase. cbn [fst snd].
    split; [discriminate|].
    split; [intros _; split; reflexivity|].
    split; [intros Hfresh; split; [discriminate|intros Hin; contradiction]|].
    split; [intros e' He'; injection He' as <-; reflexivity|]. discriminate.
Qed.

End Setup.

(** ** Build options of an engine module *)
Module Example.

Definition baseSetup (o : BuildOptions) : Outcome Empty_set unit * BuildOptions :=
  (Returned tt,
   mkBuildOptions (Platform_Target o) (SourcePaths o ++ ["Source\Engine\Tools\TextureTool"])
     (SourceFiles o) (PrivateDependencies o ++ ["Core"]) (PublicDefinitions o)).

Definition combine (a b : string) : string := a +:+ "\" +:+ b.

Definition optionsFor (target : TargetPlatform) : BuildOptions :=
  mkBuildOptions target [] [] [] ∅.

End Example.

Import Example.

(** C7, witness: the rules on Linux and on a platform without codec. *)
Lemma C7_witness_linux_and_unknown :
  baseSetup (optionsFor Linux) =
    (Returned tt, mkBuildOptions Linux ["Source\Engine\Tools\TextureTool"] [] ["Core"] ∅)
  /\ PrivateDependencies
       (snd (Setup Empty_set baseSetup "Source\Engine\Tools\TextureTool" combine
               (optionsFor Linux))) = ["Core"; "stb"]
  /\ fst (Setup Empty_set baseSetup "Source\Engine\Tools\TextureTool" combine
            (optionsFor (OtherPlatform 8))) = Thrown (InvalidPlatformException (OtherPlatform 8))
  /\ PrivateDependencies
       (snd (Setup Empty_set baseSetup "Source\Engine\Tools\TextureTool" combine
               (optionsFor (OtherPlatform 8)))) = ["Core"].
Proof.
  assert (Hl : baseSetup (optionsFor Linux) =
               (Returned tt,
                mkBuildOptions Linux ["Source\Engine\Tools\TextureTool"] [] ["Core"] ∅))
    by reflexivity.
  assert (Ho : baseSetup (optionsFor (OtherPlatform 8)) =
               (Returned tt,
                mkBuildOptions (OtherPlatform 8) ["Source\Engine\Tools\TextureTool"] []
                  ["Core"] ∅))
    by reflexivity.
  pose proof (C7_texture_codec_by_platform Empty_set baseSetup
                "Source\Engine\Tools\TextureTool" combine _ _ Hl) as TL.
  pose proof (C7_texture_codec_by_platform Empty_set baseSetup
                "Source\Engine\Tools\TextureTool" combine _ _ Ho) as TO.
  cbv zeta in TL, TO.
  destruct TL as (_ & TL & _). destruct TO as (_ & _ & TO).
  split; [exact Hl|].
  split.
  - apply TL. cbn. apply list_elem_of_here.
  - apply TO. cbn. intros Hin.
    repeat (apply elem_of_cons in Hin as [Hin|Hin]; [discriminate|]). inversion Hin.
Defined.

End TextureTool.

(* ===================================================================== *)
(** * Flax.Build: the static members of Platform                          *)
(* ===================================================================== *)

Module PlatformStatics.
Import DotNet TextureTool.

#[global] Instance TargetPlatform_eq_dec : EqDecision TargetPlatform.
Proof. solve_decision. Defined.

(** [System.PlatformID]; [OtherPlatformID] is any further value. *)
Inductive PlatformID :=
  | Win32S | Win32Windows | Win32NT | WinCE | Unix | Xbox | MacOSX
  | OtherPlatformID (value : Z).

(** The architectures the build rules name; [OtherArchitecture] is any
    further value of the enumeration. *)
Inductive TargetArchitecture :=
  | AnyCPU | x86 | x64 | ARM64
  | OtherArchitecture (value : Z).

Inductive Exception (CreateError : Type) :=
  | NotImplementedException (platformId : PlatformID)
      (* "Unsupported build platform {0}." *)
  | PlatformNotSupported (targetPlatform : TargetPlatform)
      (* "Platform {0} is not supported." *)
  | CreatePlatformsFailed (e : CreateError).
Arguments NotImplementedException {CreateError} platformId.
Arguments PlatformNotSupported {CreateError} targetPlatform.
Arguments CreatePlatformsFailed {CreateError} e.

Section Statics.

(** A [Platform] value is a reference to a platform object and [Target]
    its abstract property.  [CreatePlatforms] stands for the reflection
    that makes one instance of every concrete platform class; [World] is
    whatever those constructors work on.  [OSVersion_Platform] is
    [Environment.OSVersion.Platform]. *)
Variable Platform : Type.
Variable Target : Platform -> TargetPlatform.
Variable World CreateError : Type.
Variable CreatePlatforms : World -> Outcome CreateError (list Platform) * World.
Variable OSVersion_Platform : PlatformID.

(** The static fields of the class, and the world. *)
Record Statics := mkStatics {
  _buildPlatform : option Platform;
  _platforms : option (list Platform);
  world : World
}.

Definition BuildTargetPlatform (st : Statics) : Outcome (Exception CreateError) TargetPlatform :=
  match _buildPlatform st with
  | None =>
      match OSVersion_Platform with
      | Win32NT | Win32S | Win32Windows | WinCE => Returned Windows
      | Unix => Returned Linux
      | platformId => Thrown (NotImplementedException platformId)
      end
  | Some buildPlatform => Returned (Target buildPlatform)
  end.

(** [foreach (var platform in _platforms)] with its [return]. *)
Fixpoint GetPlatform_foreach (platforms : list Platform) (targetPlatform : TargetPlatform)
  : option Platform :=
  match platforms with
  | [] => None
  | platform :: platforms' =>
      if bool_decide (Target platform = targetPlatform) then Some platform
      else GetPlatform_foreach platforms' targetPlatform
  end.

(** [GetPlatform]; the result [None] is the null reference. *)
Definition GetPlatform (targetPlatform : TargetPlatform) (nullIfMissing : bool) (st : Statics)
  : Outcome (Exception CreateError) (option Platform) * Statics :=
  let created :=
    match _platforms st with
    | Some platforms => (Returned platforms, st)
    | None =>
        match CreatePlatforms (world st) with
        | (Returned platforms, world') =>
            (Returned platforms, mkStatics (_buildPlatform st) (Some platforms) world')
        | (Thrown e, world') =>
            (Thrown (CreatePlatformsFailed e), mkStatics (_buildPlatform st) None world')
        end
    end in
  match created with
  | (Thrown e, st) => (Thrown e, st)
  | (Returned platforms, st) =>
      match GetPlatform_foreach platforms targetPlatform with
      | Some platform => (Returned (Some platform), st)
      | None =>
          if nullIfMissing then (Returned None, st)
          else (Thrown (PlatformNotSupported targetPlatform), st)
      end
  end.

Definition BuildPlatform (st : Statics)
  : Outcome (Exception CreateError) (option Platform) * Statics :=
  match _buildPlatform st with
  | Some buildPlatform => (Returned (Some buildPlatform), st)
  | None =>
      match BuildTargetPlatform st with
      | Thrown e => (Thrown e, st)
      | Returned target =>
          match GetPlatform target false st with
          | (Thrown e, st) => (Thrown e, st)
          | (Returned platform, st) =>
              (Returned platform, mkStatics platform (_platforms st) (world st))
          end
      end
  end.

End Statics.

Definition IsPlatformSupported (targetPlatform : TargetPlatform)
    (targetArchitecture : TargetArchitecture) : bool :=
  match targetArchitecture with
  | AnyCPU => true
  | _ =>
      match targetPlatform with
      | Windows =>
          match targetArchitecture with x64 | x86 => true | _ => false end
      | XboxScarlett | XboxOne | UWP | Linux | PS4 =>
          match targetArchitecture with x64 => true | _ => false end
      | Android =>
          match targetArchitecture with ARM64 => true | _ => false end
      | OtherPlatform _ => false
      end
  end.

(* --------------------------------------------------------------------- *)
(** ** Properties                                                         *)
(* --------------------------------------------------------------------- *)

Section Properties.

Variable Platform : Type.
Variable Target : Platform -> TargetPlatform.
Variable World CreateError : Type.
Variable CreatePlatforms : World -> Outcome CreateError (list Platform) * World.
Variable OSVersion_Platform : PlatformID.

Lemma GetPlatform_foreach_Some (platforms : list Platform) (targetPlatform : TargetPlatform)
    (platform : Platform) :
  GetPlatform_foreach Platform Target platforms targetPlatform = Some platform ->
  Target platform = targetPlatform
  /\ exists before after,
       platforms = before ++ platform :: after
       /\ forall other, other ∈ before -> Target other <> targetPlatform.
Proof.
  induction platforms as [|first platforms IH]; cbn [GetPlatform_foreach]; [discriminate|].
  destruct (bool_decide_reflect (Target first = targetPlatform)) as [Hfirst|Hfirst].
  - intros [= <-]. split; [exact Hfirst|]. exists [], platforms. split; [reflexivity|].
    intros other Hin. inversion Hin.
  - intros Hrest. destruct (IH Hrest) as (Htarget & before & after & -> & Hbefore).
    split; [exact Htarget|]. exists (first :: before), after. split; [reflexivity|].
    intros other Hin. apply elem_of_cons in Hin as [->|Hin]; [exact Hfirst|auto].
Qed.

Lemma GetPlatform_foreach_None (platforms : list Platform) (targetPlatform : TargetPlatform) :
  GetPlatform_foreach Platform Target platforms targetPlatform = None ->
  forall other, other ∈ platforms -> Target other <> targetPlatform.
Proof.
  induction platforms as [|first platforms IH]; cbn [GetPlatform_foreach].
  - intros _ other Hin. inversion Hin.
  - destruct (bool_decide_reflect (Target first = targetPlatform)) as [Hfirst|Hfirst];
      [discriminate|].
    intros Hrest other Hin. apply elem_of_cons in Hin as [->|Hin]; [exact Hfirst|].
    exact (IH Hrest other Hin).
Qed.

(** The platforms a call of GetPlatform works with: the cached ones, or the
    ones it creates and caches. *)
Lemma GetPlatform_platforms (targetPlatform : TargetPlatform) (nullIfMissing : bool)
    (st st' : Statics Platform World) (result : option Platform) :
  GetPlatform Platform Target World CreateError CreatePlatforms targetPlatform nullIfMissing st
    = (Returned result, st') ->
  exists platforms,
    _platforms Platform World st' = Some platforms
    /\ _buildPlatform Platform World st' = _buildPlatform Platform World st
    /\ (forall cached, _platforms Platform World st = Some cached -> st' = st)
    /\ (_platforms Platform World st = None ->
        CreatePlatforms (world Platform World st) =
          (Returned platforms, world Platform World st'))
    /\ GetPlatform_foreach Platform Target platforms targetPlatform = result
    /\ (result = None -> nullIfMissing = true).
Proof.
  unfold GetPlatform.
  destruct (_platforms Platform World st) as [cached|] eqn:Hcache.
  - destruct (GetPlatform_foreach Platform Target cached targetPlatform) as [platform|] eqn:Hfind.
    + intros [= <- <-]. exists cached. repeat split; auto; discriminate.
    + destruct nullIfMissing; [|discriminate]. intros [= <- <-]. exists cached.
      repeat split; auto; discriminate.
  - destruct (CreatePlatforms (world Platform World st)) as [[platforms|e] world'];
      [|discriminate].
    destruct (GetPlatform_foreach Platform Target platforms targetPlatform)
      as [platform|] eqn:Hfind.
    + intros [= <- <-]. exists platforms. cbn. repeat split; auto; discriminate.
    + destruct nullIfMissing; [|discriminate]. intros [= <- <-]. exists platforms. cbn.
      repeat split; auto; discriminate.
Qed.

(** GetPlatform returns the first platform of the list whose Target is the
    one asked for, and never one with another target.  It returns null
    only when it was asked to and no platform has the target, and it throws
    "Platform ... is not supported" only when it was not asked to return
    null and no platform has the target.  The platforms are created once:
    with a filled cache the call changes nothing. *)
Theorem GetPlatform_returns_first_match (targetPlatform : TargetPlatform)
    (nullIfMissing : bool) (st : Statics Platform World) :
  let call := GetPlatform Platform Target World CreateError CreatePlatforms targetPlatform
                nullIfMissing st in
  (forall platform, fst call = Returned (Some platform) ->
     Target platform = targetPlatform
     /\ exists before after,
          _platforms Platform World (snd call) = Some (before ++ platform :: after)
          /\ forall other, other ∈ before -> Target other <> targetPlatform)
  /\ (fst call = Returned None ->
      nullIfMissing = true
      /\ exists platforms,
           _platforms Platform World (snd call) = Some platforms
           /\ forall other, other ∈ platforms -> Target other <> targetPlatform)
  /\ (forall other, fst call = Thrown (PlatformNotSupported other) ->
      other = targetPlatform /\ nullIfMissing = false
      /\ exists platforms,
           _platforms Platform World (snd call) = Some platforms
           /\ forall platform, platform ∈ platforms -> Target platform <> targetPlatform)
  /\ (forall cached, _platforms Platform World st = Some cached -> snd call = st).
Proof.
  intros call.
  split; [|split; [|split]].
  - intros platform Hcall. destruct call as [outcome st'] eqn:Hrun. cbn in Hcall. subst outcome.
    destruct (GetPlatform_platforms _ _ _ _ _ Hrun)
      as (platforms & Hcache & _ & _ & _ & Hfind & _).
    destruct (GetPlatform_foreach_Some _ _ _ Hfind) as (Htarget & before & after & -> & Hb).
    split; [exact Htarget|]. exists before, after. split; [exact Hcache|exact Hb].
  - intros Hcall. destruct call as [outcome st'] eqn:Hrun. cbn in Hcall. subst outcome.
    destruct (GetPlatform_platforms _ _ _ _ _ Hrun)
      as (platforms & Hcache & _ & _ & _ & Hfind & Hnull).
    split; [apply Hnull; reflexivity|]. exists platforms. split; [exact Hcache|].
    exact (GetPlatform_foreach_None _ _ Hfind).
  - intros other. subst call. unfold GetPlatform.
    destruct (_platforms Platform World st) as [cached|] eqn:Hcache.
    + destruct (GetPlatform_foreach Platform Target cached targetPlatform)
        as [platform|] eqn:Hfind; [discriminate|].
      destruct nullIfMissing; [discriminate|]. cbn. intros [= <-].
      repeat split. exists cached. split; [exact Hcache|].
      exact (GetPlatform_foreach_None _ _ Hfind).
    + destruct (CreatePlatforms (world Platform World st)) as [[platforms|e] world'];
        [|discriminate].
      destruct (GetPlatform_foreach Platform Target platforms targetPlatform)
        as [platform|] eqn:Hfind; [discriminate|].
      destruct nullIfMissing; [discriminate|]. cbn. intros [= <-].
      repeat split. exists platforms. split; [reflexivity|].
      exact (GetPlatform_foreach_None _ _ Hfind).
  - intros cached Hcache. subst call. unfold GetPlatform. rewrite Hcache.
    destruct (GetPlatform_foreach Platform Target cached targetPlatform); [reflexivity|].
    destruct nullIfMissing; reflexivity.
Qed.

(** BuildPlatform never returns null.  When it returns a platform,
    BuildTargetPlatform gives that platform's target, asked before the call
    or after it, and every later BuildPlatform returns the same platform
    and changes nothing. *)
Theorem BuildPlatform_agrees_with_BuildTargetPlatform (st st' : Statics Platform World)
    (result : option Platform) :
  BuildPlatform Platform Target World CreateError CreatePlatforms OSVersion_Platform st
    = (Returned result, st') ->
  exists platform,
    result = Some platform
    /\ BuildTargetPlatform Platform Target World CreateError OSVersion_Platform st
       = Returned (Target platform)
    /\ BuildTargetPlatform Platform Target World CreateError OSVersion_Platform st'
       = Returned (Target platform)
    /\ BuildPlatform Platform Target World CreateError CreatePlatforms OSVersion_Platform st'
       = (Returned (Some platform), st').
Proof.
  unfold BuildPlatform.
  destruct (_buildPlatform Platform World st) as [cached|] eqn:Hcache.
  - intros [= <- <-]. exists cached. unfold BuildTargetPlatform. rewrite Hcache. auto.
  - destruct (BuildTargetPlatform Platform Target World CreateError OSVersion_Platform st)
      as [target|e] eqn:Htarget; [|discriminate].
    destruct (GetPlatform _ _ _ _ _ target false st) as [[found|e] st1] eqn:Hget;
      [|discriminate].
    intros [= <- <-].
    destruct (GetPlatform_platforms _ _ _ _ _ Hget)
      as (platforms & _ & _ & _ & _ & Hfind & Hnull).
    destruct found as [platform|]; [|specialize (Hnull eq_refl); discriminate].
    destruct (GetPlatform_foreach_Some _ _ _ Hfind) as (Hplatform & _).
    exists platform. split; [reflexivity|]. split; [congruence|].
    unfold BuildTargetPlatform. cbn. auto.
Qed.

(** A platform supports a concrete architecture (one that is not AnyCPU)
    exactly when the texture tool has a codec for it, that is when
    TextureTool.Setup does not throw InvalidPlatformException: those are the
    seven named platforms.  AnyCPU is supported everywhere, x86 on Windows
    only, and ARM64 on Android only, which supports no x64. *)
Theorem IsPlatformSupported_matches_texture_codecs (targetPlatform : TargetPlatform) :
  ((exists targetArchitecture,
       targetArchitecture <> AnyCPU
       /\ IsPlatformSupported targetPlatform targetArchitecture = true)
   <-> codecOf targetPlatform <> None)
  /\ IsPlatformSupported targetPlatform AnyCPU = true
  /\ (IsPlatformSupported targetPlatform x86 = true <-> targetPlatform = Windows)
  /\ (IsPlatformSupported targetPlatform ARM64 = true <-> targetPlatform = Android)
  /\ (IsPlatformSupported targetPlatform x64 = true <->
      codecOf targetPlatform <> None /\ targetPlatform <> Android)
  /\ (forall value, IsPlatformSupported targetPlatform (OtherArchitecture value) = false).
Proof.
  split; [|split; [reflexivity|split; [|split; [|split]]]].
  - split.
    + intros (arch & Hany & Hsupported).
      destruct targetPlatform; cbn; try discriminate.
      destruct arch; cbn in Hsupported; congruence.
    + intros Hcodec. destruct targetPlatform; cbn in Hcodec; try congruence;
        first [exists x64; split; [discriminate|reflexivity]
              |exists ARM64; split; [discriminate|reflexivity]].
  - destruct targetPlatform; cbn; split; intros H; congruence.
  - destruct targetPlatform; cbn; split; intros H; congruence.
  - destruct targetPlatform; cbn; split; try (intros [H1 H2]); try intros H;
      try congruence; try (split; discriminate).
  - intros value. destruct targetPlatform; reflexivity.
Qed.

End Properties.

(** ** Two platforms on a Windows machine *)
Module Host.

Inductive PlatformObject := TheWindowsPlatform | TheLinuxPlatform.

Definition targetOf (platform : PlatformObject) : TargetPlatform :=
  match platform with TheWindowsPlatform => Windows | TheLinuxPlatform => Linux end.

Definition create (w : unit) : Outcome Empty_set (list PlatformObject) * unit :=
  (Returned [TheLinuxPlatform; TheWindowsPlatform], w).

Definition start : Statics PlatformObject unit := mkStatics PlatformObject unit None None tt.

End Host.

(** Witness: on Windows NT the build platform is the Windows platform. *)
Lemma BuildPlatform_agrees_with_BuildTargetPlatform_witness :
  BuildPlatform Host.PlatformObject Host.targetOf unit Empty_set Host.create Win32NT Host.start
    = (Returned (Some Host.TheWindowsPlatform),
       mkStatics Host.PlatformObject unit (Some Host.TheWindowsPlatform)
         (Some [Host.TheLinuxPlatform; Host.TheWindowsPlatform]) tt)
  /\ BuildTargetPlatform Host.PlatformObject Host.targetOf unit Empty_set Win32NT Host.start
     = Returned Windows.
Proof.
  assert (Hrun : BuildPlatform Host.PlatformObject Host.targetOf unit Empty_set Host.create
                   Win32NT Host.start
                 = (Returned (Some Host.TheWindowsPlatform),
                    mkStatics Host.PlatformObject unit (Some Host.TheWindowsPlatform)
                      (Some [Host.TheLinuxPlatform; Host.TheWindowsPlatform]) tt))
    by reflexivity.
  destruct (BuildPlatform_agrees_with_BuildTargetPlatform Host.PlatformObject Host.targetOf
              unit Empty_set Host.create Win32NT _ _ _ Hrun)
    as (platform & Hresult & Hbefore & _).
  injection Hresult as <-. split; [exact Hrun|exact Hbefore].
Defined.

End PlatformStatics.

(* ===================================================================== *)
(** * FlaxEditor: EditorCacheModule                                       *)
(* ===================================================================== *)

Module EditorCacheModule.
Import DotNet.

Inductive Exception :=
  | FileNotFoundException
  | EndOfStreamException
  | FormatException
  | IOException
  | ArgumentException          (* Dictionary.Add: the key is already there *)
  | ArgumentNullException.     (* BinaryWriter.Write((string)null) *)

(** ** System.IO.BinaryWriter and BinaryReader

    A file is its bytes, each a number below 256.  A .NET [string] is the
    sequence of its UTF-16 code units, each a number below 65536; nothing
    keeps a surrogate from standing alone.  The formats are the documented
    ones: [int] as four bytes, least significant first; a string as the
    count of its UTF-8 bytes, seven bits to a byte with the high bit set
    while more follow, and then those bytes.  The writer and the reader
    are made with the stream alone, so the encoding is the UTF-8 of
    [Encoding.UTF8], which puts U+FFFD where the input is not well formed.
    (An encoding made to throw there would end the write with an exception
    instead; on well-formed strings the two do the same.) *)

Definition to_int32 (z : Z) : Z :=
  let u := z mod 2 ^ 32 in if u <? 2 ^ 31 then u else u - 2 ^ 32.

Definition Write_Int32 (value : Z) : list Z :=
  let u := value mod 2 ^ 32 in
  [u mod 256; (u / 2 ^ 8) mod 256; (u / 2 ^ 16) mod 256; (u / 2 ^ 24) mod 256].

Definition ReadInt32 (input : list Z) : Outcome Exception (Z * list Z) :=
  match input with
  | b0 :: b1 :: b2 :: b3 :: rest =>
      Returned (to_int32 (b0 + b1 * 2 ^ 8 + b2 * 2 ^ 16 + b3 * 2 ^ 24), rest)
  | _ => Thrown EndOfStreamException
  end.

(** [Write7BitEncodedInt]: the loop runs at most five times on 32 bits. *)
Fixpoint Write7BitEncodedInt_loop (fuel : nat) (v : Z) : list Z :=
  match fuel with
  | O => []
  | S fuel' =>
      if 128 <=? v then (128 + v mod 128) :: Write7BitEncodedInt_loop fuel' (v / 128)
      else [v]
  end.

Definition Write7BitEncodedInt (value : Z) : list Z :=
  Write7BitEncodedInt_loop 5 (value mod 2 ^ 32).

(** [Read7BitEncodedInt]: a sixth byte is a FormatException. *)
Fixpoint Read7BitEncodedInt_loop (fuel : nat) (count shift : Z) (input : list Z)
  : Outcome Exception (Z * list Z) :=
  match fuel with
  | O => Thrown FormatException
  | S fuel' =>
      match input with
      | [] => Thrown EndOfStreamException
      | b :: input' =>
          let count := count + (b mod 128) * 2 ^ shift in
          if 128 <=? b then Read7BitEncodedInt_loop fuel' count (shift + 7) input'
          else Returned (to_int32 count, input')
      end
  end.

Definition Read7BitEncodedInt (input : list Z) : Outcome Exception (Z * list Z) :=
  Read7BitEncodedInt_loop 5 0 0 input.

(** A .NET [string]: its UTF-16 code units, each a number below 65536. *)
Definition Utf16 : Type := list Z.

Definition isHighSurrogate (c : Z) : bool := (0xD800 <=? c) && (c <=? 0xDBFF).
Definition isLowSurrogate (c : Z) : bool := (0xDC00 <=? c) && (c <=? 0xDFFF).

(** The Unicode scalar values of a string; a surrogate without its partner
    becomes U+FFFD (the replacement fallback of [Encoding.UTF8]). *)
Fixpoint scalarsOfUtf16 (s : Utf16) : list Z :=
  match s with
  | [] => []
  | c :: s' =>
      if isHighSurrogate c then
        match s' with
        | d :: s'' =>
            if isLowSurrogate d
            then (0x10000 + (c - 0xD800) * 0x400 + (d - 0xDC00)) :: scalarsOfUtf16 s''
            else 0xFFFD :: scalarsOfUtf16 s'
        | [] => [0xFFFD]
        end
      else if isLowSurrogate c then 0xFFFD :: scalarsOfUtf16 s'
      else c :: scalarsOfUtf16 s'
  end.

Definition encodeScalar (v : Z) : list Z :=
  if v <? 0x80 then [v]
  else if v <? 0x800 then [0xC0 + v / 0x40; 0x80 + v mod 0x40]
  else if v <? 0x10000 then
    [0xE0 + v / 0x1000; 0x80 + (v / 0x40) mod 0x40; 0x80 + v mod 0x40]
  else
    [0xF0 + v / 0x40000; 0x80 + (v / 0x1000) mod 0x40; 0x80 + (v / 0x40) mod 0x40;
     0x80 + v mod 0x40].

(** [Encoding.UTF8.GetBytes] *)
Definition UTF8_GetBytes (s : Utf16) : list Z := flat_map encodeScalar (scalarsOfUtf16 s).

Definition isContinuation (b : Z) : bool := (0x80 <=? b) && (b <=? 0xBF).

(** The second byte of a sequence of three or four excludes the overlong
    forms, the surrogates and the values above U+10FFFF. *)
Definition secondOfThree (b1 b2 : Z) : bool :=
  if b1 =? 0xE0 then (0xA0 <=? b2) && (b2 <=? 0xBF)
  else if b1 =? 0xED then (0x80 <=? b2) && (b2 <=? 0x9F)
  else isContinuation b2.
Definition secondOfFour (b1 b2 : Z) : bool :=
  if b1 =? 0xF0 then (0x90 <=? b2) && (b2 <=? 0xBF)
  else if b1 =? 0xF4 then (0x80 <=? b2) && (b2 <=? 0x8F)
  else isContinuation b2.

(** One step of the decoder: the scalar value at the head of the bytes and
    the bytes after it.  Bytes that begin no well-formed sequence are
    replaced, as far as they could have begun one, by one U+FFFD. *)
Definition decodeScalar (bytes : list Z) : option (Z * list Z) :=
  match bytes with
  | [] => None
  | b1 :: rest =>
      if b1 <? 0x80 then Some (b1, rest)
      else if (0xC2 <=? b1) && (b1 <=? 0xDF) then
        match rest with
        | b2 :: rest2 =>
            if isContinuation b2 then Some ((b1 - 0xC0) * 0x40 + (b2 - 0x80), rest2)
            else Some (0xFFFD, rest)
        | [] => Some (0xFFFD, rest)
        end
      else if (0xE0 <=? b1) && (b1 <=? 0xEF) then
        match rest with
        | b2 :: rest2 =>
            if secondOfThree b1 b2 then
              match rest2 with
              | b3 :: rest3 =>
                  if isContinuation b3
                  then Some ((b1 - 0xE0) * 0x1000 + (b2 - 0x80) * 0x40 + (b3 - 0x80), rest3)
                  else Some (0xFFFD, rest2)
              | [] => Some (0xFFFD, rest2)
              end
            else Some (0xFFFD, rest)
        | [] => Some (0xFFFD, rest)
        end
      else if (0xF0 <=? b1) && (b1 <=? 0xF4) then
        match rest with
        | b2 :: rest2 =>
            if secondOfFour b1 b2 then
              match rest2 with
              | b3 :: rest3 =>
                  if isContinuation b3 then
                    match rest3 with
                    | b4 :: rest4 =>
                        if isContinuation b4
                        then Some ((b1 - 0xF0) * 0x40000 + (b2 - 0x80) * 0x1000
                                   + (b3 - 0x80) * 0x40 + (b4 - 0x80), rest4)
                        else Some (0xFFFD, rest3)
                    | [] => Some (0xFFFD, rest3)
                    end
                  else Some (0xFFFD, rest2)
              | [] => Some (0xFFFD, rest2)
              end
            else Some (0xFFFD, rest)
        | [] => Some (0xFFFD, rest)
        end
      else Some (0xFFFD, rest)
  end.

(** Every step takes at least one byte, so the number of bytes is fuel
    enough. *)
Fixpoint scalarsOfUtf8 (fuel : nat) (bytes : list Z) : list Z :=
  match fuel with
  | O => []
  | S fuel' =>
      match decodeScalar bytes with
      | None => []
      | Some (v, rest) => v :: scalarsOfUtf8 fuel' rest
      end
  end.

Definition utf16OfScalar (v : Z) : list Z :=
  if v <? 0x10000 then [v]
  else [0xD800 + (v - 0x10000) / 0x400; 0xDC00 + (v - 0x10000) mod 0x400].

(** [Encoding.UTF8.GetString] *)
Definition UTF8_GetString (bytes : list Z) : Utf16 :=
  flat_map utf16OfScalar (scalarsOfUtf8 (length bytes) bytes).

(** Well-formed UTF-16: code units below 65536, every surrogate in a pair. *)
Fixpoint wellFormed (s : Utf16) : bool :=
  match s with
  | [] => true
  | c :: s' =>
      if isHighSurrogate c then
        match s' with
        | d :: s'' => isLowSurrogate d && wellFormed s''
        | [] => false
        end
      else negb (isLowSurrogate c) && (0 <=? c) && (c <? 0x10000) && wellFormed s'
  end.

(** The code units of a literal of ASCII characters. *)
Definition utf16 (s : string) : Utf16 :=
  map (fun c => Z.of_N (Ascii.N_of_ascii c)) (String.list_ascii_of_string s).

(** [Write(string)]; the null reference is refused. *)
Definition Write_String (value : option Utf16) : Outcome Exception (list Z) :=
  match value with
  | None => Thrown ArgumentNullException
  | Some s =>
      let bytes := UTF8_GetBytes s in
      Returned (Write7BitEncodedInt (Z.of_nat (length bytes)) ++ bytes)
  end.

Definition ReadString (input : list Z) : Outcome Exception (Utf16 * list Z) :=
  match Read7BitEncodedInt input with
  | Thrown e => Thrown e
  | Returned (stringLength, input) =>
      if stringLength <? 0 then Thrown IOException
      else if Z.of_nat (length input) <? stringLength then Thrown EndOfStreamException
      else Returned (UTF8_GetString (take (Z.to_nat stringLength) input),
                     drop (Z.to_nat stringLength) input)
  end.

(** ** The module *)

(** The field [_customData] (a value may be null), the file at
    [_cachePath] when it exists, and the warnings logged. *)
Record State := mkState {
  _customData : gmap Utf16 (option Utf16);
  cacheFile : option (list Z);
  warnings : list string
}.

Section Module.

(** The order in which a [Dictionary] enumerates its entries is its own
    affair: any order will do. *)
Variable enumerate : gmap Utf16 (option Utf16) -> list (Utf16 * option Utf16).
Hypothesis enumerate_entries : forall m, enumerate m ≡ₚ map_to_list m.

(** The [foreach] of SaveGuarded: what has been written when it ends. *)
Fixpoint SaveGuarded_entries (entries : list (Utf16 * option Utf16)) (out : list Z)
  : Outcome Exception unit * list Z :=
  match entries with
  | [] => (Returned tt, out)
  | e :: entries' =>
      match Write_String (Some (fst e)) with
      | Thrown ex => (Thrown ex, out)
      | Returned key =>
          match Write_String (snd e) with
          | Thrown ex => (Thrown ex, out ++ key)
          | Returned value => SaveGuarded_entries entries' (out ++ key ++ value)
          end
      end
  end.

Definition SaveGuarded (st : State) : Outcome Exception unit * State :=
  let out := Write_Int32 3 in
  let out := out ++ Write_Int32 (Z.of_nat (size (_customData st))) in
  let '(outcome, out) := SaveGuarded_entries (enumerate (_customData st)) out in
  (outcome, mkState (_customData st) (Some out) (warnings st)).

(** The [for] loop of LoadGuarded: the dictionary and the unread bytes. *)
Fixpoint LoadGuarded_entries (remaining : nat) (data : gmap Utf16 (option Utf16))
    (input : list Z) : Outcome Exception unit * gmap Utf16 (option Utf16) :=
  match remaining with
  | O => (Returned tt, data)
  | S remaining' =>
      match ReadString input with
      | Thrown ex => (Thrown ex, data)
      | Returned (key, input) =>
          match ReadString input with
          | Thrown ex => (Thrown ex, data)
          | Returned (value, input) =>
              match data !! key with
              | Some _ => (Thrown ArgumentException, data)
              | None => LoadGuarded_entries remaining' (<[key := Some value]> data) input
              end
          end
      end
  end.

Definition LoadGuarded (st : State) : Outcome Exception unit * State :=
  match cacheFile st with
  | None => (Thrown FileNotFoundException, st)
  | Some input =>
      match ReadInt32 input with
      | Thrown ex => (Thrown ex, st)
      | Returned (version, input) =>
          if version =? 1 then
            (Returned tt, mkState ∅ (cacheFile st) (warnings st))
          else if (version =? 2) || (version =? 3) then
            match ReadInt32 input with
            | Thrown ex => (Thrown ex, mkState ∅ (cacheFile st) (warnings st))
            | Returned (customDataCount, input) =>
                let '(outcome, data) :=
                  LoadGuarded_entries (Z.to_nat customDataCount) ∅ input in
                (outcome, mkState data (cacheFile st) (warnings st))
            end
          else
            (Returned tt,
             mkState (_customData st) (cacheFile st)
               (warnings st ++ ["Unknown editor cache version."]))
      end
  end.

(** ** The file as the specification words it *)

Definition entryBytes (e : Utf16 * Utf16) : list Z :=
  (Write7BitEncodedInt (Z.of_nat (length (UTF8_GetBytes (fst e)))) ++ UTF8_GetBytes (fst e))
  ++ (Write7BitEncodedInt (Z.of_nat (length (UTF8_GetBytes (snd e)))) ++ UTF8_GetBytes (snd e)).

(** Version 3, the count, the pairs. *)
Definition cacheFormat (entries : list (Utf16 * Utf16)) : list Z :=
  Write_Int32 3 ++ Write_Int32 (Z.of_nat (length entries)) ++ concat (map entryBytes entries).

(** What .NET guarantees of the sizes: byte counts and entry counts fit
    into [int]. *)
Definition fitsInt32 (m : gmap Utf16 (option Utf16)) : Prop :=
  Z.of_nat (size m) < 2 ^ 31
  /\ forall key value, m !! key = Some value ->
       Z.of_nat (length (UTF8_GetBytes key)) < 2 ^ 31
       /\ forall s, value = Some s -> Z.of_nat (length (UTF8_GetBytes s)) < 2 ^ 31.

(** Every key and every value that is a string is well-formed UTF-16. *)
Definition wellFormedStrings (m : gmap Utf16 (option Utf16)) : Prop :=
  forall key value, m !! key = Some value ->
    wellFormed key = true /\ forall s, value = Some s -> wellFormed s = true.

(* --------------------------------------------------------------------- *)
(** ** Properties                                                         *)
(* --------------------------------------------------------------------- *)

(** *** UTF-8 and back *)

Definition isScalar (v : Z) : Prop := 0 <= v < 0x110000 /\ (v < 0xD800 \/ 0xDFFF < v).

Ltac decide_test :=
  match goal with
  | |- context [?a <? ?b] => destruct (Z.ltb_spec a b)
  | |- context [?a <=? ?b] => destruct (Z.leb_spec a b)
  | |- context [?a =? ?b] => destruct (Z.eqb_spec a b)
  end; try (exfalso; Z.div_mod_to_equations; lia); cbn [andb orb negb].

Lemma decodeScalar_encodeScalar (v : Z) (rest : list Z) :
  isScalar v -> decodeScalar (encodeScalar v ++ rest) = Some (v, rest).
Proof.
  intros [Hrange [Hsur|Hsur]]; unfold encodeScalar;
    (destruct (Z.ltb_spec v 0x80);
       [|destruct (Z.ltb_spec v 0x800); [|destruct (Z.ltb_spec v 0x10000)]]);
    cbn [app decodeScalar]; unfold secondOfThree, secondOfFour, isContinuation;
    repeat decide_test; try reflexivity;
    do 2 f_equal; Z.div_mod_to_equations; lia.
Qed.

Lemma length_encodeScalar (v : Z) : (1 <= length (encodeScalar v))%nat.
Proof. unfold encodeScalar. repeat (destruct (_ <? _)); cbn; lia. Qed.

Lemma scalarsOfUtf8_encoded (vs : list Z) (fuel : nat) :
  Forall isScalar vs -> (length (flat_map encodeScalar vs) <= fuel)%nat ->
  scalarsOfUtf8 fuel (flat_map encodeScalar vs) = vs.
Proof.
  revert fuel. induction vs as [|v vs IH]; intros fuel Hvs Hfuel.
  - destruct fuel; reflexivity.
  - apply Forall_cons in Hvs as [Hv Hvs]. cbn [flat_map] in *.
    rewrite length_app in Hfuel. pose proof (length_encodeScalar v).
    destruct fuel as [|fuel]; [lia|]. cbn [scalarsOfUtf8].
    rewrite decodeScalar_encodeScalar by exact Hv. f_equal. apply IH; [exact Hvs|lia].
Qed.

Lemma scalarsOfUtf16_wellFormed (n : nat) : forall s,
  (length s <= n)%nat -> wellFormed s = true ->
  Forall isScalar (scalarsOfUtf16 s) /\ flat_map utf16OfScalar (scalarsOfUtf16 s) = s.
Proof.
  induction n as [|n IH]; intros s Hlen Hwf.
  - destruct s; [split; [constructor|reflexivity]|cbn in Hlen; lia].
  - destruct s as [|c s]; [split; [constructor|reflexivity]|].
    cbn [wellFormed scalarsOfUtf16] in *. cbn [length] in Hlen.
    destruct (isHighSurrogate c) eqn:Hhigh.
    + destruct s as [|d s]; [discriminate|].
      apply andb_true_iff in Hwf as [Hlow Hwf]. rewrite Hlow.
      destruct (IH s ltac:(cbn [length] in Hlen; lia) Hwf) as [Hall Hback].
      unfold isHighSurrogate in Hhigh. unfold isLowSurrogate in Hlow.
      apply andb_true_iff in Hhigh as [Hc1 Hc2]. apply andb_true_iff in Hlow as [Hd1 Hd2].
      apply Z.leb_le in Hc1, Hc2, Hd1, Hd2.
      split.
      * constructor; [unfold isScalar; lia|exact Hall].
      * cbn [flat_map]. rewrite Hback. unfold utf16OfScalar.
        destruct (Z.ltb_spec (0x10000 + (c - 0xD800) * 0x400 + (d - 0xDC00)) 0x10000); [lia|].
        cbn [app]. f_equal; [|f_equal]; Z.div_mod_to_equations; lia.
    + apply andb_true_iff in Hwf as [Hwf Hrest]. apply andb_true_iff in Hwf as [Hwf Hhi].
      apply andb_true_iff in Hwf as [Hlow Hlo]. apply negb_true_iff in Hlow. rewrite Hlow.
      destruct (IH s ltac:(lia) Hrest) as [Hall Hback].
      apply Z.leb_le in Hlo. apply Z.ltb_lt in Hhi.
      unfold isHighSurrogate in Hhigh. unfold isLowSurrogate in Hlow.
      split.
      * constructor; [|exact Hall]. unfold isScalar. split; [lia|].
        apply andb_false_iff in Hhigh, Hlow. rewrite !Z.leb_gt in Hhigh, Hlow. lia.
      * cbn [flat_map]. rewrite Hback. unfold utf16OfScalar.
        destruct (Z.ltb_spec c 0x10000); [reflexivity|lia].
Qed.

(** Well-formed strings survive the encoding. *)
Lemma UTF8_GetString_GetBytes (s : Utf16) :
  wellFormed s = true -> UTF8_GetString (UTF8_GetBytes s) = s.
Proof.
  intros Hwf. destruct (scalarsOfUtf16_wellFormed (length s) s (Nat.le_refl _) Hwf) as [Hall Hback].
  unfold UTF8_GetString, UTF8_GetBytes.
  rewrite scalarsOfUtf8_encoded by (try exact Hall; lia). exact Hback.
Qed.

(** *** Reading back what the writer wrote *)

Lemma to_int32_small (n : Z) : - 2 ^ 31 <= n < 2 ^ 31 -> to_int32 n = n.
Proof.
  intros Hn. unfold to_int32.
  change (2 ^ 31) with 2147483648 in *. change (2 ^ 32) with 4294967296.
  destruct (Z.ltb_spec (n mod 4294967296) 2147483648);
    pose proof (Z.mod_pos_bound n 4294967296 eq_refl);
    Z.div_mod_to_equations; lia.
Qed.

Lemma ReadInt32_Write_Int32 (n : Z) (rest : list Z) :
  - 2 ^ 31 <= n < 2 ^ 31 -> ReadInt32 (Write_Int32 n ++ rest) = Returned (n, rest).
Proof.
  intros Hn. unfold Write_Int32, ReadInt32. cbn [app].
  do 2 f_equal. rewrite <- (to_int32_small n Hn) at 5.
  unfold to_int32.
  change (2 ^ 8) with 256. change (2 ^ 16) with 65536. change (2 ^ 24) with 16777216.
  change (2 ^ 32) with 4294967296. change (2 ^ 31) with 2147483648.
  set (u := n mod 4294967296).
  assert (Hu : 0 <= u < 4294967296) by (apply Z.mod_pos_bound; lia).
  assert (Hsum : u mod 256 + u / 256 mod 256 * 256 + u / 65536 mod 256 * 65536
                 + u / 16777216 mod 256 * 16777216 = u)
    by (Z.div_mod_to_equations; lia).
  rewrite Hsum. subst u. rewrite Z.mod_mod by lia. reflexivity.
Qed.

Lemma Read7Bit_Write7Bit_loop (fuel : nat) (v count shift : Z) (rest : list Z) :
  (0 < fuel)%nat -> 0 <= v < 128 ^ Z.of_nat fuel -> 0 <= shift ->
  Read7BitEncodedInt_loop fuel count shift (Write7BitEncodedInt_loop fuel v ++ rest) =
  Returned (to_int32 (count + v * 2 ^ shift), rest).
Proof.
  revert v count shift. induction fuel as [|fuel IH]; intros v count shift Hf Hv Hs; [lia|].
  cbn [Write7BitEncodedInt_loop Read7BitEncodedInt_loop].
  destruct (Z.leb_spec 128 v) as [Hbig|Hsmall].
  - cbn [app].
    assert (Hb : 128 <= 128 + v mod 128) by (Z.div_mod_to_equations; lia).
    apply Z.leb_le in Hb. rewrite Hb.
    assert (Hmod : (128 + v mod 128) mod 128 = v mod 128).
    { rewrite <- Z.add_mod_idemp_l by lia. rewrite Z.mod_same by lia.
      rewrite Z.add_0_l. apply Z.mod_mod. lia. }
    rewrite Hmod.
    destruct fuel as [|fuel].
    { change (128 ^ Z.of_nat 1) with 128 in Hv. lia. }
    rewrite IH.
    + do 3 f_equal. rewrite Z.pow_add_r by lia. change (2 ^ 7) with 128.
      rewrite (Z.div_mod v 128) at 3 by lia. ring.
    + lia.
    + rewrite Nat2Z.inj_succ, Z.pow_succ_r in Hv by lia.
      split; [apply Z.div_pos; lia|]. apply Z.div_lt_upper_bound; lia.
    + lia.
  - cbn [app]. rewrite Z.mod_small by lia.
    destruct (Z.leb_spec 128 v); [lia|]. reflexivity.
Qed.

Lemma Read7Bit_Write7Bit (n : Z) (rest : list Z) :
  0 <= n < 2 ^ 31 ->
  Read7BitEncodedInt (Write7BitEncodedInt n ++ rest) = Returned (n, rest).
Proof.
  intros Hn. unfold Read7BitEncodedInt, Write7BitEncodedInt.
  change (2 ^ 31) with 2147483648 in Hn.
  rewrite Z.mod_small by (change (2 ^ 32) with 4294967296; lia).
  rewrite Read7Bit_Write7Bit_loop.
  - rewrite Z.add_0_l, Z.pow_0_r, Z.mul_1_r.
    rewrite to_int32_small by (change (2 ^ 31) with 2147483648; lia). reflexivity.
  - lia.
  - change (128 ^ Z.of_nat 5) with 34359738368. lia.
  - lia.
Qed.

(** Reading takes exactly the bytes the length announces. *)
Lemma ReadString_bytes (bytes rest : list Z) :
  Z.of_nat (length bytes) < 2 ^ 31 ->
  ReadString ((Write7BitEncodedInt (Z.of_nat (length bytes)) ++ bytes) ++ rest)
  = Returned (UTF8_GetString bytes, rest).
Proof.
  intros Hlen. unfold ReadString. rewrite <- app_assoc.
  rewrite Read7Bit_Write7Bit by lia.
  destruct (Z.ltb_spec (Z.of_nat (length bytes)) 0); [lia|].
  rewrite length_app.
  destruct (Z.ltb_spec (Z.of_nat (length bytes + length rest)) (Z.of_nat (length bytes)));
    [lia|].
  rewrite Nat2Z.id, take_app_length, drop_app_length. reflexivity.
Qed.

Lemma ReadString_Write_String (s : Utf16) (rest : list Z) :
  wellFormed s = true ->
  Z.of_nat (length (UTF8_GetBytes s)) < 2 ^ 31 ->
  ReadString ((Write7BitEncodedInt (Z.of_nat (length (UTF8_GetBytes s))) ++ UTF8_GetBytes s)
              ++ rest)
  = Returned (s, rest).
Proof.
  intros Hwf Hlen. rewrite ReadString_bytes by exact Hlen.
  rewrite UTF8_GetString_GetBytes by exact Hwf. reflexivity.
Qed.

(** *** The entries *)

(** An entry with a string value. *)
Definition stringEntry (e : Utf16 * Utf16) : Utf16 * option Utf16 := (e.1, Some e.2).

Lemma SaveGuarded_entries_strings (entries : list (Utf16 * Utf16)) (out : list Z) :
  SaveGuarded_entries (map stringEntry entries) out =
  (Returned tt, out ++ concat (map entryBytes entries)).
Proof.
  revert out. induction entries as [|e entries IH]; intros out; cbn [map concat].
  - rewrite app_nil_r. reflexivity.
  - cbn [SaveGuarded_entries Write_String stringEntry fst snd].
    rewrite IH. unfold entryBytes.
    rewrite <- !app_assoc. reflexivity.
Qed.

Lemma SaveGuarded_entries_returned (l : list (Utf16 * option Utf16)) (out out' : list Z) :
  SaveGuarded_entries l out = (Returned tt, out') ->
  exists entries, l = map stringEntry entries.
Proof.
  revert out. induction l as [|[key [value|]] l IH]; intros out; cbn.
  - intros _. exists []. reflexivity.
  - intros Hl. destruct (IH _ Hl) as [entries ->].
    exists ((key, value) :: entries). reflexivity.
  - discriminate.
Qed.

Lemma foldl_insert_fresh (l : list (Utf16 * option Utf16))
    (data : gmap Utf16 (option Utf16)) :
  NoDup l.*1 -> (forall key, key ∈ l.*1 -> data !! key = None) ->
  foldl (fun d e => <[e.1 := e.2]> d) data l = list_to_map l ∪ data.
Proof.
  revert data. induction l as [|[key value] l IH]; intros data Hnd Hfresh; cbn.
  - rewrite (left_id_L ∅ (∪)). reflexivity.
  - apply NoDup_cons in Hnd as [Hkey Hnd].
    rewrite IH.
    + rewrite <- insert_union_r by (apply not_elem_of_list_to_map_1; exact Hkey).
      rewrite insert_union_l. reflexivity.
    + exact Hnd.
    + intros k Hk. rewrite lookup_insert_ne.
      * apply Hfresh. cbn. apply list_elem_of_further. exact Hk.
      * intros ->. contradiction.
Qed.

Lemma LoadGuarded_entries_read (entries : list (Utf16 * Utf16))
    (data : gmap Utf16 (option Utf16)) (rest : list Z) :
  NoDup (map stringEntry entries).*1 ->
  (forall key, key ∈ (map stringEntry entries).*1 -> data !! key = None) ->
  (forall e, e ∈ entries ->
     Z.of_nat (length (UTF8_GetBytes e.1)) < 2 ^ 31
     /\ Z.of_nat (length (UTF8_GetBytes e.2)) < 2 ^ 31) ->
  (forall e, e ∈ entries -> wellFormed e.1 = true /\ wellFormed e.2 = true) ->
  LoadGuarded_entries (length entries) data (concat (map entryBytes entries) ++ rest) =
  (Returned tt, foldl (fun d e => <[e.1 := e.2]> d) data (map stringEntry entries)).
Proof.
  revert data.
  induction entries as [|[key value] entries IH]; intros data Hnd Hfresh Hfit Hwf;
    cbn [length map concat LoadGuarded_entries foldl]; [reflexivity|].
  destruct (Hfit (key, value)) as [Hk Hv]; [apply list_elem_of_here|]. cbn [fst snd] in Hk, Hv.
  destruct (Hwf (key, value)) as [Hwk Hwv]; [apply list_elem_of_here|].
  cbn [fst snd] in Hwk, Hwv.
  unfold entryBytes at 1. cbn [fst snd]. rewrite <- !app_assoc.
  rewrite (app_assoc (Write7BitEncodedInt (Z.of_nat (length (UTF8_GetBytes key))))).
  rewrite ReadString_Write_String by assumption.
  rewrite (app_assoc (Write7BitEncodedInt (Z.of_nat (length (UTF8_GetBytes value))))).
  rewrite ReadString_Write_String by assumption.
  cbn [map fmap list_fmap stringEntry fst] in Hnd, Hfresh.
  apply NoDup_cons in Hnd as [Hkey Hnd].
  rewrite (Hfresh key) by apply list_elem_of_here.
  cbn [stringEntry fst snd]. apply IH.
  - exact Hnd.
  - intros k Hin. rewrite lookup_insert_ne.
    + apply Hfresh. apply list_elem_of_further. exact Hin.
    + intros ->. contradiction.
  - intros e He. apply Hfit. apply list_elem_of_further. exact He.
  - intros e He. apply Hwf. apply list_elem_of_further. exact He.
Qed.

(** What a SaveGuarded that returned has written, and what LoadGuarded
    makes of it when the strings are well formed. *)
Lemma SaveGuarded_then_LoadGuarded (st saved : State) :
  fitsInt32 (_customData st) ->
  wellFormedStrings (_customData st) ->
  SaveGuarded st = (Returned tt, saved) ->
  (exists entries : list (Utf16 * Utf16),
      enumerate (_customData st) = map (fun e => (e.1, Some e.2)) entries
      /\ cacheFile saved =
         Some (Write_Int32 3 ++ Write_Int32 (Z.of_nat (length entries))
               ++ concat (map entryBytes entries)))
  /\ _customData saved = _customData st
  /\ (forall later : State, cacheFile later = cacheFile saved ->
        LoadGuarded later =
          (Returned tt, mkState (_customData st) (cacheFile later) (warnings later))
        /\ forall key, _customData (snd (LoadGuarded later)) !! key = _customData st !! key).
Proof.
  intros [Hsize Hfit] Hwf Hsave. unfold SaveGuarded in Hsave.
  destruct (SaveGuarded_entries _ _) as [outcome out] eqn:Hentries.
  assert (Houtcome : outcome = Returned tt) by congruence. subst outcome.
  assert (Hsaved : saved = mkState (_customData st) (Some out) (warnings st)) by congruence.
  subst saved. clear Hsave. cbn [_customData cacheFile].
  destruct (SaveGuarded_entries_returned _ _ _ Hentries) as [entries Hen].
  rewrite Hen, SaveGuarded_entries_strings in Hentries.
  assert (Hout : out = (Write_Int32 3 ++ Write_Int32 (Z.of_nat (size (_customData st))))
                       ++ concat (map entryBytes entries)) by congruence.
  subst out. clear Hentries.
  assert (Hperm : map stringEntry entries ≡ₚ map_to_list (_customData st))
    by (rewrite <- Hen; apply enumerate_entries).
  assert (Hcount : length entries = size (_customData st)).
  { rewrite <- (length_map stringEntry entries), Hperm. apply length_map_to_list. }
  assert (Hnd : NoDup (map stringEntry entries).*1).
  { rewrite Hperm. apply NoDup_fst_map_to_list. }
  assert (Hsmall : forall e, e ∈ entries ->
            Z.of_nat (length (UTF8_GetBytes e.1)) < 2 ^ 31 /\ Z.of_nat (length (UTF8_GetBytes e.2)) < 2 ^ 31).
  { intros [key value] He.
    assert (Hin : (key, Some value) ∈ map_to_list (_customData st)).
    { rewrite <- Hperm. apply (list_elem_of_fmap_2 stringEntry _ _ He). }
    apply elem_of_map_to_list in Hin. destruct (Hfit _ _ Hin) as [Hk Hv].
    split; [exact Hk|]. apply Hv. reflexivity. }
  assert (Hwell : forall e, e ∈ entries -> wellFormed e.1 = true /\ wellFormed e.2 = true).
  { intros [key value] He.
    assert (Hin : (key, Some value) ∈ map_to_list (_customData st)).
    { rewrite <- Hperm. apply (list_elem_of_fmap_2 stringEntry _ _ He). }
    apply elem_of_map_to_list in Hin. destruct (Hwf _ _ Hin) as [Hk Hv].
    split; [exact Hk|]. apply Hv. reflexivity. }
  split; [|split; [reflexivity|]].
  - exists entries. split; [exact Hen|]. rewrite Hcount, <- app_assoc. reflexivity.
  - intros later Hfile.
    assert (Hload : LoadGuarded later =
              (Returned tt, mkState (_customData st) (cacheFile later) (warnings later))).
    { unfold LoadGuarded. rewrite Hfile. rewrite <- app_assoc.
      rewrite ReadInt32_Write_Int32 by (change (2 ^ 31) with 2147483648; lia).
      change (3 =? 1) with false. change ((3 =? 2) || (3 =? 3)) with true. cbn match.
      rewrite ReadInt32_Write_Int32 by lia.
      rewrite <- Hcount, Nat2Z.id.
      rewrite <- (app_nil_r (concat (map entryBytes entries))).
      rewrite LoadGuarded_entries_read.
      - rewrite foldl_insert_fresh.
        + rewrite (right_id_L ∅ (∪)).
          rewrite <- (list_to_map_flip (_customData st) (map stringEntry entries));
            [reflexivity|symmetry; exact Hperm].
        + exact Hnd.
        + intros key _. apply lookup_empty.
      - exact Hnd.
      - intros key _. apply lookup_empty.
      - exact Hsmall.
      - exact Hwell. }
    split; [exact Hload|]. intros key. rewrite Hload. reflexivity.
Qed.

(** SaveGuarded returns whenever no value of the dictionary is null. *)
Lemma SaveGuarded_returns (st : State) :
  (forall key, _customData st !! key <> Some None) -> fst (SaveGuarded st) = Returned tt.
Proof.
  intros Hnonnull. unfold SaveGuarded.
  assert (Hen : exists entries, enumerate (_customData st) = map stringEntry entries).
  { assert (Hall : forall e, e ∈ enumerate (_customData st) -> e.2 <> None).
    { intros [key value] He. rewrite enumerate_entries in He.
      apply elem_of_map_to_list in He. cbn. intros ->. exact (Hnonnull key He). }
    induction (enumerate (_customData st)) as [|[key value] l IH].
    - exists []. reflexivity.
    - destruct IH as [entries ->].
      { intros e He. apply Hall. apply list_elem_of_further. exact He. }
      destruct value as [value|].
      + exists ((key, value) :: entries). reflexivity.
      + exfalso. apply (Hall (key, None)); [apply list_elem_of_here|reflexivity]. }
  destruct Hen as [entries ->]. rewrite SaveGuarded_entries_strings. reflexivity.
Qed.

(** C9 (as amended).  For a dictionary in which no value is null and every
    key and value is well-formed UTF-16, SaveGuarded returns, and the file
    holds the format version 3, the number of entries and then, entry by
    entry in the order of enumeration, the key and the value as
    length-prefixed UTF-8 strings.  LoadGuarded on a file with these bytes
    returns with the dictionary the file was written from, whatever its
    field held before; so every key reads back the value stored before the
    save. *)
Theorem C9_editor_cache_round_trip (st : State) :
  fitsInt32 (_customData st) ->
  (forall key, _customData st !! key <> Some None) ->
  wellFormedStrings (_customData st) ->
  exists saved,
    SaveGuarded st = (Returned tt, saved)
    /\ (exists entries : list (Utf16 * Utf16),
          enumerate (_customData st) = map (fun e => (e.1, Some e.2)) entries
          /\ cacheFile saved =
             Some (Write_Int32 3 ++ Write_Int32 (Z.of_nat (length entries))
                   ++ concat (map entryBytes entries)))
    /\ _customData saved = _customData st
    /\ (forall later : State, cacheFile later = cacheFile saved ->
          LoadGuarded later =
            (Returned tt, mkState (_customData st) (cacheFile later) (warnings later))
          /\ forall key,
               _customData (snd (LoadGuarded later)) !! key = _customData st !! key).
Proof.
  intros Hfit Hnonnull Hwf.
  pose proof (SaveGuarded_returns st Hnonnull) as Hret.
  destruct (SaveGuarded st) as [outcome saved] eqn:Hsave. cbn [fst] in Hret. subst outcome.
  exists saved. split; [reflexivity|].
  exact (SaveGuarded_then_LoadGuarded st saved Hfit Hwf Hsave).
Qed.

(* --------------------------------------------------------------------- *)
(** ** The public members, Load and Save                                  *)
(* --------------------------------------------------------------------- *)

(** What [Editor.LogWarning(ex)] and [Editor.LogError(text + ex.Message)]
    are called with when a guarded call failed. *)
Inductive FailureLine :=
  | LogWarningException (ex : Exception)
  | LogError (text : string) (ex : Exception).

(** The module object: the fields SaveGuarded and LoadGuarded work on
    (with the string warnings logged), the two other fields, and the
    failures logged.  A [DateTime] is a number. *)
Record Object := mkObject {
  fields : State;
  _isDirty : bool;
  _lastSaveTime : Z;
  failures : list FailureLine
}.

(** What leaves the dictionary members: a key that is not there, and the
    null reference as key. *)
Inductive DictionaryException := KeyNotFoundException | ArgumentNullKey.

Definition HasCustomData (key : option Utf16) (o : Object)
  : Outcome DictionaryException bool :=
  match key with
  | None => Thrown ArgumentNullKey
  | Some key => Returned (bool_decide (is_Some (_customData (fields o) !! key)))
  end.

(** [GetCustomData]: the value may be the null reference. *)
Definition GetCustomData (key : option Utf16) (o : Object)
  : Outcome DictionaryException (option Utf16) :=
  match key with
  | None => Thrown ArgumentNullKey
  | Some key =>
      match _customData (fields o) !! key with
      | Some value => Returned value
      | None => Thrown KeyNotFoundException
      end
  end.

(** [TryGetCustomData(string key, out string value)] *)
Definition TryGetCustomData (key : option Utf16) (o : Object)
  : Outcome DictionaryException (bool * option Utf16) :=
  match key with
  | None => Thrown ArgumentNullKey
  | Some key =>
      match _customData (fields o) !! key with
      | Some value => Returned (true, value)
      | None => Returned (false, None)
      end
  end.

Definition with_customData (data : gmap Utf16 (option Utf16)) (st : State) : State :=
  mkState data (cacheFile st) (warnings st).

(** [SetCustomData(string key, string value)] *)
Definition SetCustomData (key : option Utf16) (value : option Utf16) (o : Object)
  : Outcome DictionaryException unit * Object :=
  match key with
  | None => (Thrown ArgumentNullKey, o)
  | Some key =>
      (Returned tt,
       mkObject (with_customData (<[key := value]> (_customData (fields o))) (fields o))
         true (_lastSaveTime o) (failures o))
  end.

Definition RemoveCustomData (key : option Utf16) (o : Object)
  : Outcome DictionaryException unit * Object :=
  match key with
  | None => (Thrown ArgumentNullKey, o)
  | Some key =>
      let removed := bool_decide (is_Some (_customData (fields o) !! key)) in
      (Returned tt,
       mkObject (with_customData (delete key (_customData (fields o))) (fields o))
         (_isDirty o || removed) (_lastSaveTime o) (failures o))
  end.

(** [Load]; [UtcNow] is what [DateTime.UtcNow] gives. *)
Definition Load (UtcNow : Z) (o : Object) : Object :=
  match cacheFile (fields o) with
  | None =>
      mkObject (mkState (_customData (fields o)) (cacheFile (fields o))
                  (warnings (fields o) ++ ["Missing editor cache file."]))
        (_isDirty o) (_lastSaveTime o) (failures o)
  | Some _ =>
      match LoadGuarded (fields o) with
      | (Returned _, st) => mkObject st (_isDirty o) UtcNow (failures o)
      | (Thrown ex, st) =>
          mkObject st (_isDirty o) UtcNow
            (failures o ++ [LogWarningException ex;
                            LogError "Failed to load editor cache. " ex])
      end
  end.

Definition Save (UtcNow : Z) (o : Object) : Object :=
  if negb (_isDirty o) then o
  else
    match SaveGuarded (fields o) with
    | (Returned _, st) => mkObject st false UtcNow (failures o)
    | (Thrown ex, st) =>
        mkObject st (_isDirty o) UtcNow
          (failures o ++ [LogWarningException ex;
                          LogError "Failed to save editor cache. " ex])
    end.

Definition OnInit (UtcNow : Z) (o : Object) : Object := Load UtcNow o.
Definition OnExit (UtcNow : Z) (o : Object) : Object := Save UtcNow o.

(** The module object of an editor that starts with the file [file] on
    disk: nothing in memory, nothing logged. *)
Definition started (file : option (list Z)) : Object :=
  mkObject (mkState ∅ file []) false 0 [].

(** After SetCustomData the key holds the value for all three lookups and
    the object is dirty; no other key, and not the cache file, is touched.
    A null key is refused with ArgumentNullException and changes nothing. *)
Theorem SetCustomData_then_lookup (key : Utf16) (value : option Utf16) (o : Object) :
  let o' := snd (SetCustomData (Some key) value o) in
  fst (SetCustomData (Some key) value o) = Returned tt
  /\ GetCustomData (Some key) o' = Returned value
  /\ TryGetCustomData (Some key) o' = Returned (true, value)
  /\ HasCustomData (Some key) o' = Returned true
  /\ _isDirty o' = true
  /\ cacheFile (fields o') = cacheFile (fields o)
  /\ (forall other, other <> key ->
        GetCustomData (Some other) o' = GetCustomData (Some other) o
        /\ TryGetCustomData (Some other) o' = TryGetCustomData (Some other) o
        /\ HasCustomData (Some other) o' = HasCustomData (Some other) o)
  /\ SetCustomData None value o = (Thrown ArgumentNullKey, o).
Proof.
  intros o'. subst o'. unfold SetCustomData, GetCustomData, TryGetCustomData, HasCustomData.
  cbn [fst snd fields _customData with_customData cacheFile _isDirty].
  rewrite lookup_insert_eq.
  split; [reflexivity|]. split; [reflexivity|]. split; [reflexivity|].
  split; [rewrite bool_decide_eq_true_2 by (eexists; reflexivity); reflexivity|].
  split; [reflexivity|]. split; [reflexivity|]. split; [|reflexivity].
  intros other Hother. rewrite lookup_insert_ne by congruence. auto.
Qed.

(** After RemoveCustomData the key is gone for all three lookups, no other
    key is touched, and the object has become dirty only if the key was
    there: removing a key that is not there changes nothing at all. *)
Theorem RemoveCustomData_then_lookup (key : Utf16) (o : Object) :
  let o' := snd (RemoveCustomData (Some key) o) in
  fst (RemoveCustomData (Some key) o) = Returned tt
  /\ GetCustomData (Some key) o' = Thrown KeyNotFoundException
  /\ TryGetCustomData (Some key) o' = Returned (false, None)
  /\ HasCustomData (Some key) o' = Returned false
  /\ (forall other, other <> key ->
        GetCustomData (Some other) o' = GetCustomData (Some other) o
        /\ HasCustomData (Some other) o' = HasCustomData (Some other) o)
  /\ (HasCustomData (Some key) o = Returned true -> _isDirty o' = true)
  /\ (HasCustomData (Some key) o = Returned false -> o' = o).
Proof.
  intros o'. subst o'. unfold RemoveCustomData, GetCustomData, TryGetCustomData, HasCustomData.
  cbn [fst snd fields _customData with_customData cacheFile _isDirty].
  rewrite lookup_delete_eq.
  split; [reflexivity|]. split; [reflexivity|]. split; [reflexivity|].
  split; [rewrite bool_decide_eq_false_2 by (intros [x Hx]; discriminate); reflexivity|].
  split; [intros other Hother; rewrite lookup_delete_ne by congruence; auto|].
  split.
  - intros [= ->]. apply orb_true_r.
  - intros [= Hhas]. rewrite Hhas, orb_false_r.
    apply bool_decide_eq_false_1 in Hhas.
    rewrite delete_id by (destruct (_customData (fields o) !! key) eqn:E;
                          [exfalso; apply Hhas; eexists; reflexivity|reflexivity]).
    destruct o as [[data file warns] dirty time failed]. reflexivity.
Qed.

(** *** Reading a file in the format *)

(** LoadGuarded on a file that holds the format of the entries of a
    dictionary returns with that dictionary. *)
Lemma LoadGuarded_cacheFormat (entries : list (Utf16 * Utf16))
    (data : gmap Utf16 (option Utf16)) (later : State) :
  map stringEntry entries ≡ₚ map_to_list data ->
  fitsInt32 data ->
  wellFormedStrings data ->
  cacheFile later = Some (cacheFormat entries) ->
  LoadGuarded later = (Returned tt, mkState data (cacheFile later) (warnings later)).
Proof.
  intros Hperm [Hsize Hfit] Hwf Hfile.
  assert (Hcount : length entries = size data).
  { rewrite <- (length_map stringEntry entries), Hperm. apply length_map_to_list. }
  assert (Hnd : NoDup (map stringEntry entries).*1).
  { rewrite Hperm. apply NoDup_fst_map_to_list. }
  assert (Hsmall : forall e, e ∈ entries ->
            Z.of_nat (length (UTF8_GetBytes e.1)) < 2 ^ 31 /\ Z.of_nat (length (UTF8_GetBytes e.2)) < 2 ^ 31).
  { intros [key value] He.
    assert (Hin : (key, Some value) ∈ map_to_list data).
    { rewrite <- Hperm. apply (list_elem_of_fmap_2 stringEntry _ _ He). }
    apply elem_of_map_to_list in Hin. destruct (Hfit _ _ Hin) as [Hk Hv].
    split; [exact Hk|]. apply Hv. reflexivity. }
  assert (Hwell : forall e, e ∈ entries -> wellFormed e.1 = true /\ wellFormed e.2 = true).
  { intros [key value] He.
    assert (Hin : (key, Some value) ∈ map_to_list data).
    { rewrite <- Hperm. apply (list_elem_of_fmap_2 stringEntry _ _ He). }
    apply elem_of_map_to_list in Hin. destruct (Hwf _ _ Hin) as [Hk Hv].
    split; [exact Hk|]. apply Hv. reflexivity. }
  unfold LoadGuarded. rewrite Hfile. unfold cacheFormat.
  rewrite ReadInt32_Write_Int32 by (change (2 ^ 31) with 2147483648; lia).
  change (3 =? 1) with false. change ((3 =? 2) || (3 =? 3)) with true. cbn match.
  rewrite ReadInt32_Write_Int32 by lia.
  rewrite Nat2Z.id.
  rewrite <- (app_nil_r (concat (map entryBytes entries))).
  rewrite LoadGuarded_entries_read.
  - rewrite foldl_insert_fresh.
    + rewrite (right_id_L ∅ (∪)).
      rewrite <- (list_to_map_flip data (map stringEntry entries));
        [reflexivity|symmetry; exact Hperm].
    + exact Hnd.
    + intros key _. apply lookup_empty.
  - exact Hnd.
  - intros key _. apply lookup_empty.
  - exact Hsmall.
  - exact Hwell.
Qed.

(** What SaveGuarded leaves when no value is null. *)
Lemma SaveGuarded_cacheFormat (st : State) :
  (forall key, _customData st !! key <> Some None) ->
  exists entries,
    enumerate (_customData st) = map stringEntry entries
    /\ SaveGuarded st =
       (Returned tt, mkState (_customData st) (Some (cacheFormat entries)) (warnings st)).
Proof.
  intros Hnonnull.
  pose proof (SaveGuarded_returns st Hnonnull) as Hret.
  unfold SaveGuarded in *.
  destruct (SaveGuarded_entries _ _) as [outcome out] eqn:Hentries.
  cbn [fst] in Hret. subst outcome.
  destruct (SaveGuarded_entries_returned _ _ _ Hentries) as [entries Hen].
  exists entries. split; [exact Hen|].
  rewrite Hen, SaveGuarded_entries_strings in Hentries. injection Hentries as <-.
  assert (Hcount : length entries = size (_customData st)).
  { rewrite <- (length_map stringEntry entries), <- Hen, enumerate_entries.
    apply length_map_to_list. }
  unfold cacheFormat. rewrite Hcount. reflexivity.
Qed.

(** Save does nothing at all while the object is not dirty.  On a dirty
    object whose values are all strings it writes the cache file in the
    format (version 3, count, pairs), clears the flag and logs nothing.
    When a value is null, the ArgumentNullException of the writer is caught
    and logged, the object stays dirty, and the cache file has been replaced
    all the same. *)
Theorem Save_writes_only_when_dirty (UtcNow : Z) (o : Object) :
  (_isDirty o = false -> Save UtcNow o = o)
  /\ (_isDirty o = true ->
      (forall key, _customData (fields o) !! key <> Some None) ->
      exists entries,
        enumerate (_customData (fields o)) = map stringEntry entries
        /\ Save UtcNow o =
           mkObject (mkState (_customData (fields o)) (Some (cacheFormat entries))
                       (warnings (fields o)))
             false UtcNow (failures o))
  /\ (_isDirty o = true ->
      (exists key, _customData (fields o) !! key = Some None) ->
      exists written,
        Save UtcNow o =
        mkObject (mkState (_customData (fields o)) (Some written) (warnings (fields o)))
          true UtcNow
          (failures o ++ [LogWarningException ArgumentNullException;
                          LogError "Failed to save editor cache. " ArgumentNullException])).
Proof.
  split; [|split].
  - intros Hclean. unfold Save. rewrite Hclean. reflexivity.
  - intros Hdirty Hnonnull. destruct (SaveGuarded_cacheFormat _ Hnonnull) as (entries & Hen & Hsave).
    exists entries. split; [exact Hen|]. unfold Save. rewrite Hdirty, Hsave. reflexivity.
  - intros Hdirty [key Hkey]. unfold Save. rewrite Hdirty. cbn [negb].
    assert (Hin : (key, None) ∈ enumerate (_customData (fields o))).
    { rewrite enumerate_entries. apply elem_of_map_to_list. exact Hkey. }
    unfold SaveGuarded.
    assert (Hthrows : forall l out, (key, None) ∈ l ->
              exists out', SaveGuarded_entries l out = (Thrown ArgumentNullException, out')).
    { clear. induction l as [|[k [v|]] l IH]; intros out Hl.
      - inversion Hl.
      - apply elem_of_cons in Hl as [Hl|Hl]; [discriminate Hl|].
        cbn [SaveGuarded_entries Write_String fst snd]. apply IH. exact Hl.
      - cbn [SaveGuarded_entries Write_String fst snd]. eexists. reflexivity. }
    destruct (Hthrows _ (Write_Int32 3 ++ Write_Int32 (Z.of_nat (size (_customData (fields o)))))
                Hin) as [written Hwritten].
    rewrite Hwritten. exists written. reflexivity.
Qed.

(** The settings survive a restart: when a dirty object whose values are
    all strings, and whose keys and values are all well-formed UTF-16, is
    saved by OnExit, OnInit of the editor started next on that file loads
    the same dictionary and logs nothing. *)
Theorem OnExit_then_OnInit_restores (exitTime startTime : Z) (o : Object) :
  _isDirty o = true ->
  fitsInt32 (_customData (fields o)) ->
  (forall key, _customData (fields o) !! key <> Some None) ->
  wellFormedStrings (_customData (fields o)) ->
  let file := cacheFile (fields (OnExit exitTime o)) in
  OnInit startTime (started file) =
    mkObject (mkState (_customData (fields o)) file []) false startTime []
  /\ (forall key, GetCustomData (Some key) (OnInit startTime (started file)) =
                  GetCustomData (Some key) o).
Proof.
  intros Hdirty Hfit Hnonnull Hwf file.
  destruct (SaveGuarded_cacheFormat _ Hnonnull) as (entries & Hen & Hsaved).
  assert (Hfile : file = Some (cacheFormat entries)).
  { subst file. unfold OnExit, Save. rewrite Hdirty, Hsaved. reflexivity. }
  assert (Hperm : map stringEntry entries ≡ₚ map_to_list (_customData (fields o)))
    by (rewrite <- Hen; apply enumerate_entries).
  assert (Hload : OnInit startTime (started file) =
            mkObject (mkState (_customData (fields o)) file []) false startTime []).
  { unfold OnInit, Load, started. cbn [fields cacheFile]. rewrite Hfile.
    rewrite (LoadGuarded_cacheFormat entries (_customData (fields o))
               (mkState ∅ (Some (cacheFormat entries)) []) Hperm Hfit Hwf eq_refl).
    reflexivity. }
  split; [exact Hload|]. intros key. rewrite Hload. reflexivity.
Qed.

(** *** A file that ends too early *)

Lemma ReadString_nothing : ReadString [] = Thrown EndOfStreamException.
Proof. reflexivity. Qed.

(** A file that ends after the key of an entry cannot be loaded. *)
Lemma LoadGuarded_entries_truncated (before : list (Utf16 * Utf16)) (key : Utf16)
    (remaining : nat) (data : gmap Utf16 (option Utf16)) :
  (length before < remaining)%nat ->
  (forall e, e ∈ before ->
     Z.of_nat (length (UTF8_GetBytes e.1)) < 2 ^ 31 /\ Z.of_nat (length (UTF8_GetBytes e.2)) < 2 ^ 31) ->
  Z.of_nat (length (UTF8_GetBytes key)) < 2 ^ 31 ->
  exists ex data',
    LoadGuarded_entries remaining data
      (concat (map entryBytes before)
       ++ Write7BitEncodedInt (Z.of_nat (length (UTF8_GetBytes key))) ++ UTF8_GetBytes key)
    = (Thrown ex, data').
Proof.
  revert remaining data.
  induction before as [|[k v] before IH]; intros remaining data Hcount Hfit Hkey.
  - destruct remaining as [|remaining]; [cbn in Hcount; lia|].
    cbn [map concat app LoadGuarded_entries].
    rewrite <- (app_nil_r (_ ++ UTF8_GetBytes key)).
    rewrite ReadString_bytes by exact Hkey.
    rewrite ReadString_nothing. eexists _, _. reflexivity.
  - destruct remaining as [|remaining]; [cbn in Hcount; lia|].
    destruct (Hfit (k, v)) as [Hk Hv]; [apply list_elem_of_here|]. cbn [fst snd] in Hk, Hv.
    cbn [map concat LoadGuarded_entries]. unfold entryBytes at 1. cbn [fst snd].
    rewrite <- !app_assoc.
    rewrite (app_assoc (Write7BitEncodedInt (Z.of_nat (length (UTF8_GetBytes k))))).
    rewrite ReadString_bytes by exact Hk.
    rewrite (app_assoc (Write7BitEncodedInt (Z.of_nat (length (UTF8_GetBytes v))))).
    rewrite ReadString_bytes by exact Hv.
    destruct (data !! _); [eexists _, _; reflexivity|].
    apply IH.
    + cbn [length] in Hcount. lia.
    + intros e He. apply Hfit. apply list_elem_of_further. exact He.
    + exact Hkey.
Qed.

(** What SaveGuarded has written when it meets the first null value. *)
Lemma SaveGuarded_entries_null (before : list (Utf16 * Utf16)) (key : Utf16)
    (after : list (Utf16 * option Utf16)) (out : list Z) :
  SaveGuarded_entries (map stringEntry before ++ (key, None) :: after) out =
  (Thrown ArgumentNullException,
   out ++ concat (map entryBytes before)
       ++ Write7BitEncodedInt (Z.of_nat (length (UTF8_GetBytes key))) ++ UTF8_GetBytes key).
Proof.
  revert out. induction before as [|e before IH]; intros out.
  - cbn [map app concat SaveGuarded_entries Write_String fst snd].
    reflexivity.
  - cbn [map app concat SaveGuarded_entries Write_String stringEntry fst snd].
    rewrite IH. unfold entryBytes.
    rewrite <- !app_assoc. reflexivity.
Qed.

Lemma first_null_value (l : list (Utf16 * option Utf16)) (key : Utf16) :
  (key, None) ∈ l ->
  exists before key' after, l = map stringEntry before ++ (key', None) :: after.
Proof.
  induction l as [|[k [v|]] l IH]; intros Hin.
  - inversion Hin.
  - apply elem_of_cons in Hin as [Hin|Hin]; [discriminate Hin|].
    destruct (IH Hin) as (before & key' & after & ->).
    exists ((k, v) :: before), key', after. reflexivity.
  - exists [], k, l. reflexivity.
Qed.

(** A null value breaks the cache: when a dirty object holds a null value,
    Save fails and leaves a file that ends too early, and the editor
    started next on that file cannot load it: LoadGuarded throws, and
    OnInit logs the failure. *)
Theorem null_value_breaks_the_cache (exitTime startTime : Z) (o : Object) (key : Utf16) :
  _isDirty o = true ->
  fitsInt32 (_customData (fields o)) ->
  _customData (fields o) !! key = Some None ->
  let file := cacheFile (fields (OnExit exitTime o)) in
  _isDirty (OnExit exitTime o) = true
  /\ exists ex,
       fst (LoadGuarded (fields (started file))) = Thrown ex
       /\ failures (OnInit startTime (started file)) =
          [LogWarningException ex; LogError "Failed to load editor cache. " ex].
Proof.
  intros Hdirty [Hsize Hfit] Hkey file.
  assert (Hin : (key, None) ∈ enumerate (_customData (fields o))).
  { rewrite enumerate_entries. apply elem_of_map_to_list. exact Hkey. }
  destruct (first_null_value _ _ Hin) as (before & key' & after & Hen).
  assert (Hsave : SaveGuarded (fields o) =
            (Thrown ArgumentNullException,
             mkState (_customData (fields o))
               (Some ((Write_Int32 3 ++ Write_Int32 (Z.of_nat (size (_customData (fields o)))))
                      ++ concat (map entryBytes before)
                      ++ Write7BitEncodedInt (Z.of_nat (length (UTF8_GetBytes key')))
                      ++ UTF8_GetBytes key'))
               (warnings (fields o)))).
  { unfold SaveGuarded. rewrite Hen, SaveGuarded_entries_null. reflexivity. }
  assert (Hexit : OnExit exitTime o =
            mkObject (snd (SaveGuarded (fields o))) true exitTime
              (failures o ++ [LogWarningException ArgumentNullException;
                              LogError "Failed to save editor cache. " ArgumentNullException])).
  { unfold OnExit, Save. rewrite Hdirty, Hsave. reflexivity. }
  split; [rewrite Hexit; reflexivity|].
  assert (Hmember : forall e, e ∈ enumerate (_customData (fields o)) ->
            _customData (fields o) !! e.1 = Some e.2).
  { intros [k v] He. rewrite enumerate_entries in He.
    apply elem_of_map_to_list in He. exact He. }
  assert (Hsmall : forall e, e ∈ before ->
            Z.of_nat (length (UTF8_GetBytes e.1)) < 2 ^ 31 /\ Z.of_nat (length (UTF8_GetBytes e.2)) < 2 ^ 31).
  { intros [k v] He.
    assert (Hk : _customData (fields o) !! k = Some (Some v)).
    { apply (Hmember (k, Some v)). rewrite Hen. apply elem_of_app. left.
      apply (list_elem_of_fmap_2 stringEntry _ _ He). }
    destruct (Hfit _ _ Hk) as [Hlen Hval]. split; [exact Hlen|]. apply Hval. reflexivity. }
  assert (Hkey' : Z.of_nat (length (UTF8_GetBytes key')) < 2 ^ 31).
  { assert (Hk : _customData (fields o) !! key' = Some None).
    { apply (Hmember (key', None)). rewrite Hen. apply elem_of_app. right.
      apply list_elem_of_here. }
    exact (proj1 (Hfit _ _ Hk)). }
  assert (Hcount : (length before < size (_customData (fields o)))%nat).
  { rewrite <- (length_map_to_list (_customData (fields o))), <- enumerate_entries, Hen.
    rewrite length_app, length_map. cbn [length]. lia. }
  destruct (LoadGuarded_entries_truncated before key' (size (_customData (fields o))) ∅
              Hcount Hsmall Hkey') as (ex & data' & Htruncated).
  assert (Hfile : file = Some ((Write_Int32 3
                                ++ Write_Int32 (Z.of_nat (size (_customData (fields o)))))
                               ++ concat (map entryBytes before)
                               ++ Write7BitEncodedInt (Z.of_nat (length (UTF8_GetBytes key')))
                               ++ UTF8_GetBytes key')).
  { subst file. rewrite Hexit, Hsave. reflexivity. }
  assert (Hload : LoadGuarded (fields (started file)) =
            (Thrown ex, mkState data' file [])).
  { unfold LoadGuarded, started. cbn [fields cacheFile warnings]. rewrite Hfile.
    rewrite <- app_assoc.
    rewrite ReadInt32_Write_Int32 by (change (2 ^ 31) with 2147483648; lia).
    change (3 =? 1) with false. change ((3 =? 2) || (3 =? 3)) with true. cbn match.
    rewrite ReadInt32_Write_Int32 by lia.
    rewrite Nat2Z.id, Htruncated. reflexivity. }
  exists ex. split; [rewrite Hload; reflexivity|].
  unfold OnInit, Load. rewrite Hload.
  unfold started at 1. cbn [fields cacheFile]. rewrite Hfile. reflexivity.
Qed.

(** What Load does to the dictionary.  Without a file it logs "Missing
    editor cache file." and changes nothing else.  A file too short to hold
    the version, and a file of a version other than 1, 2 and 3, leave the
    dictionary as it was (the one logs a failure, the other the warning
    "Unknown editor cache version.").  For the versions 1, 2 and 3 the old
    entries are dropped before anything is read, so what is in memory after
    Load, however LoadGuarded ended, is decided by the file alone. *)
Theorem Load_keeps_or_replaces_the_dictionary (UtcNow : Z) (o : Object) :
  (cacheFile (fields o) = None ->
   Load UtcNow o =
   mkObject (mkState (_customData (fields o)) None
               (warnings (fields o) ++ ["Missing editor cache file."]))
     (_isDirty o) (_lastSaveTime o) (failures o))
  /\ (forall file, cacheFile (fields o) = Some file -> (length file < 4)%nat ->
        _customData (fields (Load UtcNow o)) = _customData (fields o)
        /\ failures (Load UtcNow o) =
           failures o ++ [LogWarningException EndOfStreamException;
                          LogError "Failed to load editor cache. " EndOfStreamException])
  /\ (forall file version rest,
        cacheFile (fields o) = Some file -> ReadInt32 file = Returned (version, rest) ->
        version <> 1 -> version <> 2 -> version <> 3 ->
        Load UtcNow o =
        mkObject (mkState (_customData (fields o)) (Some file)
                    (warnings (fields o) ++ ["Unknown editor cache version."]))
          (_isDirty o) UtcNow (failures o))
  /\ (forall file version rest other,
        cacheFile (fields o) = Some file -> ReadInt32 file = Returned (version, rest) ->
        version = 1 \/ version = 2 \/ version = 3 ->
        cacheFile (fields other) = Some file ->
        _customData (fields (Load UtcNow other)) = _customData (fields (Load UtcNow o))
        /\ (version = 1 -> _customData (fields (Load UtcNow o)) = ∅)).
Proof.
  split; [|split; [|split]].
  - intros Hnone. unfold Load. rewrite Hnone. reflexivity.
  - intros file Hfile Hshort. unfold Load, LoadGuarded. rewrite Hfile.
    destruct file as [|b0 [|b1 [|b2 [|b3 file]]]]; cbn in Hshort; try lia;
      cbn; split; reflexivity.
  - intros file version rest Hfile Hread H1 H2 H3. unfold Load, LoadGuarded.
    rewrite Hfile, Hread.
    destruct (Z.eqb_spec version 1); [contradiction|].
    destruct (Z.eqb_spec version 2); [contradiction|].
    destruct (Z.eqb_spec version 3); [contradiction|].
    reflexivity.
  - intros file version rest other Hfile Hread Hversion Hother.
    unfold Load, LoadGuarded. rewrite Hfile, Hother, Hread.
    destruct (Z.eqb_spec version 1) as [H1|H1]; [split; reflexivity|].
    assert (H23 : (version =? 2) || (version =? 3) = true).
    { destruct Hversion as [?|[->| ->]]; [contradiction|reflexivity|reflexivity]. }
    rewrite H23. split; [|intros; contradiction].
    destruct (ReadInt32 rest) as [[customDataCount input]|ex]; [|reflexivity].
    destruct (LoadGuarded_entries (Z.to_nat customDataCount) ∅ input) as [[u|ex] data];
      reflexivity.
Qed.

End Module.

(** ** A cache with two settings *)
Module Session.

(** The window state, and a project folder named "Café" with an emoji. *)
Definition settings : gmap Utf16 (option Utf16) :=
  <[utf16 "WindowMaximized" := Some (utf16 "True")]>
    (<[utf16 "LastProject" :=
         Some (utf16 "C:\Games\Caf" ++ [0xE9; 0x20; 0xD83D; 0xDE00])]> ∅).

Definition running : State := mkState settings None [].

(** The editor after a restart: nothing in memory, the file on disk. *)
Definition restarted (file : option (list Z)) : State := mkState ∅ file [].

End Session.

(** ** A title cut in the middle of an emoji *)
Module Mangled.

(** The high surrogate of the emoji is left alone at the end. *)
Definition title : Utf16 := utf16 "Demo " ++ [0xD83D].

Definition titled : State := mkState (<[utf16 "Title" := Some title]> ∅) None [].

(** The title was given the null reference. *)
Definition untitled : State := mkState (<[utf16 "Title" := None]> ∅) None [].

End Mangled.

Import Session.

Lemma settings_fit : fitsInt32 settings.
Proof.
  split; [vm_compute; reflexivity|].
  intros key value Hlookup. unfold settings in Hlookup.
  apply lookup_insert_Some in Hlookup as [[<- <-]|[_ Hlookup]];
    [split; [vm_compute; reflexivity|intros s [= <-]; vm_compute; reflexivity]|].
  apply lookup_insert_Some in Hlookup as [[<- <-]|[_ Hlookup]];
    [split; [vm_compute; reflexivity|intros s [= <-]; vm_compute; reflexivity]|].
  rewrite lookup_empty in Hlookup. discriminate Hlookup.
Qed.

Lemma settings_are_strings (key : Utf16) : settings !! key <> Some None.
Proof.
  intros Hlookup. unfold settings in Hlookup.
  apply lookup_insert_Some in Hlookup as [[_ Hnull]|[_ Hlookup]]; [discriminate Hnull|].
  apply lookup_insert_Some in Hlookup as [[_ Hnull]|[_ Hlookup]]; [discriminate Hnull|].
  rewrite lookup_empty in Hlookup. discriminate Hlookup.
Qed.

Lemma settings_well_formed : wellFormedStrings settings.
Proof.
  intros key value Hlookup. unfold settings in Hlookup.
  apply lookup_insert_Some in Hlookup as [[<- <-]|[_ Hlookup]];
    [split; [reflexivity|intros s [= <-]; reflexivity]|].
  apply lookup_insert_Some in Hlookup as [[<- <-]|[_ Hlookup]];
    [split; [reflexivity|intros s [= <-]; reflexivity]|].
  rewrite lookup_empty in Hlookup. discriminate Hlookup.
Qed.

(** C9, witness: the two settings survive a save and a restart. *)
Lemma C9_witness_two_settings :
  exists saved,
    SaveGuarded map_to_list running = (Returned tt, saved)
    /\ LoadGuarded (restarted (cacheFile saved)) =
       (Returned tt, mkState settings (cacheFile saved) []).
Proof.
  destruct (C9_editor_cache_round_trip map_to_list (fun m => reflexivity _) running
              settings_fit settings_are_strings settings_well_formed)
    as (saved & Hsave & _ & _ & Hload).
  exists saved. split; [exact Hsave|].
  exact (proj1 (Hload (restarted (cacheFile saved)) eq_refl)).
Defined.

(** C9, counterexample to the claim as stated.  The title ends in a high
    surrogate without its partner.  SaveGuarded returns and LoadGuarded
    reads the file it wrote, but the value read back for the key is not the
    value stored before the save: the lone surrogate has become U+FFFD.  And
    with the null reference for the title SaveGuarded throws, and the file it
    leaves cannot be loaded at all. *)
Lemma C9_counterexample_unpaired_surrogate :
  exists saved loaded,
    SaveGuarded map_to_list Mangled.titled = (Returned tt, saved)
    /\ LoadGuarded (restarted (cacheFile saved)) = (Returned tt, loaded)
    /\ _customData Mangled.titled !! utf16 "Title" = Some (Some (utf16 "Demo " ++ [0xD83D]))
    /\ _customData loaded !! utf16 "Title" = Some (Some (utf16 "Demo " ++ [0xFFFD]))
    /\ exists partial,
         SaveGuarded map_to_list Mangled.untitled = (Thrown ArgumentNullException, partial)
         /\ fst (LoadGuarded (restarted (cacheFile partial))) = Thrown EndOfStreamException.
Proof.
  exists (snd (SaveGuarded map_to_list Mangled.titled)).
  exists (snd (LoadGuarded
                 (restarted (cacheFile (snd (SaveGuarded map_to_list Mangled.titled)))))).
  split; [vm_compute; reflexivity|]. split; [vm_compute; reflexivity|].
  split; [vm_compute; reflexivity|]. split; [vm_compute; reflexivity|].
  exists (snd (SaveGuarded map_to_list Mangled.untitled)).
  split; vm_compute; reflexivity.
Qed.

(** ** An editor at work *)
Module Desk.

(** The two settings were changed since the editor started. *)
Definition working : Object := mkObject running true 0 [].

(** A third setting was given the null reference for its value. *)
Definition careless : Object :=
  mkObject (mkState (<[utf16 "Broken" := None]> settings) None []) true 0 [].

End Desk.

Import Desk.

Lemma careless_settings_fit : fitsInt32 (<[utf16 "Broken" := None]> settings).
Proof.
  destruct settings_fit as [Hsize Hfit].
  split.
  - pose proof (map_size_insert (utf16 "Broken") (None : option Utf16) settings) as Hinsert.
    assert (Htwo : size settings = 2%nat) by (vm_compute; reflexivity).
    destruct (settings !! utf16 "Broken"); rewrite Hinsert, Htwo; vm_compute; reflexivity.
  - intros key value Hlookup.
    destruct (decide (key = utf16 "Broken")) as [->|Hne].
    + rewrite lookup_insert_eq in Hlookup. injection Hlookup as <-.
      split; [vm_compute; reflexivity|discriminate].
    + rewrite lookup_insert_ne in Hlookup by congruence. exact (Hfit _ _ Hlookup).
Qed.

(** Witness: the two settings are written at the next save. *)
Lemma Save_writes_only_when_dirty_witness :
  exists entries,
    Save map_to_list 5 working =
    mkObject (mkState settings (Some (cacheFormat entries)) []) false 5 [].
Proof.
  destruct (Save_writes_only_when_dirty map_to_list (fun m => reflexivity _) 5 working)
    as (_ & Hdirty & _).
  destruct (Hdirty eq_refl settings_are_strings) as (entries & _ & Hsave).
  exists entries. exact Hsave.
Defined.

(** Witness: the two settings are there again after the restart. *)
Lemma OnExit_then_OnInit_restores_witness :
  OnInit 9 (started (cacheFile (fields (OnExit map_to_list 5 working)))) =
  mkObject (mkState settings (cacheFile (fields (OnExit map_to_list 5 working))) [])
    false 9 [].
Proof.
  exact (proj1 (OnExit_then_OnInit_restores map_to_list (fun m => reflexivity _) 5 9 working
                  eq_refl settings_fit settings_are_strings settings_well_formed)).
Defined.

(** Witness: with the null value the save fails and the file it leaves
    cannot be loaded. *)
Lemma null_value_breaks_the_cache_witness :
  _isDirty (OnExit map_to_list 5 careless) = true
  /\ exists ex,
       fst (LoadGuarded (fields (started (cacheFile (fields (OnExit map_to_list 5 careless))))))
       = Thrown ex.
Proof.
  destruct (null_value_breaks_the_cache map_to_list (fun m => reflexivity _) 5 9 careless
              (utf16 "Broken") eq_refl careless_settings_fit (lookup_insert_eq _ _ _))
    as (Hdirty & ex & Hload & _).
  split; [exact Hdirty|]. exists ex. exact Hload.
Defined.

End EditorCacheModule.

(* ===================================================================== *)
(** * ModelTool: ImportedModelData::LOD::GetBox                           *)
(* ===================================================================== *)

Module ModelTool.


(** [int32] arithmetic of the loop counter. *)
Definition to_int32 (z : Z) : Z :=
  let u := z mod 2 ^ 32 in if u <? 2 ^ 31 then u else u - 2 ^ 32.

Section GetBox.

(** [Vector3], [BoundingBox] with [Empty] and [Merge], and
    [MeshData::CalculateBox] are declared outside the embedded sources.
    [CalculateBox] works on the box it is given by reference; a local
    [BoundingBox] starts out with whatever [uninitialized] is. *)
Variable Vector3 : Type.
Variable BoundingBox : Type.
Variable BoundingBox_Empty : BoundingBox.
Variable BoundingBox_Merge : BoundingBox -> BoundingBox -> BoundingBox.
Variable uninitialized : BoundingBox.

Record MeshData := mkMeshData { Positions : list Vector3 }.

Variable CalculateBox : MeshData -> BoundingBox -> BoundingBox.

(** [Array<T>::HasItems], [IsEmpty] and [Count]. *)
Definition HasItems {A} (a : list A) : bool :=
  match a with [] => false | _ :: _ => true end.
Definition IsEmpty {A} (a : list A) : bool := negb (HasItems a).
Definition Count {A} (a : list A) : Z := Z.of_nat (length a).

Record LOD := mkLOD { Meshes : list MeshData }.

(** [for (int32 i = ...; i < Meshes.Count(); i++)] *)
Fixpoint GetBox_loop (fuel : nat) (meshes : list MeshData) (i : Z) (box : BoundingBox)
  : BoundingBox :=
  match fuel with
  | O => box
  | S fuel' =>
      if i <? Count meshes then
        let box :=
          match meshes !! Z.to_nat i with
          | Some mesh =>
              if HasItems (Positions mesh) then
                let t := CalculateBox mesh uninitialized in
                BoundingBox_Merge box t
              else box
          | None => box
          end in
        GetBox_loop fuel' meshes (to_int32 (i + 1)) box
      else box
  end.

Definition GetBox (lod : LOD) : BoundingBox :=
  if IsEmpty (Meshes lod) then BoundingBox_Empty
  else
    match Meshes lod !! 0%nat with
    | Some mesh0 =>
        let box := CalculateBox mesh0 uninitialized in
        GetBox_loop (length (Meshes lod)) (Meshes lod) 1 box
    | None => BoundingBox_Empty
    end.

(** ** The box as the specification words it *)

(** The box of one mesh. *)
Definition boxOf (mesh : MeshData) : BoundingBox := CalculateBox mesh uninitialized.

Definition mergedBox (meshes : list MeshData) : BoundingBox :=
  match meshes with
  | [] => BoundingBox_Empty
  | mesh0 :: later =>
      foldl (fun box mesh => BoundingBox_Merge box (boxOf mesh)) (boxOf mesh0)
            (filter (fun mesh => HasItems (Positions mesh) = true) later)
  end.

(* --------------------------------------------------------------------- *)
(** ** Properties                                                         *)
(* --------------------------------------------------------------------- *)

Lemma to_int32_nonneg (n : Z) : 0 <= n < 2 ^ 31 -> to_int32 n = n.
Proof.
  intros Hn. unfold to_int32.
  change (2 ^ 31) with 2147483648 in *. change (2 ^ 32) with 4294967296.
  rewrite Z.mod_small by lia.
  destruct (Z.ltb_spec n 2147483648); lia.
Qed.

(** The loop from index [i] on merges the boxes of the meshes from there
    on that have positions. *)
Lemma GetBox_loop_from (before later : list MeshData) (fuel : nat) (box : BoundingBox) :
  Z.of_nat (length (before ++ later)) < 2 ^ 31 ->
  (length later <= fuel)%nat ->
  GetBox_loop fuel (before ++ later) (Z.of_nat (length before)) box =
  foldl (fun box mesh => BoundingBox_Merge box (boxOf mesh)) box
        (filter (fun mesh => HasItems (Positions mesh) = true) later).
Proof.
  revert before fuel box.
  induction later as [|mesh later IH]; intros before fuel box Hsize Hfuel.
  - rewrite app_nil_r. destruct fuel as [|fuel]; [reflexivity|].
    cbn [GetBox_loop]. unfold Count.
    destruct (Z.ltb_spec (Z.of_nat (length before)) (Z.of_nat (length before))); [lia|].
    reflexivity.
  - destruct fuel as [|fuel]; [cbn in Hfuel; lia|].
    cbn [GetBox_loop]. unfold Count. rewrite length_app. cbn [length].
    destruct (Z.ltb_spec (Z.of_nat (length before))
                (Z.of_nat (length before + S (length later)))); [|lia].
    rewrite Nat2Z.id, list_lookup_middle by reflexivity.
    rewrite length_app in Hsize. cbn [length] in Hsize.
    rewrite to_int32_nonneg by lia.
    replace (Z.of_nat (length before) + 1) with (Z.of_nat (length (before ++ [mesh])))
      by (rewrite length_app; cbn [length]; lia).
    replace (before ++ mesh :: later) with ((before ++ [mesh]) ++ later)
      by (rewrite <- app_assoc; reflexivity).
    rewrite IH.
    + rewrite filter_cons. unfold boxOf.
      destruct (HasItems (Positions mesh)) eqn:Hitems.
      * rewrite decide_True by reflexivity. reflexivity.
      * rewrite decide_False by discriminate. reflexivity.
    + rewrite !length_app. cbn [length]. lia.
    + cbn [length] in Hfuel. lia.
Qed.

(** C10.  GetBox returns BoundingBox::Empty for a LOD without meshes.
    Otherwise it returns the box of mesh 0, whether or not that mesh has
    positions, merged in index order with the box of every later mesh whose
    Positions array is not empty; a later mesh without positions
    contributes nothing. *)
Theorem C10_GetBox_merges_nonempty_meshes (lod : LOD) :
  Z.of_nat (length (Meshes lod)) < 2 ^ 31 ->
  (Meshes lod = [] -> GetBox lod = BoundingBox_Empty)
  /\ (forall mesh0 later, Meshes lod = mesh0 :: later ->
        GetBox lod =
        foldl (fun box mesh => BoundingBox_Merge box (CalculateBox mesh uninitialized))
              (CalculateBox mesh0 uninitialized)
              (filter (fun mesh => HasItems (Positions mesh) = true) later))
  /\ GetBox lod = mergedBox (Meshes lod)
  /\ (forall mesh0 before mesh after,
        Meshes lod = mesh0 :: before ++ mesh :: after -> Positions mesh = [] ->
        GetBox lod = GetBox (mkLOD (mesh0 :: before ++ after))).
Proof.
  intros Hsize.
  assert (Hcons : forall l mesh0 later, l = mesh0 :: later ->
            Z.of_nat (length l) < 2 ^ 31 ->
            GetBox (mkLOD l) = mergedBox l).
  { intros l mesh0 later -> Hl. unfold GetBox. cbn [Meshes IsEmpty HasItems negb lookup].
    change ((mesh0 :: later) !! 0%nat) with (Some mesh0).
    cbn [mergedBox].
    exact (GetBox_loop_from [mesh0] later (length (mesh0 :: later))
             (CalculateBox mesh0 uninitialized) Hl (Nat.le_succ_diag_r _)). }
  destruct lod as [meshes]. cbn [Meshes] in *.
  split; [intros ->; reflexivity|].
  split; [intros mesh0 later ->; exact (Hcons _ mesh0 later eq_refl Hsize)|].
  split.
  - destruct meshes as [|mesh0 later]; [reflexivity|].
    exact (Hcons _ mesh0 later eq_refl Hsize).
  - intros mesh0 before mesh after -> Hempty.
    rewrite (Hcons _ mesh0 _ eq_refl Hsize).
    rewrite (Hcons _ mesh0 (before ++ after) eq_refl).
    + cbn [mergedBox]. rewrite !filter_app, filter_cons.
      rewrite Hempty. cbn [HasItems].
      rewrite decide_False by discriminate. reflexivity.
    + cbn [length] in *. rewrite length_app in *. cbn [length] in Hsize. lia.
Qed.

End GetBox.

(** ** Boxes of points on a line *)
Module Line.

(** A box is the interval of the coordinates seen. *)
Definition emptyBox : Z * Z := (2147483647, -2147483648).
Definition merge (a b : Z * Z) : Z * Z := (Z.min a.1 b.1, Z.max a.2 b.2).
Definition fromPoints (mesh : MeshData Z) (box : Z * Z) : Z * Z :=
  match Positions Z mesh with
  | [] => box
  | p :: ps => (foldl Z.min p ps, foldl Z.max p ps)
  end.

Definition threeMeshes : LOD Z :=
  mkLOD Z [mkMeshData Z [3; 5]; mkMeshData Z []; mkMeshData Z [-2; 4]].

End Line.

Import Line.

(** C10, witness: three meshes, the middle one without positions. *)
Lemma C10_witness_three_meshes :
  Z.of_nat (length (Meshes Z threeMeshes)) < 2 ^ 31
  /\ GetBox Z (Z * Z) emptyBox merge (0, 0) fromPoints threeMeshes = (-2, 5)
  /\ GetBox Z (Z * Z) emptyBox merge (0, 0) fromPoints (mkLOD Z []) = emptyBox.
Proof.
  assert (H3 : Z.of_nat (length (Meshes Z threeMeshes)) < 2 ^ 31) by (vm_compute; reflexivity).
  assert (H0 : Z.of_nat (length (Meshes Z (mkLOD Z []))) < 2 ^ 31) by (vm_compute; reflexivity).
  destruct (C10_GetBox_merges_nonempty_meshes Z (Z * Z) emptyBox merge (0, 0) fromPoints
              threeMeshes H3) as (_ & _ & Hbox & _).
  destruct (C10_GetBox_merges_nonempty_meshes Z (Z * Z) emptyBox merge (0, 0) fromPoints
              (mkLOD Z []) H0) as (Hempty & _).
  split; [exact H3|]. split.
  - rewrite Hbox. vm_compute. reflexivity.
  - apply Hempty. reflexivity.
Defined.

End ModelTool.
